(** * Synthetic fraud-transaction producer: generator, delivery client, loop

    A shallow embedding of [producer/data_generator.py],
    [producer/kinesis_producer.py] and the batch loop of [producer/main.py],
    with the properties the specification states about them.

    Python values are modelled as the interpreter holds them: [int] as [Z],
    [float] as an IEEE-754 binary64 value ([spec_float] with precision 53 and
    maximal exponent 1024), exceptions as an error result, attribute and
    global state as explicit state passing.  The libraries the code calls
    ([random], [uuid], [faker], [datetime], [time], [json], the float power
    operator, the Kinesis client) are interfaces (type classes) whose
    operations thread their own state and raise where the library does. *)

From Stdlib Require Import ZArith List Bool String Lia SpecFloat.
Import ListNotations.
Open Scope Z_scope.

(* ================================================================== *)
(** * Python numbers *)
(* ================================================================== *)

Module PyNum.

(** Binary64. *)
Definition prec : Z := 53.
Definition emax : Z := 1024.

Definition float := spec_float.

Definition fadd : float -> float -> float := SFadd prec emax.
Definition fsub : float -> float -> float := SFsub prec emax.
Definition fmul : float -> float -> float := SFmul prec emax.
Definition fdiv : float -> float -> float := SFdiv prec emax.
Definition fabs : float -> float := SFabs.

(** [float(z)]: the binary64 nearest to the integer [z]. *)
Definition float_of_int (z : Z) : float := binary_normalize prec emax z 0 false.

(** The integer [z] as an exact (not normalised) operand of a correctly
    rounded operation. *)
Definition exact_int (z : Z) : float :=
  match z with
  | Z0 => S754_zero false
  | Zpos p => S754_finite false p 0
  | Zneg p => S754_finite true p 0
  end.

(** [a / b] on two ints: the correctly rounded quotient, or
    [ZeroDivisionError] (here [None]). *)
Definition int_truediv (a b : Z) : option float :=
  if b =? 0 then None else Some (fdiv (exact_int a) (exact_int b)).

(** A Python number as the generator handles them: the clamp of
    [_generate_normal_amount] returns either one of the [int] bounds or the
    [float] draw. *)
Inductive number :=
| PInt (z : Z)
| PFloat (f : float).

(** The extended real a number denotes: a finite value is [m * 2^e]. *)
Inductive xreal :=
| XNaN
| XNegInf
| XFin (m e : Z)
| XPosInf.

Definition xreal_of_float (f : float) : xreal :=
  match f with
  | S754_zero _ => XFin 0 0
  | S754_infinity false => XPosInf
  | S754_infinity true => XNegInf
  | S754_nan => XNaN
  | S754_finite s m e => XFin (cond_Zopp s (Zpos m)) e
  end.

Definition xreal_of_number (n : number) : xreal :=
  match n with
  | PInt z => XFin z 0
  | PFloat f => xreal_of_float f
  end.

(** [m1 * 2^e1] against [m2 * 2^e2], exactly. *)
Definition cmp_scaled (m1 e1 m2 e2 : Z) : comparison :=
  let e := Z.min e1 e2 in
  (m1 * 2 ^ (e1 - e)) ?= (m2 * 2 ^ (e2 - e)).

(** Python compares an [int] with a [float], and two floats, by value;
    a comparison with NaN is unordered ([None]). *)
Definition xreal_compare (a b : xreal) : option comparison :=
  match a, b with
  | XNaN, _ | _, XNaN => None
  | XNegInf, XNegInf => Some Eq
  | XNegInf, _ => Some Lt
  | _, XNegInf => Some Gt
  | XPosInf, XPosInf => Some Eq
  | XPosInf, _ => Some Gt
  | _, XPosInf => Some Lt
  | XFin m1 e1, XFin m2 e2 => Some (cmp_scaled m1 e1 m2 e2)
  end.

Definition num_compare (a b : number) : option comparison :=
  xreal_compare (xreal_of_number a) (xreal_of_number b).

(** [a < b] and [a <= b]. *)
Definition num_lt (a b : number) : bool :=
  match num_compare a b with Some Lt => true | _ => false end.

Definition num_le (a b : number) : bool :=
  match num_compare a b with Some Lt | Some Eq => true | _ => false end.

(** [min(a, b)] keeps its first argument unless the second is smaller;
    [max(a, b)] keeps its first argument unless the second is greater. *)
Definition py_min (a b : number) : number := if num_lt b a then b else a.
Definition py_max (a b : number) : number := if num_lt a b then b else a.

(** Nearest integer to [n / d] for [0 < d], ties to even. *)
Definition round_half_even_div (n d : Z) : Z :=
  let q := n / d in
  let r := n mod d in
  match 2 * r ?= d with
  | Lt => q
  | Gt => q + 1
  | Eq => if Z.even q then q else q + 1
  end.

(** Nearest integer to [100 * m * 2^e], ties to even: the decimal digits
    [round(x, 2)] keeps, read on the exact binary value of [x]. *)
Definition hundredths (m : positive) (e : Z) : Z :=
  if 0 <=? e then 100 * Zpos m * 2 ^ e
  else round_half_even_div (100 * Zpos m) (2 ^ (- e)).

(** [round(x, 2)] on a float: the exact value is rounded to two decimals
    (ties to even) and the decimal [q / 100] is converted back to the
    nearest binary64; zeros, infinities and NaN round to themselves. *)
Definition float_round2 (x : float) : float :=
  match x with
  | S754_finite s m e =>
      match hundredths m e with
      | Zpos q => fdiv (S754_finite s q 0) (S754_finite false 100 0)
      | _ => S754_zero s
      end
  | _ => x
  end.

(** [round(n, 2)]: an [int] is returned unchanged. *)
Definition py_round2 (n : number) : number :=
  match n with
  | PInt z => PInt z
  | PFloat f => PFloat (float_round2 f)
  end.

(** The float [f] is exactly the rational [n / d], for [0 < d]. *)
Definition float_is_ratio (f : float) (n d : Z) : Prop :=
  match xreal_of_float f with
  | XFin m e => cmp_scaled (m * d) e n 0 = Eq
  | _ => False
  end.

(** The floats 0.5 and 20.0. *)
Definition half : float := S754_finite false 4503599627370496 (-53).

Definition twenty : float := S754_finite false 5629499534213120 (-48).

(** [lo <= x <= hi]. *)
Definition in_range (lo hi : Z) (x : number) : bool :=
  num_le (PInt lo) x && num_le x (PInt hi).

End PyNum.

(* ================================================================== *)
(** * Exceptions and the state-and-error monad *)
(* ================================================================== *)

Module Py.

(** The exceptions the modelled code can raise or let through. *)
Inductive exn :=
| ValueError
| AttributeError (attribute : string)
| IndexError
| KeyError (key : string)
| ZeroDivisionError
| OverflowError
| RecursionError.

Inductive result (A : Type) :=
| Ok (a : A)
| Raise (e : exn).
Arguments Ok {A} a.
Arguments Raise {A} e.

(** A computation over a state [S] that returns or raises. *)
Definition M (S A : Type) : Type := S -> result A * S.

Definition ret {S A} (a : A) : M S A := fun s => (Ok a, s).
Definition raise {S A} (e : exn) : M S A := fun s => (Raise e, s).
Definition bind {S A B} (c : M S A) (k : A -> M S B) : M S B :=
  fun s =>
    match c s with
    | (Ok a, s') => k a s'
    | (Raise e, s') => (Raise e, s')
    end.

(** Reading [self.name]: an attribute that was never assigned raises. *)
(** A pure computation that may raise, run inside a stateful one. *)
Definition lift {S A} (r : result A) : M S A := fun s => (r, s).

Definition get_attr {S A} (name : string) (field : option A) : M S A :=
  match field with
  | Some a => ret a
  | None => raise (AttributeError name)
  end.

(** [[body for _ in range(n)]] and the append loops over [range(n)]:
    the results in the order of the iterations. *)
Fixpoint repeatM {S A} (n : nat) (body : M S A) : M S (list A) :=
  match n with
  | O => ret []
  | Datatypes.S k =>
      bind body (fun x => bind (repeatM k body) (fun xs => ret (x :: xs)))
  end.

Definition is_ok {A} (r : result A) : bool :=
  match r with Ok _ => true | Raise _ => false end.

End Py.

Declare Scope py_scope.
Delimit Scope py_scope with py.
Notation "x <- c ;; k" := (Py.bind c (fun x => k))
  (at level 100, c at next level, right associativity) : py_scope.
Notation "c ;;; k" := (Py.bind c (fun _ => k))
  (at level 100, right associativity) : py_scope.

(* ================================================================== *)
(** * producer/data_generator.py *)
(* ================================================================== *)

Module DataGenerator.
Import PyNum Py.
Local Open Scope string_scope.
Local Open Scope Z_scope.
Local Open Scope py_scope.

(** ** The libraries behind the generator *)

(** The [random] module: the global generator's state and the draws the
    code makes from it. *)
Class RandomLib := {
  Rng : Type;
  (** [random.seed(s)]: the state is a function of the seed alone. *)
  rng_seed : Z -> Rng;
  (** [_randbelow(n)], behind [choice] and [randint]. *)
  rng_randbelow : Z -> Rng -> Z * Rng;
  (** [random.random()]. *)
  rng_random : Rng -> float * Rng;
  (** [random.gauss(mu, sigma)]. *)
  rng_gauss : float -> float -> Rng -> float * Rng;
  (** [random.uniform(a, b)] on two ints. *)
  rng_uniform : Z -> Z -> Rng -> float * Rng
}.

(** What the library documents of its draws. *)
Class RandomLaws (R : RandomLib) := {
  randbelow_range : forall n g, 0 < n -> 0 <= fst (rng_randbelow n g) < n;
  uniform_range : forall a b g, a <= b ->
    in_range a b (PFloat (fst (rng_uniform a b g))) = true
}.

(** [faker]: every provider draws from one shared generator, which
    [Faker.seed] resets. *)
Class FakerLib := {
  FakerRng : Type;
  faker_seed : Z -> FakerRng;
  faker_company : FakerRng -> string * FakerRng;
  faker_city : FakerRng -> string * FakerRng;
  faker_state_abbr : FakerRng -> string * FakerRng;
  (** [float(fake.latitude())] and [float(fake.longitude())]. *)
  faker_latitude : FakerRng -> float * FakerRng;
  faker_longitude : FakerRng -> float * FakerRng;
  faker_name : FakerRng -> string * FakerRng;
  faker_email : FakerRng -> string * FakerRng;
  faker_phone_number : FakerRng -> string * FakerRng
}.

(** [uuid.uuid4().hex]: thirty-two hexadecimal digits read from the
    operating system's entropy, which no seed reaches. *)
Class UuidLib := {
  Entropy : Type;
  uuid4_hex : Entropy -> string * Entropy
}.

(** [datetime]: a naive UTC instant is its count of microseconds. *)
Class ClockLib := {
  Clock : Type;
  clock_utcnow : Clock -> Z * Clock;
  isoformat : Z -> string
}.

(** The float power operator [x ** y]: the power, or the exception Python
    raises instead of returning it ([OverflowError] when the result of
    finite operands is out of range). *)
Class MathLib := {
  float_pow : float -> float -> result float
}.

Section Generator.
Context {R : RandomLib} {F : FakerLib} {U : UuidLib} {C : ClockLib}
        {P : MathLib}.

(** Everything outside the generator object that its methods read or
    advance. *)
Record World := {
  w_random : Rng;
  w_faker : FakerRng;
  w_entropy : Entropy;
  w_clock : Clock
}.

Definition G : Type -> Type := M World.

Definition with_random {A} (f : Rng -> A * Rng) : G A :=
  fun w => let '(a, g) := f (w_random w) in
           (Ok a, {| w_random := g; w_faker := w_faker w;
                     w_entropy := w_entropy w; w_clock := w_clock w |}).

Definition with_faker {A} (f : FakerRng -> A * FakerRng) : G A :=
  fun w => let '(a, g) := f (w_faker w) in
           (Ok a, {| w_random := w_random w; w_faker := g;
                     w_entropy := w_entropy w; w_clock := w_clock w |}).

Definition with_entropy {A} (f : Entropy -> A * Entropy) : G A :=
  fun w => let '(a, g) := f (w_entropy w) in
           (Ok a, {| w_random := w_random w; w_faker := w_faker w;
                     w_entropy := g; w_clock := w_clock w |}).

Definition with_clock {A} (f : Clock -> A * Clock) : G A :=
  fun w => let '(a, g) := f (w_clock w) in
           (Ok a, {| w_random := w_random w; w_faker := w_faker w;
                     w_entropy := w_entropy w; w_clock := g |}).

(** [Faker.seed(seed); random.seed(seed)]. *)
Definition seed_all (s : Z) : G unit :=
  fun w => (Ok tt, {| w_random := rng_seed s; w_faker := faker_seed s;
                      w_entropy := w_entropy w; w_clock := w_clock w |}).

(** [if seed is not None: Faker.seed(seed); random.seed(seed)]. *)
Definition seed_step (seed : option Z) : G unit :=
  match seed with
  | Some s => seed_all s
  | None => ret tt
  end.

Definition len {A} (l : list A) : Z := Z.of_nat (List.length l).

(** [random.choice(seq)]: [IndexError] on an empty sequence, else
    [seq[_randbelow(len(seq))]]. *)
Definition choice {A} (l : list A) : G A :=
  match l with
  | [] => raise IndexError
  | _ =>
      i <- with_random (rng_randbelow (len l)) ;;
      match nth_error l (Z.to_nat i) with
      | Some x => ret x
      | None => raise IndexError
      end
  end.

(** [random.randint(a, b)]. *)
Definition randint (a b : Z) : G Z :=
  i <- with_random (rng_randbelow (b - a + 1)) ;; ret (a + i).

(** ** The data model *)

Record Location := {
  city : string;
  state : string;
  country : string;
  latitude : float;
  longitude : float
}.

Record Merchant := {
  m_merchant_id : string;
  m_merchant_name : string;
  m_merchant_category : string;
  m_merchant_location : Location
}.

Record Customer := {
  c_customer_id : string;
  c_customer_name : string;
  c_customer_email : string;
  c_customer_phone : string;
  c_home_location : Location
}.

Record Transaction := {
  transaction_id : string;
  timestamp : string;
  customer_id : string;
  merchant_id : string;
  merchant_name : string;
  merchant_category : string;
  amount : number;
  currency : string;
  merchant_location : Location;
  distance_from_home_km : float;
  is_unusual_hour : bool;
  card_type : string;
  is_fraud : bool
}.

(** The generator object: an attribute is [None] until [__init__]
    assigns it. *)
Record TransactionGenerator := {
  fraud_ratio : option number;
  num_merchants : option Z;
  num_customers : option Z;
  fake : option unit;
  merchants : option (list Merchant);
  customers : option (list Customer);
  categories : option (list string)
}.

Definition fake_location : G Location :=
  c <- with_faker faker_city ;;
  s <- with_faker faker_state_abbr ;;
  la <- with_faker faker_latitude ;;
  lo <- with_faker faker_longitude ;;
  ret {| city := c; state := s; country := "US";
         latitude := la; longitude := lo |}.

(** One iteration of the loop of [_generate_merchants]; the dictionary
    display evaluates its values in order. *)
Definition new_merchant (self : TransactionGenerator) : G Merchant :=
  u <- with_entropy uuid4_hex ;;
  _ <- get_attr "fake" (fake self) ;;
  name <- with_faker faker_company ;;
  cats <- get_attr "categories" (categories self) ;;
  cat <- choice cats ;;
  _ <- get_attr "fake" (fake self) ;;
  loc <- fake_location ;;
  ret {| m_merchant_id := "M" ++ substring 0 12 u;
         m_merchant_name := name;
         m_merchant_category := cat;
         m_merchant_location := loc |}.

Definition _generate_merchants (self : TransactionGenerator)
  : G (list Merchant) :=
  n <- get_attr "num_merchants" (num_merchants self) ;;
  repeatM (Z.to_nat n) (new_merchant self).

Definition new_customer (self : TransactionGenerator) : G Customer :=
  u <- with_entropy uuid4_hex ;;
  _ <- get_attr "fake" (fake self) ;;
  name <- with_faker faker_name ;;
  email <- with_faker faker_email ;;
  phone <- with_faker faker_phone_number ;;
  loc <- fake_location ;;
  ret {| c_customer_id := "C" ++ substring 0 12 u;
         c_customer_name := name;
         c_customer_email := email;
         c_customer_phone := phone;
         c_home_location := loc |}.

Definition _generate_customers (self : TransactionGenerator)
  : G (list Customer) :=
  n <- get_attr "num_customers" (num_customers self) ;;
  repeatM (Z.to_nat n) (new_customer self).

Definition category_list : list string :=
  [ "grocery"; "restaurant"; "gas_station"; "online_retail";
    "entertainment"; "travel"; "electronics"; "clothing";
    "healthcare"; "utilities" ].

(** [0.0 <= fraud_ratio <= 1.0]. *)
Definition ratio_ok (r : number) : bool :=
  num_le (PFloat (S754_zero false)) r && num_le r (PFloat (float_of_int 1)).

(** [TransactionGenerator.__init__], statement by statement. *)
Definition __init__ (fraud_ratio0 : number) (num_merchants0 num_customers0 : Z)
    (seed : option Z) : G TransactionGenerator :=
  if negb (ratio_ok fraud_ratio0) then raise ValueError
  else
    let self := {| fraud_ratio := Some fraud_ratio0;
                   num_merchants := Some num_merchants0;
                   num_customers := Some num_customers0;
                   fake := Some tt;
                   merchants := None; customers := None;
                   categories := None |} in
    _ <- seed_step seed ;;
    ms <- _generate_merchants self ;;
    let self := {| fraud_ratio := fraud_ratio self;
                   num_merchants := num_merchants self;
                   num_customers := num_customers self;
                   fake := fake self;
                   merchants := Some ms; customers := customers self;
                   categories := categories self |} in
    cs <- _generate_customers self ;;
    ret {| fraud_ratio := fraud_ratio self;
           num_merchants := num_merchants self;
           num_customers := num_customers self;
           fake := fake self;
           merchants := merchants self; customers := Some cs;
           categories := Some category_list |}.

(** [_calculate_distance]: a planar distance in degrees times 111.  The
    three powers are taken in the order Python evaluates them, and the
    first that raises ends the call. *)
Definition _calculate_distance (loc1 loc2 : Location) : result float :=
  let lat_diff := fabs (fsub (latitude loc1) (latitude loc2)) in
  let lon_diff := fabs (fsub (longitude loc1) (longitude loc2)) in
  match float_pow lat_diff (float_of_int 2) with
  | Raise e => Raise e
  | Ok lat_squared =>
      match float_pow lon_diff (float_of_int 2) with
      | Raise e => Raise e
      | Ok lon_squared =>
          match float_pow (fadd lat_squared lon_squared) half with
          | Raise e => Raise e
          | Ok root => Ok (fmul root (float_of_int 111))
          end
      end
  end.

(** [timestamp.hour] of an instant in microseconds. *)
Definition hour (t : Z) : Z := (t / 3600000000) mod 24.

(** [_is_unusual_hour]: [2 <= timestamp.hour < 5]. *)
Definition _is_unusual_hour (t : Z) : bool :=
  (2 <=? hour t) && (hour t <? 5).

Definition category_ranges : list (string * (Z * Z)) :=
  [ ("grocery", (20, 150)); ("restaurant", (15, 100));
    ("gas_station", (30, 80)); ("online_retail", (25, 300));
    ("entertainment", (20, 150)); ("travel", (100, 1000));
    ("electronics", (50, 800)); ("clothing", (30, 250));
    ("healthcare", (50, 500)); ("utilities", (50, 300)) ].

(** [d.get(key, default)] on a dictionary display. *)
Fixpoint dict_get {A} (d : list (string * A)) (key : string) (default : A) : A :=
  match d with
  | [] => default
  | (k, v) :: rest => if String.eqb k key then v else dict_get rest key default
  end.

(** [category_ranges.get(category, (10, 200))]. *)
Definition amount_range (category : string) : Z * Z :=
  dict_get category_ranges category (10, 200).

Definition truediv (a b : Z) : G float :=
  match int_truediv a b with
  | Some q => ret q
  | None => raise ZeroDivisionError
  end.

(** [_generate_normal_amount]. *)
Definition _generate_normal_amount (category : string) : G number :=
  let '(min_amt, max_amt) := amount_range category in
  mean <- truediv (min_amt + max_amt) 2 ;;
  std <- truediv (max_amt - min_amt) 4 ;;
  amount <- with_random (rng_gauss mean std) ;;
  ret (py_max (PInt min_amt) (py_min (PInt max_amt) (PFloat amount))).

(** [_generate_fraud_amount]. *)
Definition _generate_fraud_amount (category : string) : G number :=
  fraud_type <- choice ["high_value"; "normal_suspicious"] ;;
  if String.eqb fraud_type "high_value" then
    x <- with_random (rng_uniform 3000 10000) ;; ret (PFloat x)
  else _generate_normal_amount category.

(** [generate_transaction(is_fraud)]. *)
Definition generate_transaction (self : TransactionGenerator)
    (is_fraud0 : option bool) : G Transaction :=
  is_fraud1 <- match is_fraud0 with
               | Some b => ret b
               | None =>
                   u <- with_random rng_random ;;
                   r <- get_attr "fraud_ratio" (fraud_ratio self) ;;
                   ret (num_lt (PFloat u) r)
               end ;;
  cs <- get_attr "customers" (customers self) ;;
  customer <- choice cs ;;
  ms <- get_attr "merchants" (merchants self) ;;
  merchant <- choice ms ;;
  base_time <- with_clock clock_utcnow ;;
  seconds <- randint 0 86400 ;;
  let timestamp0 := base_time - seconds * 1000000 in
  amount0 <- (if is_fraud1
              then _generate_fraud_amount (m_merchant_category merchant)
              else _generate_normal_amount (m_merchant_category merchant)) ;;
  distance_from_home <-
    lift (_calculate_distance (c_home_location customer)
                              (m_merchant_location merchant)) ;;
  u <- with_entropy uuid4_hex ;;
  card <- choice ["visa"; "mastercard"; "amex"; "discover"] ;;
  ret {| transaction_id := "T" ++ u;
         timestamp := isoformat timestamp0 ++ "Z";
         customer_id := c_customer_id customer;
         merchant_id := m_merchant_id merchant;
         merchant_name := m_merchant_name merchant;
         merchant_category := m_merchant_category merchant;
         amount := py_round2 amount0;
         currency := "USD";
         merchant_location := m_merchant_location merchant;
         distance_from_home_km := float_round2 distance_from_home;
         is_unusual_hour := _is_unusual_hour timestamp0;
         card_type := card;
         is_fraud := is_fraud1 |}.

(** [generate_batch(batch_size)]. *)
Definition generate_batch (self : TransactionGenerator) (batch_size : Z)
  : G (list Transaction) :=
  repeatM (Z.to_nat batch_size) (generate_transaction self None).

Record FraudStatistics := {
  total_transactions : Z;
  fraud_count : Z;
  legitimate_count : Z;
  fraud_percentage : number
}.

(** [sum(1 for t in transactions if t["is_fraud"])]. *)
Definition count_fraud (transactions : list Transaction) : Z :=
  fold_left (fun acc t => if is_fraud t then acc + 1 else acc) transactions 0.

(** [get_fraud_statistics]: the division raises on a zero divisor, which the
    conditional expression keeps it from meeting. *)
Definition get_fraud_statistics (transactions : list Transaction)
  : result FraudStatistics :=
  let total := len transactions in
  let fraud_count0 := count_fraud transactions in
  let percentage :=
    if 0 <? total then
      match int_truediv fraud_count0 total with
      | Some q => Ok (PFloat (float_round2 (fmul q (float_of_int 100))))
      | None => Raise ZeroDivisionError
      end
    else Ok (PInt 0) in
  match percentage with
  | Ok p => Ok {| total_transactions := total;
                  fraud_count := fraud_count0;
                  legitimate_count := total - fraud_count0;
                  fraud_percentage := p |}
  | Raise e => Raise e
  end.

(** An amount as [_generate_normal_amount] makes it for the range
    [[lo, hi]]: a [gauss] draw of mean [(lo + hi) / 2] and deviation
    [(hi - lo) / 4], clamped. *)
Definition normal_draw (lo hi : Z) (a : number) : Prop :=
  exists (mean std : float) (g : Rng),
    float_is_ratio mean (lo + hi) 2 /\
    float_is_ratio std (hi - lo) 4 /\
    a = py_max (PInt lo) (py_min (PInt hi) (PFloat (fst (rng_gauss mean std g)))).

(** A transaction amount of the legitimate kind: a rounded normal draw,
    inside the range. *)
Definition legitimate_amount (lo hi : Z) (x : number) : Prop :=
  in_range lo hi x = true /\
  exists a, normal_draw lo hi a /\ x = py_round2 a.

(** A transaction amount of the high-value kind: a rounded
    [uniform(3000, 10000)] draw, inside that range. *)
Definition high_value_amount (x : number) : Prop :=
  in_range 3000 10000 x = true /\
  exists g : Rng, x = py_round2 (PFloat (fst (rng_uniform 3000 10000 g))).

(** [stats["fraud_percentage"]] of what [get_fraud_statistics] gave. *)
Definition fraud_percentage_of (r : result FraudStatistics) : option number :=
  match r with
  | Ok stats => Some (fraud_percentage stats)
  | Raise _ => None
  end.

(** What [test_reproducibility_with_seed] does with each of its two
    generators: construct, then generate one transaction. *)
Definition first_transaction (fraud_ratio0 : number)
    (num_merchants0 num_customers0 : Z) (seed : option Z) : G Transaction :=
  gen <- __init__ fraud_ratio0 num_merchants0 num_customers0 seed ;;
  generate_transaction gen None.

(** A computation that returns from every state. *)
Definition total {A} (c : G A) : Prop :=
  forall w, exists a w', c w = (Ok a, w').

End Generator.
End DataGenerator.

(* ================================================================== *)
(** * producer/kinesis_producer.py *)
(* ================================================================== *)

Module KinesisProducer.
Import PyNum Py.
Local Open Scope string_scope.
Local Open Scope Z_scope.
Local Open Scope py_scope.

(** One entry of the [Records] argument of [put_records]. *)
Record KinesisRecord := {
  Data : string;
  PartitionKey : string
}.

(** One entry of the response's [Records]: a failed entry carries
    ["ErrorCode"]. *)
Record ResponseRecord := {
  ErrorCode : option string;
  ErrorMessage : option string
}.

(** The response dictionary of [put_records]; a key may be missing. *)
Record PutRecordsResponse := {
  FailedRecordCount : option Z;
  Records : option (list ResponseRecord)
}.

(** The exceptions the [except] clauses name. *)
Inductive TransportError :=
| BotoCoreError
| ClientError (code : string).

(** The boto3 client: the service's state and its answer to one
    [put_records] call. *)
Class KinesisClient := {
  Service : Type;
  client_put_records :
    string -> list KinesisRecord -> Service ->
    (TransportError + PutRecordsResponse) * Service
}.

(** The records handed to the producer, with what [json] and [dict.get]
    give on them.  A string is held as its UTF-8 bytes, so [encode] is the
    identity and [len] of the encoding is the string's length. *)
Class RecordCodec (Rec : Type) := {
  (** [json.dumps(record, ensure_ascii=flag)]. *)
  json_dumps : bool -> Rec -> string;
  (** [str(record[field])] when the record has the field. *)
  field_str : string -> Rec -> option string
}.

Record Metrics := {
  total_records_sent : Z;
  total_records_failed : Z;
  total_batches_sent : Z;
  total_bytes_sent : Z
}.

Definition zero_metrics : Metrics :=
  {| total_records_sent := 0; total_records_failed := 0;
     total_batches_sent := 0; total_bytes_sent := 0 |}.

(** What a call returns: [{"successful": _, "failed": _}]. *)
Record BatchResult := {
  successful : Z;
  failed : Z
}.

(** [time]: [time.sleep(secs)] takes the pause ([None]) or raises instead
    of pausing. *)
Class TimeLib := {
  time_sleep : number -> option exn
}.

(** What [time.sleep] does with a length: it refuses a NaN and a negative
    one with [ValueError] and an infinite one with [OverflowError] (as it
    does any length that does not fit the platform's timestamp), and it
    takes a pause of up to [10^9] seconds. *)
Class TimeLaws (T : TimeLib) := {
  sleep_nan : time_sleep (PFloat S754_nan) = Some ValueError;
  sleep_infinite : forall s,
    time_sleep (PFloat (S754_infinity s)) = Some OverflowError;
  sleep_negative : forall secs,
    num_lt secs (PInt 0) = true ->
    num_le (PInt (-1000000000)) secs = true ->
    time_sleep secs = Some ValueError;
  sleep_accepted : forall secs,
    in_range 0 1000000000 secs = true -> time_sleep secs = None
}.

Section Producer.
Context {K : KinesisClient} {Rec : Type} {J : RecordCodec Rec}
        {T : TimeLib}.

(** What the producer does to the outside, oldest first. *)
Inductive Effect :=
| CallPutRecords (stream : string) (records : list KinesisRecord)
| Sleep (seconds : number).

(** The producer object, the service it talks to and the effects so far. *)
Record Producer := {
  stream_name : string;
  partition_key_field : string;
  max_retries : Z;
  retry_delay : number;
  client : Service;
  metrics : Metrics;
  effects : list Effect
}.

Definition set_client (self : Producer) (c : Service) : Producer :=
  {| stream_name := stream_name self;
     partition_key_field := partition_key_field self;
     max_retries := max_retries self; retry_delay := retry_delay self;
     client := c; metrics := metrics self; effects := effects self |}.

Definition set_metrics (self : Producer) (m : Metrics) : Producer :=
  {| stream_name := stream_name self;
     partition_key_field := partition_key_field self;
     max_retries := max_retries self; retry_delay := retry_delay self;
     client := client self; metrics := m; effects := effects self |}.

Definition add_effect (self : Producer) (e : Effect) : Producer :=
  {| stream_name := stream_name self;
     partition_key_field := partition_key_field self;
     max_retries := max_retries self; retry_delay := retry_delay self;
     client := client self; metrics := metrics self;
     effects := effects self ++ [e] |}.

Definition P : Type -> Type := M Producer.

Definition len {A} (l : list A) : Z := Z.of_nat (List.length l).

(** [str(record.get(self.partition_key_field, "default"))]. *)
Definition partition_key (self : Producer) (record : Rec) : string :=
  match field_str (partition_key_field self) record with
  | Some s => s
  | None => "default"
  end.

(** The loop that prepares the batch. *)
Definition kinesis_records (self : Producer) (records : list Rec)
  : list KinesisRecord :=
  map (fun record => {| Data := json_dumps false record;
                        PartitionKey := partition_key self record |})
      records.

(** [sum(len(json.dumps(r).encode("utf-8")) for r in records)]. *)
Definition total_bytes (records : list Rec) : Z :=
  fold_left (fun acc r => acc + Z.of_nat (String.length (json_dumps true r)))
            records 0.

(** [self.client.put_records(StreamName=..., Records=...)]. *)
Definition call_put_records (records : list KinesisRecord)
  : M Producer (TransportError + PutRecordsResponse) :=
  fun self =>
    let '(answer, service) :=
      client_put_records (stream_name self) records (client self) in
    (Ok answer,
     add_effect (set_client self service)
                (CallPutRecords (stream_name self) records)).

Definition get_self : P Producer := fun self => (Ok self, self).

Definition update_metrics (f : Metrics -> Metrics) : P unit :=
  fun self => (Ok tt, set_metrics self (f (metrics self))).

(** [time.sleep(seconds)]: the pause is an effect when it is taken. *)
Definition sleep (seconds : number) : P unit :=
  fun self =>
    match time_sleep seconds with
    | Some e => (Raise e, self)
    | None => (Ok tt, add_effect self (Sleep seconds))
    end.

(** The loop of [_handle_failed_records] over
    [enumerate(response_records)], from index [idx] on:
    [original_records[idx]] raises when the index is out of range. *)
Fixpoint collect_failed (original_records : list Rec) (idx : nat)
    (response_records : list ResponseRecord) : result (list Rec) :=
  match response_records with
  | [] => Ok []
  | response_record :: rest =>
      match ErrorCode response_record with
      | Some _ =>
          match nth_error original_records idx with
          | None => Raise IndexError
          | Some r =>
              match collect_failed original_records (S idx) rest with
              | Ok l => Ok (r :: l)
              | Raise e => Raise e
              end
          end
      | None => collect_failed original_records (S idx) rest
      end
  end.

(** [_handle_failed_records], with [retry] standing for the call back into
    [self.put_records_batch]. *)
Definition _handle_failed_records
    (retry : list Rec -> P BatchResult)
    (original_records : list Rec) (response_records : list ResponseRecord)
  : P unit :=
  match collect_failed original_records 0 response_records with
  | Raise e => raise e
  | Ok [] => ret tt
  | Ok failed_records =>
      self <- get_self ;;
      _ <- sleep (retry_delay self) ;;
      _ <- retry failed_records ;;
      ret tt
  end.

(** [put_records_batch].  [depth] is the nesting of retries the
    interpreter's recursion limit still allows: the call recurses through
    [_handle_failed_records] with no bound of its own, and a retry beyond
    the limit raises [RecursionError], which no [except] clause here
    catches. *)
Fixpoint put_records_batch (depth : nat) (records : list Rec)
  : P BatchResult :=
  match records with
  | [] => ret {| successful := 0; failed := 0 |}
  | _ :: _ =>
      self <- get_self ;;
      answer <- call_put_records (kinesis_records self records) ;;
      match answer with
      | inl _ =>
          _ <- update_metrics (fun m =>
                 {| total_records_sent := total_records_sent m;
                    total_records_failed := total_records_failed m + len records;
                    total_batches_sent := total_batches_sent m;
                    total_bytes_sent := total_bytes_sent m |}) ;;
          ret {| successful := 0; failed := len records |}
      | inr response =>
          let failed_count :=
            match FailedRecordCount response with
            | Some c => c
            | None => 0
            end in
          let successful_count := len records - failed_count in
          _ <- update_metrics (fun m =>
                 {| total_records_sent := total_records_sent m + successful_count;
                    total_records_failed := total_records_failed m + failed_count;
                    total_batches_sent := total_batches_sent m + 1;
                    total_bytes_sent := total_bytes_sent m + total_bytes records |}) ;;
          _ <- (if 0 <? failed_count then
                  match Records response with
                  | None => raise (KeyError "Records")
                  | Some response_records =>
                      _handle_failed_records
                        (match depth with
                         | O => fun _ => raise RecursionError
                         | S d => put_records_batch d
                         end)
                        records response_records
                  end
                else ret tt) ;;
          ret {| successful := successful_count; failed := failed_count |}
      end
  end.


(** [get_metrics] returns a copy; [reset_metrics] zeroes the counters. *)
Definition get_metrics : P Metrics :=
  fun self => (Ok (metrics self), self).

Definition reset_metrics : P unit :=
  update_metrics (fun _ => zero_metrics).

(** The entries of a response that carry an error code, and the records of
    the batch at their positions. *)
Definition flagged (response_record : ResponseRecord) : bool :=
  match ErrorCode response_record with
  | Some _ => true
  | None => false
  end.

Definition count_flagged (response_records : list ResponseRecord) : Z :=
  len (filter flagged response_records).

Definition failed_subset (records : list Rec)
    (response_records : list ResponseRecord) : list Rec :=
  map fst (filter (fun p => flagged (snd p)) (combine records response_records)).

(** The producer once a first attempt on [records] was answered by
    [response] and the service moved to [service]. *)
Definition after_attempt (self : Producer) (records : list Rec)
    (failed_count : Z) (service : Service) : Producer :=
  set_metrics
    (add_effect (set_client self service)
       (CallPutRecords (stream_name self) (kinesis_records self records)))
    {| total_records_sent :=
         total_records_sent (metrics self) + (len records - failed_count);
       total_records_failed :=
         total_records_failed (metrics self) + failed_count;
       total_batches_sent := total_batches_sent (metrics self) + 1;
       total_bytes_sent :=
         total_bytes_sent (metrics self) + total_bytes records |}.

End Producer.
End KinesisProducer.

(* ================================================================== *)
(** * producer/main.py: the batch loop of [run_producer] *)
(* ================================================================== *)

Module Main.
Import KinesisProducer.
Local Open Scope Z_scope.

(** What the loop reads from outside itself: the dictionary the [i]-th call
    of [producer.put_records_batch] returns, and the global
    [shutdown_requested] as the [i]-th evaluation of the loop condition
    finds it (a signal handler sets it). *)
Record Environment := {
  put_result : nat -> BatchResult;
  shutdown_requested : nat -> bool
}.

(** What the loop emits: its log lines, its pauses, and the report and the
    [close] that follow the loop. *)
Inductive Event :=
| GeneratedBatch (batch_number current_batch_size : Z)
| BatchSent (total_sent target : Z)
| Pause (milliseconds : Z)
| ProducerFinished (total_records batches : Z)
| Closed.

Record LoopState := {
  total_sent : Z;
  batch_count : Z;
  events : list Event
}.

Section Loop.
Variable env : Environment.
Variables num_transactions batch_size batch_interval_ms : Z.

(** [total_sent < num_transactions and not shutdown_requested]. *)
Definition loop_test (i : nat) (st : LoopState) : bool :=
  (total_sent st <? num_transactions) && negb (shutdown_requested env i).

(** One pass through the body of the [while]. *)
Definition loop_body (i : nat) (st : LoopState) : LoopState :=
  let current_batch_size :=
    Z.min batch_size (num_transactions - total_sent st) in
  let result := put_result env i in
  let total_sent1 := total_sent st + successful result in
  let batch_count1 := batch_count st + 1 in
  let logged :=
    events st ++ [GeneratedBatch (batch_count st + 1) current_batch_size;
                  BatchSent total_sent1 num_transactions] in
  {| total_sent := total_sent1;
     batch_count := batch_count1;
     events :=
       if (0 <? batch_interval_ms) && (total_sent1 <? num_transactions)
       then logged ++ [Pause batch_interval_ms]
       else logged |}.

(** The [while] loop, run for at most [fuel] passes: [None] when the
    condition still holds after them. *)
Fixpoint while_loop (fuel : nat) (i : nat) (st : LoopState)
  : option LoopState :=
  if loop_test i st then
    match fuel with
    | O => None
    | S f => while_loop f (S i) (loop_body i st)
    end
  else Some st.

Definition initial : LoopState :=
  {| total_sent := 0; batch_count := 0; events := [] |}.

(** The loop followed by the "Producer finished" report and
    [producer.close()]. *)
Definition run_producer (fuel : nat) : option LoopState :=
  match while_loop fuel 0 initial with
  | Some st =>
      Some {| total_sent := total_sent st;
              batch_count := batch_count st;
              events := events st ++
                        [ProducerFinished (total_sent st) (batch_count st);
                         Closed] |}
  | None => None
  end.

(** [total_sent] after the first [i] passes. *)
Fixpoint sent_after (i : nat) : Z :=
  match i with
  | O => 0
  | S j => sent_after j + successful (put_result env j)
  end.

(** The loop condition fails at its [i]-th evaluation. *)
Definition stops_at (i : nat) : Prop :=
  num_transactions <= sent_after i \/ shutdown_requested env i = true.

(** The loop's invariant at the [i]-th evaluation of its condition. *)
Definition at_boundary (i : nat) (st : LoopState) : Prop :=
  total_sent st = sent_after i /\ batch_count st = Z.of_nat i.

End Loop.
End Main.

(* ================================================================== *)
(** * producer/kinesis_producer.py: stream set-up and single records *)
(* ================================================================== *)

Module KinesisStream.
Import PyNum Py KinesisProducer.
Local Open Scope string_scope.
Local Open Scope Z_scope.

(** The other calls the producer makes on the boto3 client, over the same
    service state.  [describe_stream] answers with
    [response["StreamDescription"]["StreamStatus"]]; [waiter_wait] is
    [get_waiter("stream_exists").wait]. *)
Class StreamClient (K : KinesisClient) := {
  client_describe_stream :
    string -> Service -> (TransportError + string) * Service;
  client_create_stream :
    string -> Z -> Service -> (TransportError + unit) * Service;
  waiter_wait :
    string -> Service -> (TransportError + unit) * Service;
  (** [put_record(StreamName, Data, PartitionKey)]; the response's shard
      and sequence number are only logged. *)
  client_put_record :
    string -> string -> string -> Service -> (TransportError + unit) * Service
}.

(** A call returns, or lets a client exception through to its caller. *)
Inductive outcome (A : Type) :=
| Returns (a : A)
| Propagates (e : TransportError).
Arguments Returns {A} a.
Arguments Propagates {A} e.

Section Stream.
Context {K : KinesisClient} {A : StreamClient K} {Rec : Type}
        {J : RecordCodec Rec}.

(** The calls made on the client and the pauses taken, oldest first. *)
Inductive Call :=
| DescribeStream (stream : string)
| CreateStream (stream : string) (shard_count : Z)
| WaitStreamExists (stream : string)
| PutRecord (stream data partition_key : string)
| Slept (seconds : Z).

(** The producer together with the record of its calls. *)
Record Session := {
  producer : Producer;
  calls : list Call
}.

Definition S (B : Type) : Type := Session -> outcome B * Session.

Definition ret {B} (b : B) : S B := fun s => (Returns b, s).

Definition bind {B C} (c : S B) (k : B -> S C) : S C :=
  fun s =>
    match c s with
    | (Returns b, s') => k b s'
    | (Propagates e, s') => (Propagates e, s')
    end.

(** [try: body except ClientError as e: handler]: a [BotoCoreError] is not
    a [ClientError] and passes through. *)
Definition try_except_ClientError {B} (body : S B) (handler : string -> S B)
  : S B :=
  fun s =>
    match body s with
    | (Propagates (ClientError code), s') => handler code s'
    | other => other
    end.

(** One call on the client: the service moves and the call is recorded. *)
Definition call {B} (f : Service -> (TransportError + B) * Service)
    (c : Call) : S B :=
  fun s =>
    let '(answer, service) := f (client (producer s)) in
    let s' := {| producer := set_client (producer s) service;
                 calls := calls s ++ [c] |} in
    match answer with
    | inr b => (Returns b, s')
    | inl e => (Propagates e, s')
    end.

Definition stream_of : S string :=
  fun s => (Returns (stream_name (producer s)), s).

(** [verify_stream_exists]. *)
Definition verify_stream_exists : S bool :=
  try_except_ClientError
    (bind stream_of (fun name =>
     bind (call (client_describe_stream name) (DescribeStream name))
          (fun status => ret (String.eqb status "ACTIVE"))))
    (fun code =>
       if String.eqb code "ResourceNotFoundException" then ret false
       else fun s => (Propagates (ClientError code), s)).

(** [create_stream_if_not_exists(shard_count)]. *)
Definition create_stream_if_not_exists (shard_count : Z) : S unit :=
  try_except_ClientError
    (bind verify_stream_exists (fun exists_ =>
     if exists_ then ret tt
     else
       bind stream_of (fun name =>
       bind (call (client_create_stream name shard_count)
                  (CreateStream name shard_count)) (fun _ =>
       bind (call (waiter_wait name) (WaitStreamExists name)) (fun _ =>
       ret tt)))))
    (fun code =>
       if String.eqb code "ResourceInUseException" then ret tt
       else fun s => (Propagates (ClientError code), s)).

Definition set_producer_metrics (s : Session) (m : Metrics) : Session :=
  {| producer := set_metrics (producer s) m; calls := calls s |}.

(** [put_record(record, partition_key)]: both client exceptions are caught
    and turned into [False]. *)
Definition put_record (record : Rec) (partition_key0 : option string)
  : Session -> bool * Session :=
  fun s =>
    let data := json_dumps false record in
    let key :=
      match partition_key0 with
      | Some k => k
      | None => partition_key (producer s) record
      end in
    let name := stream_name (producer s) in
    match call (client_put_record name data key) (PutRecord name data key) s with
    | (Returns _, s') =>
        let m := metrics (producer s') in
        (true,
         set_producer_metrics s'
           {| total_records_sent := total_records_sent m + 1;
              total_records_failed := total_records_failed m;
              total_batches_sent := total_batches_sent m;
              total_bytes_sent :=
                total_bytes_sent m + Z.of_nat (String.length data) |})
    | (Propagates _, s') =>
        let m := metrics (producer s') in
        (false,
         set_producer_metrics s'
           {| total_records_sent := total_records_sent m;
              total_records_failed := total_records_failed m + 1;
              total_batches_sent := total_batches_sent m;
              total_bytes_sent := total_bytes_sent m |})
    end.

(** The session once the service has answered one more call. *)
Definition after_call (s : Session) (service : Service) (c : Call) : Session :=
  {| producer := set_client (producer s) service;
     calls := (calls s ++ [c])%list |}.

(** [made] is describe, describe-create or describe-create-wait. *)
Definition setup_prefix (name : string) (shard_count : Z) (made : list Call)
  : Prop :=
  made = [DescribeStream name] \/
  made = [DescribeStream name; CreateStream name shard_count] \/
  made = [DescribeStream name; CreateStream name shard_count;
          WaitStreamExists name].

End Stream.
End KinesisStream.

(* ================================================================== *)
(** * producer/main.py: verifying or creating the stream *)
(* ================================================================== *)

Module MainSetup.
Import PyNum Py KinesisProducer KinesisStream.
Local Open Scope string_scope.
Local Open Scope Z_scope.

Section Setup.
Context {K : KinesisClient} {A : StreamClient K}.

(** [time.sleep(seconds)]. *)
Definition sleep (seconds : Z) : S unit :=
  fun s => (Returns tt,
            {| producer := producer s;
               calls := (calls s ++ [Slept seconds])%list |}).

(** [if not producer.verify_stream_exists():
       producer.create_stream_if_not_exists(shard_count=1); time.sleep(2)]. *)
Definition stream_setup : S unit :=
  bind verify_stream_exists (fun exists_ =>
  if exists_ then ret tt
  else bind (create_stream_if_not_exists 1) (fun _ => sleep 2)).

(** What the set-up can do after its first [describe_stream]. *)
Definition setup_traces (name : string) : list (list Call) :=
  [ [];
    [DescribeStream name];
    [DescribeStream name; Slept 2];
    [DescribeStream name; CreateStream name 1];
    [DescribeStream name; CreateStream name 1; Slept 2];
    [DescribeStream name; CreateStream name 1; WaitStreamExists name];
    [DescribeStream name; CreateStream name 1; WaitStreamExists name;
     Slept 2] ].

End Setup.
End MainSetup.

(* ================================================================== *)
(** * Vocabulary for the properties of the retry path *)
(* ================================================================== *)

Module KinesisRetry.
Import PyNum Py KinesisProducer.
Local Open Scope Z_scope.

Section Retry.
Context {K : KinesisClient} {Rec : Type} {J : RecordCodec Rec}
        {T : TimeLib}.

(** What [self.put_records_batch] stands for inside
    [_handle_failed_records] when [depth] more nested calls are allowed. *)
Definition retry_of (depth : nat) : list Rec -> P BatchResult :=
  match depth with
  | O => fun _ => raise RecursionError
  | S d => put_records_batch d
  end.

(** [response.get("FailedRecordCount", 0)]. *)
Definition failed_count_of (response : PutRecordsResponse) : Z :=
  match FailedRecordCount response with
  | Some c => c
  | None => 0
  end.

(** A service whose every answer counts between zero and all of the
    records it was sent as failed. *)
Definition counts_in_bounds : Prop :=
  forall stream records service response service',
    client_put_records stream records service = (inr response, service') ->
    0 <= failed_count_of response <= len records.

(** A service that rejects every record of every request, entry by
    entry. *)
Definition rejects_everything : Prop :=
  forall stream records service,
    exists response_records service',
      client_put_records stream records service =
      (inr {| FailedRecordCount := Some (len records);
              Records := Some response_records |}, service') /\
      List.length response_records = List.length records /\
      forallb flagged response_records = true.

(** No counter of [after] is below the one of [before]. *)
Definition metrics_le (before after : Metrics) : Prop :=
  total_records_sent before <= total_records_sent after /\
  total_records_failed before <= total_records_failed after /\
  total_batches_sent before <= total_batches_sent after /\
  total_bytes_sent before <= total_bytes_sent after.

(** The producer's settings: everything but the service, the counters and
    the record of effects. *)
Definition same_settings (a b : Producer) : Prop :=
  stream_name a = stream_name b /\
  partition_key_field a = partition_key_field b /\
  max_retries a = max_retries b /\
  retry_delay a = retry_delay b.

(** The [put_records] calls among the effects. *)
Definition is_call (e : Effect) : bool :=
  match e with
  | CallPutRecords _ _ => true
  | Sleep _ => false
  end.

Definition count_calls (l : list Effect) : Z := len (filter is_call l).

(** [after] has the settings of [before], and its effects are those of
    [before] followed by new ones with at most [bound] service calls. *)
Definition extends_by (bound : Z) (before after : Producer) : Prop :=
  same_settings before after /\
  exists made,
    effects after = effects before ++ made /\ count_calls made <= bound.

End Retry.
End KinesisRetry.

(* ================================================================== *)
(** * Vocabulary for the properties of generated transactions *)
(* ================================================================== *)

Module GeneratorLaws.
Import PyNum Py DataGenerator.
Local Open Scope string_scope.
Local Open Scope Z_scope.

(** [random.random()] lies in [[0.0, 1.0)]. *)
Class RandomUnit (R : RandomLib) := {
  random_unit : forall g,
    num_le (PInt 0) (PFloat (fst (rng_random g))) = true /\
    num_lt (PFloat (fst (rng_random g))) (PInt 1) = true
}.

(** A generator object with a fraud ratio and two non-empty pools, as a
    completed construction with positive counts would leave it. *)
Definition ready (self : TransactionGenerator) : Prop :=
  (exists r, fraud_ratio self = Some r) /\
  (exists m ms, merchants self = Some (m :: ms)) /\
  (exists c cs, customers self = Some (c :: cs)).

(** The brands [generate_transaction] chooses from. *)
Definition card_types : list string :=
  ["visa"; "mastercard"; "amex"; "discover"].

(** The number [r] has the value of the integer [z]. *)
Definition has_value (r : number) (z : Z) : Prop :=
  num_compare r (PInt z) = Some Eq.

Section Label.
Context {R : RandomLib} {F : FakerLib} {U : UuidLib} {C : ClockLib}.

(** How [generate_transaction] decides the label. *)
Definition label_from (self : TransactionGenerator) (is_fraud0 : option bool)
    (w : World) (label : bool) : Prop :=
  match is_fraud0 with
  | Some b => label = b
  | None =>
      exists r, fraud_ratio self = Some r /\
                label = num_lt (PFloat (fst (rng_random (w_random w)))) r
  end.

(** The instant stamped on a transaction drawn [seconds] before [now]. *)
Definition stamped (now seconds : Z) : Z := now - seconds * 1000000.

(** The state of [random] when [generate_transaction] reaches the amount:
    after the draw of the label (when none is passed), the choice of the
    customer, the choice of the merchant and the draw of the time
    offset. *)
Definition amount_rng (is_fraud0 : option bool) (customers0 : list Customer)
    (merchants0 : list Merchant) (g : Rng) : Rng :=
  let g1 := match is_fraud0 with
            | Some _ => g
            | None => snd (rng_random g)
            end in
  let g2 := snd (rng_randbelow (len customers0) g1) in
  let g3 := snd (rng_randbelow (len merchants0) g2) in
  snd (rng_randbelow 86401 g3).

(** [max(min_amt, min(max_amt, amount))]. *)
Definition clamped (lo hi : Z) (x : float) : number :=
  py_max (PInt lo) (py_min (PInt hi) (PFloat x)).

(** Every distance between the home of a customer and a merchant of the
    pools can be computed: none of its powers overflows. *)
Definition distances_defined {P : MathLib} (self : TransactionGenerator)
  : Prop :=
  forall cs ms customer merchant,
    customers self = Some cs -> merchants self = Some ms ->
    In customer cs -> In merchant ms ->
    exists d,
      _calculate_distance (c_home_location customer)
                          (m_merchant_location merchant) = Ok d.

End Label.

(** A whole day in microseconds, and the bounds of the window 02:00 to
    05:00 within it. *)
Definition day : Z := 86400000000.
Definition two_am : Z := 7200000000.
Definition five_am : Z := 18000000000.

End GeneratorLaws.

(* ================================================================== *)
(** * Vocabulary for the properties of the batch loop *)
(* ================================================================== *)

Module MainLoop.
Import KinesisProducer Main.
Local Open Scope Z_scope.

Definition is_pause (e : Event) : bool :=
  match e with
  | Pause _ => true
  | _ => false
  end.

(** The number of [time.sleep] pauses among the events. *)
Definition count_pauses (l : list Event) : Z :=
  Z.of_nat (List.length (filter is_pause l)).


(** [round((total_sent / num_transactions) * 100, 2)], the progress logged
    after each batch. *)
Definition progress_pct (total_sent num_transactions : Z)
  : Py.result PyNum.number :=
  match PyNum.int_truediv total_sent num_transactions with
  | Some q =>
      Py.Ok (PyNum.PFloat
               (PyNum.float_round2 (PyNum.fmul q (PyNum.float_of_int 100))))
  | None => Py.Raise Py.ZeroDivisionError
  end.

(** The "Batch sent to Kinesis" lines among the events, as the pairs
    [(total_sent, target)] they log. *)
Definition progress_logged (l : list Event) : list (Z * Z) :=
  flat_map (fun e => match e with
                     | BatchSent total target => [(total, target)]
                     | _ => []
                     end) l.

Section Loop.
Variable env : Environment.
Variables num_transactions batch_size : Z.

(** [current_batch_size] at the [i]-th pass. *)
Definition current_batch_size (i : nat) : Z :=
  Z.min batch_size (num_transactions - sent_after env i).

(** Every call reports between none and all of the records of the batch
    it was given as successful. *)
Definition counts_within_batch : Prop :=
  forall i, 0 <= successful (put_result env i) <= current_batch_size i.

(** Every call reports its whole batch successful. *)
Definition delivers_all : Prop :=
  forall i, successful (put_result env i) = current_batch_size i.

(** No signal arrives. *)
Definition never_interrupted : Prop :=
  forall i, shutdown_requested env i = false.

End Loop.
End MainLoop.

(* ================================================================== *)
(** * Concrete libraries and services, for running the definitions *)
(* ================================================================== *)

Module Fixtures.
Import PyNum Py.
Local Open Scope string_scope.
Local Open Scope Z_scope.

(** A service that answers from a script, one entry per call, and fails at
    the transport level once the script is used up. *)
Definition scripted_client : KinesisProducer.KinesisClient :=
  {| KinesisProducer.Service :=
       list (KinesisProducer.TransportError + KinesisProducer.PutRecordsResponse);
     KinesisProducer.client_put_records := fun _ _ script =>
       match script with
       | answer :: rest => (answer, rest)
       | [] => (inl KinesisProducer.BotoCoreError, [])
       end |}.

(** Records that are their own JSON text and partition key. *)
Definition text_codec : KinesisProducer.RecordCodec string :=
  {| KinesisProducer.json_dumps := fun _ r => r;
     KinesisProducer.field_str := fun _ r => Some r |}.

Definition accepted : KinesisProducer.ResponseRecord :=
  {| KinesisProducer.ErrorCode := None; KinesisProducer.ErrorMessage := None |}.

Definition rejected : KinesisProducer.ResponseRecord :=
  {| KinesisProducer.ErrorCode := Some "ProvisionedThroughputExceededException";
     KinesisProducer.ErrorMessage := Some "Rate exceeded" |}.

Definition response (failed_count : Z)
    (entries : list KinesisProducer.ResponseRecord)
  : KinesisProducer.TransportError + KinesisProducer.PutRecordsResponse :=
  inr {| KinesisProducer.FailedRecordCount := Some failed_count;
         KinesisProducer.Records := Some entries |}.

(** Half a second, the default [retry_delay]. *)
Definition half_second : number := PFloat half.

(** [time.sleep] as CPython has it on a 64-bit timestamp in nanoseconds:
    about 9.2 * 10^9 seconds fit. *)
Definition posix_time : KinesisProducer.TimeLib :=
  {| KinesisProducer.time_sleep := fun secs =>
       match xreal_of_number secs with
       | XNaN => Some ValueError
       | XNegInf | XPosInf => Some OverflowError
       | XFin _ _ =>
           if num_lt secs (PInt (-9223372036))
              || num_lt (PInt 9223372036) secs
           then Some OverflowError
           else if num_lt secs (PInt 0) then Some ValueError
           else None
       end |}.

Definition new_producer
    (script : list (KinesisProducer.TransportError + KinesisProducer.PutRecordsResponse))
  : @KinesisProducer.Producer scripted_client :=
  @KinesisProducer.Build_Producer scripted_client
    "fraud-transactions" "transaction_id" 3 half_second script
    KinesisProducer.zero_metrics [].

(** Two of three records rejected at first, accepted when resubmitted. *)
Definition retry_succeeds :=
  [ response 2 [rejected; accepted; rejected]; response 0 [accepted; accepted] ].

(** Two of three records rejected at first; the resubmission meets a
    transport failure. *)
Definition retry_fails :=
  [ response 2 [rejected; accepted; rejected]; inl KinesisProducer.BotoCoreError ].

Definition three_records : list string := ["t1"; "t2"; "t3"].

(** A deterministic stand-in for [random]: the state is a counter,
    [_randbelow(n)] is the counter modulo [n], [gauss] returns its mean
    and [uniform] its lower bound. *)
Definition counter_random : DataGenerator.RandomLib :=
  {| DataGenerator.Rng := Z;
     DataGenerator.rng_seed := fun s => s;
     DataGenerator.rng_randbelow := fun n g => (g mod n, g + 1);
     DataGenerator.rng_random := fun g => (S754_zero false, g + 1);
     DataGenerator.rng_gauss := fun mu _ g => (mu, g + 1);
     DataGenerator.rng_uniform := fun a _ g => (exact_int a, g + 1) |}.

Definition constant_faker : DataGenerator.FakerLib :=
  {| DataGenerator.FakerRng := Z;
     DataGenerator.faker_seed := fun s => s;
     DataGenerator.faker_company := fun g => ("Acme LLC", g + 1);
     DataGenerator.faker_city := fun g => ("Springfield", g + 1);
     DataGenerator.faker_state_abbr := fun g => ("IL", g + 1);
     DataGenerator.faker_latitude := fun g => (float_of_int 39, g + 1);
     DataGenerator.faker_longitude := fun g => (float_of_int (-89), g + 1);
     DataGenerator.faker_name := fun g => ("Jane Doe", g + 1);
     DataGenerator.faker_email := fun g => ("jane@example.org", g + 1);
     DataGenerator.faker_phone_number := fun g => ("555-0100", g + 1) |}.

(** Entropy as a stream position: the two first identifiers differ. *)
Definition counter_uuid : DataGenerator.UuidLib :=
  {| DataGenerator.Entropy := Z;
     DataGenerator.uuid4_hex := fun e =>
       (if e =? 0 then "0123456789abcdef0123456789abcdef"
        else "fedcba9876543210fedcba9876543210", e + 1) |}.

Definition fixed_clock : DataGenerator.ClockLib :=
  {| DataGenerator.Clock := Z;
     DataGenerator.clock_utcnow := fun c => (c, c);
     DataGenerator.isoformat := fun _ => "2024-01-01T12:00:00" |}.

Definition first_argument_pow : DataGenerator.MathLib :=
  {| DataGenerator.float_pow := fun x _ => Ok x |}.

Definition new_world (entropy : Z)
  : @DataGenerator.World counter_random constant_faker counter_uuid fixed_clock :=
  @DataGenerator.Build_World counter_random constant_faker counter_uuid
    fixed_clock 0 0 entropy 43200000000.

(** 0.05, the default [fraud_ratio]. *)
Definition ratio_005 : number := PFloat (S754_finite false 7205759403792794 (-57)).

Definition springfield : DataGenerator.Location :=
  {| DataGenerator.city := "Springfield"; DataGenerator.state := "IL";
     DataGenerator.country := "US";
     DataGenerator.latitude := float_of_int 39;
     DataGenerator.longitude := float_of_int (-89) |}.

(** A generator object with one merchant and one customer, as a completed
    construction would leave it. *)
Definition small_generator : DataGenerator.TransactionGenerator :=
  {| DataGenerator.fraud_ratio := Some ratio_005;
     DataGenerator.num_merchants := Some 1;
     DataGenerator.num_customers := Some 1;
     DataGenerator.fake := Some tt;
     DataGenerator.merchants :=
       Some [ {| DataGenerator.m_merchant_id := "M0123456789ab";
                 DataGenerator.m_merchant_name := "Acme LLC";
                 DataGenerator.m_merchant_category := "travel";
                 DataGenerator.m_merchant_location := springfield |} ];
     DataGenerator.customers :=
       Some [ {| DataGenerator.c_customer_id := "Cfedcba987654";
                 DataGenerator.c_customer_name := "Jane Doe";
                 DataGenerator.c_customer_email := "jane@example.org";
                 DataGenerator.c_customer_phone := "555-0100";
                 DataGenerator.c_home_location := springfield |} ];
     DataGenerator.categories := Some DataGenerator.category_list |}.

(** Every batch reports no record delivered; no signal ever arrives. *)
Definition nothing_delivered : Main.Environment :=
  {| Main.put_result := fun _ =>
       {| KinesisProducer.successful := 0; KinesisProducer.failed := 1 |};
     Main.shutdown_requested := fun _ => false |}.

(** Every batch is delivered whole, ten records at a time. *)
Definition all_delivered : Main.Environment :=
  {| Main.put_result := fun _ =>
       {| KinesisProducer.successful := 10; KinesisProducer.failed := 0 |};
     Main.shutdown_requested := fun _ => false |}.

End Fixtures.

(* ================================================================== *)
(** * More services and inputs *)
(* ================================================================== *)

Module Scenarios.
Import PyNum Py.
Local Open Scope string_scope.
Local Open Scope Z_scope.

(** A service that accepts every record of every request. *)
Definition accepting_client : KinesisProducer.KinesisClient :=
  {| KinesisProducer.Service := unit;
     KinesisProducer.client_put_records := fun _ records service =>
       (inr {| KinesisProducer.FailedRecordCount := Some 0;
               KinesisProducer.Records :=
                 Some (map (fun _ => Fixtures.accepted) records) |},
        service) |}.

(** A throttled stream: every record of every request is rejected. *)
Definition rejecting_client : KinesisProducer.KinesisClient :=
  {| KinesisProducer.Service := unit;
     KinesisProducer.client_put_records := fun _ records service =>
       (inr {| KinesisProducer.FailedRecordCount :=
                 Some (KinesisProducer.len records);
               KinesisProducer.Records :=
                 Some (map (fun _ => Fixtures.rejected) records) |},
        service) |}.

Definition producer_at (K : KinesisProducer.KinesisClient)
    (service : @KinesisProducer.Service K) : @KinesisProducer.Producer K :=
  @KinesisProducer.Build_Producer K
    "fraud-transactions" "transaction_id" 3 Fixtures.half_second service
    KinesisProducer.zero_metrics [].

(** A service with one stream, held as its status ([None] while it does
    not exist): creation is refused on an existing stream, the waiter
    returns once the stream is active, and records are taken by an active
    stream only. *)
Definition one_stream_client : KinesisProducer.KinesisClient :=
  {| KinesisProducer.Service := option string;
     KinesisProducer.client_put_records := fun _ records service =>
       match service with
       | Some "ACTIVE" =>
           (inr {| KinesisProducer.FailedRecordCount := Some 0;
                   KinesisProducer.Records :=
                     Some (map (fun _ => Fixtures.accepted) records) |},
            service)
       | _ => (inl (KinesisProducer.ClientError "ResourceNotFoundException"),
               service)
       end |}.

Definition describe_one_stream (name : string) (service : option string)
  : (KinesisProducer.TransportError + string) * option string :=
  match service with
  | Some status => (inr status, service)
  | None =>
      (inl (KinesisProducer.ClientError "ResourceNotFoundException"), service)
  end.

Definition create_one_stream (name : string) (shard_count : Z)
    (service : option string)
  : (KinesisProducer.TransportError + unit) * option string :=
  match service with
  | None => (inr tt, Some "CREATING")
  | Some _ =>
      (inl (KinesisProducer.ClientError "ResourceInUseException"), service)
  end.

Definition wait_one_stream (name : string) (service : option string)
  : (KinesisProducer.TransportError + unit) * option string :=
  match service with
  | Some _ => (inr tt, Some "ACTIVE")
  | None => (inl KinesisProducer.BotoCoreError, service)
  end.

Definition put_one_record (name data key : string) (service : option string)
  : (KinesisProducer.TransportError + unit) * option string :=
  match service with
  | Some "ACTIVE" => (inr tt, service)
  | _ =>
      (inl (KinesisProducer.ClientError "ResourceNotFoundException"), service)
  end.

Definition one_stream : KinesisStream.StreamClient one_stream_client :=
  @KinesisStream.Build_StreamClient one_stream_client
    describe_one_stream create_one_stream wait_one_stream put_one_record.

(** A producer given another [retry_delay]. *)
Definition with_retry_delay {K : KinesisProducer.KinesisClient}
    (delay : number) (p : @KinesisProducer.Producer K)
  : @KinesisProducer.Producer K :=
  @KinesisProducer.Build_Producer K
    (KinesisProducer.stream_name p) (KinesisProducer.partition_key_field p)
    (KinesisProducer.max_retries p) delay (KinesisProducer.client p)
    (KinesisProducer.metrics p) (KinesisProducer.effects p).

(** A session on the one-stream service in the given state. *)
Definition session_at (status : option string)
  : @KinesisStream.Session one_stream_client :=
  @KinesisStream.Build_Session one_stream_client
    (producer_at one_stream_client status) [].

(** A generator like [small_generator] with another fraud ratio. *)
Definition with_ratio (r : number) : DataGenerator.TransactionGenerator :=
  {| DataGenerator.fraud_ratio := Some r;
     DataGenerator.num_merchants :=
       DataGenerator.num_merchants Fixtures.small_generator;
     DataGenerator.num_customers :=
       DataGenerator.num_customers Fixtures.small_generator;
     DataGenerator.fake := DataGenerator.fake Fixtures.small_generator;
     DataGenerator.merchants :=
       DataGenerator.merchants Fixtures.small_generator;
     DataGenerator.customers :=
       DataGenerator.customers Fixtures.small_generator;
     DataGenerator.categories :=
       DataGenerator.categories Fixtures.small_generator |}.

(** The world of [new_world] with the counter of [random] at [g]. *)
Definition world_at (g : Z)
  : @DataGenerator.World Fixtures.counter_random Fixtures.constant_faker
      Fixtures.counter_uuid Fixtures.fixed_clock :=
  @DataGenerator.Build_World Fixtures.counter_random Fixtures.constant_faker
    Fixtures.counter_uuid Fixtures.fixed_clock g 0 0 43200000000.

(** A legitimate purchase of 42.5 at the travel merchant. *)
Definition legitimate_purchase : DataGenerator.Transaction :=
  {| DataGenerator.transaction_id := "T0123456789abcdef0123456789abcdef";
     DataGenerator.timestamp := "2024-01-01T12:00:00Z";
     DataGenerator.customer_id := "Cfedcba987654";
     DataGenerator.merchant_id := "M0123456789ab";
     DataGenerator.merchant_name := "Acme LLC";
     DataGenerator.merchant_category := "travel";
     DataGenerator.amount := PFloat (S754_finite false 85 (-1));
     DataGenerator.currency := "USD";
     DataGenerator.merchant_location := Fixtures.springfield;
     DataGenerator.distance_from_home_km := S754_zero false;
     DataGenerator.is_unusual_hour := false;
     DataGenerator.card_type := "visa";
     DataGenerator.is_fraud := false |}.

(** Every batch is delivered whole, ten records at a time and fewer for
    the last batch of a run of 25; no signal ever arrives. *)
Definition capped_delivery : Main.Environment :=
  {| Main.put_result := fun i =>
       {| KinesisProducer.successful :=
            Z.min 10 (25 - Z.min (Z.of_nat i * 10) 25);
          KinesisProducer.failed := 0 |};
     Main.shutdown_requested := fun _ => false |}.

End Scenarios.

(* ================================================================== *)
(** * Properties of the delivery client *)
(* ================================================================== *)

Module KinesisProducerSpec.
Import PyNum Py KinesisProducer.
Local Open Scope Z_scope.

Section Facts.
Context {K : KinesisClient} {Rec : Type} {J : RecordCodec Rec}
        {T : TimeLib}.

Lemma skipn_nth_error (l : list Rec) (i : nat) (r : Rec) :
  nth_error l i = Some r -> skipn i l = r :: skipn (S i) l.
Proof.
  revert i; induction l as [|x l IH]; intros [|i] H; simpl in H; try discriminate.
  - injection H as ->. reflexivity.
  - simpl. rewrite (IH i H). reflexivity.
Qed.

(** The loop of [_handle_failed_records] picks the records at the flagged
    positions, in order, as long as the response is no longer than the
    batch. *)
Lemma collect_failed_subset (original : list Rec) :
  forall (rrs : list ResponseRecord) (idx : nat),
    (idx + List.length rrs <= List.length original)%nat ->
    collect_failed original idx rrs = Ok (failed_subset (skipn idx original) rrs).
Proof.
  induction rrs as [|rr rrs IH]; intros idx Hlen; simpl in *.
  - unfold failed_subset. destruct (skipn idx original); reflexivity.
  - destruct (nth_error original idx) as [r|] eqn:Hnth.
    2:{ apply nth_error_None in Hnth. lia. }
    rewrite (skipn_nth_error _ _ _ Hnth).
    rewrite IH by lia.
    unfold failed_subset, flagged; simpl.
    destruct (ErrorCode rr); reflexivity.
Qed.

Lemma failed_subset_length (records : list Rec) :
  forall rrs : list ResponseRecord,
    (List.length rrs <= List.length records)%nat ->
    len (failed_subset records rrs) = count_flagged rrs.
Proof.
  unfold failed_subset, count_flagged, len.
  induction records as [|r records IH]; intros [|rr rrs] Hlen; simpl in *;
    try reflexivity; try lia.
  destruct (flagged rr); simpl; rewrite ?Nat2Z.inj_succ;
    specialize (IH rrs ltac:(lia)); lia.
Qed.

Lemma failed_subset_nonempty (records : list Rec) (rrs : list ResponseRecord) :
  0 < len (failed_subset records rrs) ->
  exists r rest, failed_subset records rrs = r :: rest.
Proof.
  destruct (failed_subset records rrs) as [|r rest]; [cbn; lia|eauto].
Qed.

(** One answered attempt on a non-empty batch whose response flags
    records: the call is made and the counters move; then [time.sleep]
    either refuses the delay, which ends the call with its exception
    before anything is resubmitted, or takes the pause, after which the
    flagged records are resubmitted and the counts returned are the first
    response's. *)
Lemma put_records_batch_flagged (depth : nat) (records : list Rec)
    (self : Producer) (resp : PutRecordsResponse)
    (rrs : list ResponseRecord) (service : Service) (k : Z) :
  records <> [] ->
  client_put_records (stream_name self) (kinesis_records self records)
                     (client self) = (inr resp, service) ->
  FailedRecordCount resp = Some k ->
  Records resp = Some rrs ->
  List.length rrs = List.length records ->
  count_flagged rrs = k ->
  0 < k ->
  put_records_batch (S depth) records self =
  match time_sleep (retry_delay self) with
  | Some e => (Raise e, after_attempt self records k service)
  | None =>
      match put_records_batch depth (failed_subset records rrs)
              (add_effect (after_attempt self records k service)
                          (Sleep (retry_delay self))) with
      | (Ok _, self2) =>
          (Ok {| successful := len records - k; failed := k |}, self2)
      | (Raise e, self2) => (Raise e, self2)
      end
  end.
Proof.
  intros Hne Hcall Hcount Hrecs Hlen Hflag Hk.
  destruct records as [|r0 rs]; [congruence|].
  assert (Hsub : collect_failed (r0 :: rs) 0 rrs
                 = Ok (failed_subset (r0 :: rs) rrs))
    by (apply (collect_failed_subset (r0 :: rs) rrs 0); simpl in *; lia).
  assert (Hk' : 0 < len (failed_subset (r0 :: rs) rrs))
    by (rewrite failed_subset_length by lia; lia).
  destruct (failed_subset_nonempty _ _ Hk') as (f0 & fs & Hf).
  cbn [put_records_batch].
  unfold bind at 1. unfold get_self at 1.
  unfold bind at 1. unfold call_put_records at 1.
  rewrite Hcall.
  rewrite Hcount.
  unfold bind at 1. unfold update_metrics at 1.
  apply Z.ltb_lt in Hk. rewrite Hk.
  rewrite Hrecs.
  unfold bind at 1.
  unfold _handle_failed_records. rewrite Hsub, Hf.
  unfold bind at 1. unfold get_self at 1.
  unfold bind at 1. unfold sleep at 1.
  cbn [retry_delay set_metrics add_effect set_client metrics stream_name].
  destruct (time_sleep (retry_delay self)) as [e|]; [reflexivity|].
  unfold bind at 1.
  unfold after_attempt.
  cbn [retry_delay set_metrics add_effect set_client metrics stream_name].
  match goal with
  | |- context [put_records_batch depth (f0 :: fs) ?s] =>
      destruct (put_records_batch depth (f0 :: fs) s) as [[res|e] self2]
  end; reflexivity.
Qed.

(** [total_bytes] is the sum of the lengths of the records' JSON texts. *)
Lemma total_bytes_sum (records : list Rec) :
  total_bytes records =
  Z.of_nat (list_sum (map (fun r => String.length (json_dumps true r))
                          records)).
Proof.
  unfold total_bytes.
  assert (H : forall acc,
    fold_left (fun acc r => acc + Z.of_nat (String.length (json_dumps true r)))
              records acc
    = acc + Z.of_nat (list_sum (map (fun r => String.length (json_dumps true r))
                                    records))).
  { unfold list_sum.
    induction records as [|r rs IH]; intros acc;
      cbn [fold_left map fold_right].
    - lia.
    - rewrite IH. lia. }
  rewrite H. lia.
Qed.


(** C7.  [put_records_batch] on an empty list returns
    [{successful: 0, failed: 0}] and leaves the producer as it was: the
    service is not called (its state and the effects are unchanged) and no
    counter moves. *)
Theorem put_records_batch_empty (depth : nat) (self : Producer) :
  put_records_batch depth (@nil Rec) self
  = (Ok {| successful := 0; failed := 0 |}, self).
Proof. destruct depth; reflexivity. Qed.

(** C5.  When the [put_records] call on a non-empty batch of [n] records
    raises a transport exception, [put_records_batch] returns
    [{successful: 0, failed: n}] without raising; the failed-records
    counter grows by [n], the other counters stay, and the one call is the
    only effect: nothing is resubmitted. *)
Theorem put_records_batch_transport_failure (depth : nat)
    (records : list Rec) (self : Producer) (err : TransportError)
    (service : Service) :
  records <> [] ->
  client_put_records (stream_name self) (kinesis_records self records)
                     (client self) = (inl err, service) ->
  put_records_batch depth records self =
  (Ok {| successful := 0; failed := len records |},
   set_metrics
     (add_effect (set_client self service)
        (CallPutRecords (stream_name self) (kinesis_records self records)))
     {| total_records_sent := total_records_sent (metrics self);
        total_records_failed := total_records_failed (metrics self) + len records;
        total_batches_sent := total_batches_sent (metrics self);
        total_bytes_sent := total_bytes_sent (metrics self) |}).
Proof.
  intros Hne Hcall.
  destruct records as [|r0 rs]; [congruence|].
  destruct depth; cbn [put_records_batch];
    unfold bind, get_self, call_put_records; rewrite Hcall; reflexivity.
Qed.

(** C4, as the code has it.  When the first response to a batch of [n]
    records flags [k > 0] of them, the records at the flagged positions
    ([k] of them, in order) are the ones resubmitted.  If [time.sleep]
    refuses the configured delay, the call ends with its exception after
    the first attempt and nothing is resubmitted.  If it takes the pause,
    the flagged records go through [put_records_batch] again, and
    whenever that resubmission returns, whatever it reports, the counts
    handed to the caller are the first response's: [successful = n - k]
    and [failed = k]; an exception of the resubmission passes through. *)
Theorem put_records_batch_reports_first_response (depth : nat)
    (records : list Rec) (self : Producer) (resp : PutRecordsResponse)
    (rrs : list ResponseRecord) (service : Service) (k : Z) :
  records <> [] ->
  client_put_records (stream_name self) (kinesis_records self records)
                     (client self) = (inr resp, service) ->
  FailedRecordCount resp = Some k ->
  Records resp = Some rrs ->
  List.length rrs = List.length records ->
  count_flagged rrs = k ->
  0 < k ->
  len (failed_subset records rrs) = k /\
  (forall e : exn,
     time_sleep (retry_delay self) = Some e ->
     put_records_batch (S depth) records self
     = (Raise e, after_attempt self records k service)) /\
  (time_sleep (retry_delay self) = None ->
   let resubmission :=
     put_records_batch depth (failed_subset records rrs)
       (add_effect (after_attempt self records k service)
                   (Sleep (retry_delay self))) in
   (forall (retried : BatchResult) (self2 : Producer),
      resubmission = (Ok retried, self2) ->
      put_records_batch (S depth) records self
      = (Ok {| successful := len records - k; failed := k |}, self2)) /\
   (forall (e : exn) (self2 : Producer),
      resubmission = (Raise e, self2) ->
      put_records_batch (S depth) records self = (Raise e, self2))).
Proof.
  intros Hne Hcall Hcount Hrecs Hlen Hflag Hk.
  pose proof (put_records_batch_flagged depth records self resp rrs service k
                Hne Hcall Hcount Hrecs Hlen Hflag Hk) as Hrun.
  split; [|split].
  - rewrite failed_subset_length by lia. exact Hflag.
  - intros e Hsleep. rewrite Hrun, Hsleep. reflexivity.
  - intros Hsleep. cbv zeta. rewrite Hrun, Hsleep.
    split; intros x self2 Hretry; rewrite Hretry; reflexivity.
Qed.

(** C10.  The counters count attempts.  When the first response flags
    [k > 0] of [n] records, the pause is taken and the response to the
    resubmission reports no failure, the [k] records are in
    [total_records_failed] and all [n] in [total_records_sent],
    [total_batches_sent] has grown by two, and [total_bytes_sent] by the
    JSON bytes of all [n] records and again by those of the [k]
    resubmitted ones; so the two record counters have grown by [n + k],
    more than the [n] records passed in. *)
Theorem metrics_count_attempts (depth : nat)
    (records : list Rec) (self : Producer) (resp resp2 : PutRecordsResponse)
    (rrs : list ResponseRecord) (service service2 : Service) (k : Z) :
  records <> [] ->
  client_put_records (stream_name self) (kinesis_records self records)
                     (client self) = (inr resp, service) ->
  FailedRecordCount resp = Some k ->
  Records resp = Some rrs ->
  List.length rrs = List.length records ->
  count_flagged rrs = k ->
  0 < k ->
  time_sleep (retry_delay self) = None ->
  client_put_records (stream_name self)
    (kinesis_records self (failed_subset records rrs)) service
    = (inr resp2, service2) ->
  FailedRecordCount resp2 = Some 0 ->
  exists self2 : Producer,
    put_records_batch (S depth) records self
    = (Ok {| successful := len records - k; failed := k |}, self2) /\
    metrics self2 =
    {| total_records_sent := total_records_sent (metrics self) + len records;
       total_records_failed := total_records_failed (metrics self) + k;
       total_batches_sent := total_batches_sent (metrics self) + 2;
       total_bytes_sent :=
         total_bytes_sent (metrics self)
         + Z.of_nat (list_sum (map (fun r => String.length (json_dumps true r))
                                   records))
         + Z.of_nat (list_sum (map (fun r => String.length (json_dumps true r))
                                   (failed_subset records rrs))) |} /\
    len records <
    (total_records_sent (metrics self2) - total_records_sent (metrics self))
    + (total_records_failed (metrics self2) - total_records_failed (metrics self)).
Proof.
  intros Hne Hcall Hcount Hrecs Hlen Hflag Hk Hsleep Hcall2 Hcount2.
  assert (Hk' : 0 < len (failed_subset records rrs))
    by (rewrite failed_subset_length by lia; lia).
  assert (Hlenk : len (failed_subset records rrs) = k)
    by (rewrite failed_subset_length by lia; exact Hflag).
  destruct (failed_subset_nonempty _ _ Hk') as (f0 & fs & Hf).
  rewrite (put_records_batch_flagged depth records self resp rrs service k)
    by assumption.
  rewrite Hsleep.
  rewrite <- !total_bytes_sum.
  rewrite Hf in *.
  destruct depth; cbn [put_records_batch];
    unfold bind, get_self, call_put_records, after_attempt;
    cbn [stream_name client set_metrics add_effect set_client];
    repeat match goal with
    | |- context [kinesis_records ?s (f0 :: fs)] =>
        tryif constr_eq s self then fail
        else change (kinesis_records s (f0 :: fs))
             with (kinesis_records self (f0 :: fs))
    end;
    rewrite Hcall2, Hcount2; cbn -[len Z.add Z.sub total_bytes Z.ltb];
    (eexists; split; [reflexivity|]); cbn [metrics set_metrics];
    cbn [total_records_sent total_records_failed];
    (split; [f_equal; lia | lia]).
Qed.

End Facts.

(** The theorems at a scripted service: three records, the first response
    flagging two of them. *)

Lemma put_records_batch_transport_failure_witness :
  fst (put_records_batch (K := Fixtures.scripted_client)
         (J := Fixtures.text_codec) (T := Fixtures.posix_time)
         0 Fixtures.three_records
         (Fixtures.new_producer [inl BotoCoreError]))
  = Ok {| successful := 0; failed := 3 |}.
Proof.
  rewrite (put_records_batch_transport_failure
             (K := Fixtures.scripted_client) (J := Fixtures.text_codec)
             (T := Fixtures.posix_time)
             0 Fixtures.three_records
             (Fixtures.new_producer [inl BotoCoreError]) BotoCoreError []).
  - reflexivity.
  - discriminate.
  - reflexivity.
Defined.

(** With the default delay the resubmission is made and the first counts
    are returned; with a delay of [-1] the call ends in [ValueError]. *)
Lemma put_records_batch_reports_first_response_witness :
  fst (put_records_batch (K := Fixtures.scripted_client)
         (J := Fixtures.text_codec) (T := Fixtures.posix_time)
         1 Fixtures.three_records
         (Fixtures.new_producer Fixtures.retry_succeeds))
  = Ok {| successful := 1; failed := 2 |} /\
  fst (put_records_batch (K := Fixtures.scripted_client)
         (J := Fixtures.text_codec) (T := Fixtures.posix_time)
         1 Fixtures.three_records
         (Scenarios.with_retry_delay (PInt (-1))
            (Fixtures.new_producer Fixtures.retry_succeeds)))
  = Raise ValueError.
Proof.
  split.
  - assert (H := put_records_batch_reports_first_response
                (K := Fixtures.scripted_client) (J := Fixtures.text_codec)
                (T := Fixtures.posix_time)
                0 Fixtures.three_records
                (Fixtures.new_producer Fixtures.retry_succeeds)
                {| FailedRecordCount := Some 2;
                   Records := Some [Fixtures.rejected; Fixtures.accepted;
                                    Fixtures.rejected] |}
                [Fixtures.rejected; Fixtures.accepted; Fixtures.rejected]
                [Fixtures.response 0 [Fixtures.accepted; Fixtures.accepted]]
                2 ltac:(discriminate) eq_refl eq_refl eq_refl eq_refl eq_refl
                eq_refl).
    destruct H as (_ & _ & H). specialize (H eq_refl). cbv zeta in H.
    destruct H as [H _].
    match type of H with
    | forall r s, ?run = _ -> _ =>
        let v := eval vm_compute in run in
        match v with
        | (Ok ?a, ?s) => rewrite (H a s) by reflexivity
        end
    end.
    reflexivity.
  - assert (H := put_records_batch_reports_first_response
                (K := Fixtures.scripted_client) (J := Fixtures.text_codec)
                (T := Fixtures.posix_time)
                0 Fixtures.three_records
                (Scenarios.with_retry_delay (PInt (-1))
                   (Fixtures.new_producer Fixtures.retry_succeeds))
                {| FailedRecordCount := Some 2;
                   Records := Some [Fixtures.rejected; Fixtures.accepted;
                                    Fixtures.rejected] |}
                [Fixtures.rejected; Fixtures.accepted; Fixtures.rejected]
                [Fixtures.response 0 [Fixtures.accepted; Fixtures.accepted]]
                2 ltac:(discriminate) eq_refl eq_refl eq_refl eq_refl eq_refl
                eq_refl).
    destruct H as (_ & H & _).
    rewrite (H ValueError eq_refl). reflexivity.
Defined.

(** The specification's sentence fails there: the resubmission
    succeeds (all three records end in [total_records_sent]) and the caller
    is still told [successful = 1], [failed = 2], not [successful = 3]. *)
Lemma put_records_batch_ignores_retry_outcome :
  let run := put_records_batch (K := Fixtures.scripted_client)
               (J := Fixtures.text_codec) (T := Fixtures.posix_time)
               1 Fixtures.three_records
               (Fixtures.new_producer Fixtures.retry_succeeds) in
  fst run = Ok {| successful := 1; failed := 2 |} /\
  total_records_sent (metrics (snd run)) = 3 /\
  fst run <> Ok {| successful := 3; failed := 0 |}.
Proof.
  cbv zeta. split; [reflexivity|]. split; [reflexivity|]. discriminate.
Qed.

(** Three records of two bytes each, two of them sent twice: ten bytes. *)
Lemma metrics_count_attempts_witness :
  exists self2,
    put_records_batch (K := Fixtures.scripted_client)
      (J := Fixtures.text_codec) (T := Fixtures.posix_time)
      1 Fixtures.three_records
      (Fixtures.new_producer Fixtures.retry_succeeds)
    = (Ok {| successful := 1; failed := 2 |}, self2) /\
    total_records_sent (metrics self2) = 3 /\
    total_records_failed (metrics self2) = 2 /\
    total_batches_sent (metrics self2) = 2 /\
    total_bytes_sent (metrics self2) = 10.
Proof.
  assert (H := metrics_count_attempts
              (K := Fixtures.scripted_client) (J := Fixtures.text_codec)
              (T := Fixtures.posix_time)
              0 Fixtures.three_records
              (Fixtures.new_producer Fixtures.retry_succeeds)
              {| FailedRecordCount := Some 2;
                 Records := Some [Fixtures.rejected; Fixtures.accepted;
                                  Fixtures.rejected] |}
              {| FailedRecordCount := Some 0;
                 Records := Some [Fixtures.accepted; Fixtures.accepted] |}
              [Fixtures.rejected; Fixtures.accepted; Fixtures.rejected]
              [Fixtures.response 0 [Fixtures.accepted; Fixtures.accepted]]
              [] 2 ltac:(discriminate) eq_refl eq_refl eq_refl eq_refl
              eq_refl eq_refl eq_refl eq_refl eq_refl).
  destruct H as (self2 & Hrun & Hm & _).
  exists self2. rewrite Hm. repeat split. exact Hrun.
Defined.

End KinesisProducerSpec.

(* ================================================================== *)
(** * Properties of the batch loop *)
(* ================================================================== *)

Module MainSpec.
Import KinesisProducer Main.
Import ListNotations.
Local Open Scope Z_scope.

Section Loop.
Variable env : Environment.
Variables num_transactions batch_size batch_interval_ms : Z.

Local Abbreviation loop_test := (loop_test env num_transactions).
Local Abbreviation loop_body :=
  (loop_body env num_transactions batch_size batch_interval_ms).
Local Abbreviation while_loop :=
  (while_loop env num_transactions batch_size batch_interval_ms).
Local Abbreviation stops_at := (stops_at env num_transactions).
Local Abbreviation at_boundary := (at_boundary env).

Lemma at_boundary_initial : at_boundary 0 initial.
Proof. split; reflexivity. Qed.

Lemma at_boundary_step (i : nat) (st : LoopState) :
  at_boundary i st -> at_boundary (S i) (loop_body i st).
Proof.
  intros [Hs Hb]. split; cbn [Main.loop_body total_sent batch_count sent_after].
  - rewrite Hs. reflexivity.
  - rewrite Hb. lia.
Qed.

Lemma loop_test_false_iff (i : nat) (st : LoopState) :
  at_boundary i st -> (loop_test i st = false <-> stops_at i).
Proof.
  intros [Hs _]. unfold Main.loop_test, Main.stops_at. rewrite Hs.
  rewrite andb_false_iff, Z.ltb_ge, negb_false_iff. reflexivity.
Qed.



(** A loop whose every batch delivers at least one record has sent at least
    [i] records after [i] passes. *)
Lemma sent_after_progress :
  (forall i, 1 <= successful (put_result env i)) ->
  forall i, Z.of_nat i <= sent_after env i.
Proof.
  intros Hp. induction i as [|i IH]; cbn [sent_after]; [lia|].
  specialize (Hp i). lia.
Qed.

Lemma progress_stops :
  (forall i, 1 <= successful (put_result env i)) ->
  stops_at (Z.to_nat num_transactions).
Proof.
  intros Hp. left.
  pose proof (sent_after_progress Hp (Z.to_nat num_transactions)). lia.
Qed.


End Loop.


(** What the environment [nothing_delivered] reports is what
    [put_records_batch] returns for a batch of one record when the
    transport fails. *)
Lemma nothing_delivered_is_transport_failure (i : nat) :
  fst (put_records_batch (K := Fixtures.scripted_client)
         (J := Fixtures.text_codec)
         (T := Fixtures.posix_time) 0 ["t1"%string] (Fixtures.new_producer []))
  = Py.Ok (put_result Fixtures.nothing_delivered i).
Proof. reflexivity. Qed.


End MainSpec.

(* ================================================================== *)
(** * Facts about binary64 rounding and comparison *)
(* ================================================================== *)

Module PyNumFacts.
Import PyNum.
Local Open Scope Z_scope.

(** [round] reads the binary value, not the decimal literal:
    [round(2.675, 2) == 2.67], [round(0.125, 2) == 0.12] (a tie, to even),
    [round(0.375, 2) == 0.38], [round(-0.001, 2) == -0.0]. *)
Example round_2_675 :
  float_round2 (S754_finite false 6023564501608038 (-51))
  = S754_finite false 6012305502539612 (-51).
Proof. vm_compute. reflexivity. Qed.

Example round_0_125 :
  float_round2 (S754_finite false 4503599627370496 (-55))
  = S754_finite false 8646911284551352 (-56).
Proof. vm_compute. reflexivity. Qed.

Example round_0_375 :
  float_round2 (S754_finite false 6755399441055744 (-54))
  = S754_finite false 6845471433603154 (-54).
Proof. vm_compute. reflexivity. Qed.

Example round_negative_to_zero :
  float_round2 (S754_finite true 4611686018427388 (-62)) = S754_zero true.
Proof. vm_compute. reflexivity. Qed.

(** [20 / 100 * 100] is the float 20.0. *)
Example twenty_percent :
  fmul (fdiv (exact_int 20) (exact_int 100)) (float_of_int 100) = twenty.
Proof. vm_compute. reflexivity. Qed.

(** The number of binary digits of a positive. *)
Lemma digits2_bounds (p : positive) :
  2 ^ (Zpos (digits2_pos p) - 1) <= Zpos p < 2 ^ Zpos (digits2_pos p).
Proof.
  induction p as [p IH|p IH|]; cbn [digits2_pos].
  - rewrite Pos2Z.inj_succ.
    replace (Z.succ (Zpos (digits2_pos p)) - 1) with (Z.succ (Zpos (digits2_pos p) - 1)) by lia.
    rewrite !Z.pow_succ_r by lia. lia.
  - rewrite Pos2Z.inj_succ.
    replace (Z.succ (Zpos (digits2_pos p)) - 1) with (Z.succ (Zpos (digits2_pos p) - 1)) by lia.
    rewrite !Z.pow_succ_r by lia. lia.
  - cbn. lia.
Qed.

Lemma Zdigits2_eq (m d : Z) :
  0 < d -> 2 ^ (d - 1) <= m < 2 ^ d -> Zdigits2 m = d.
Proof.
  intros Hd [Hlo Hhi].
  assert (0 < m) by (pose proof (Z.pow_pos_nonneg 2 (d - 1)); lia).
  destruct m as [|p|p]; try lia. cbn [Zdigits2].
  pose proof (digits2_bounds p) as [Hl Hh].
  set (a := Zpos (digits2_pos p)) in *.
  assert (0 < a) by (subst a; lia).
  destruct (Z.lt_trichotomy a d) as [Hlt|[Heq|Hgt]]; [|exact Heq|].
  - assert (2 ^ a <= 2 ^ (d - 1)) by (apply Z.pow_le_mono_r; lia). lia.
  - assert (2 ^ d <= 2 ^ (a - 1)) by (apply Z.pow_le_mono_r; lia). lia.
Qed.

Lemma cmp_scaled_common (m1 e1 m2 e2 c : Z) :
  c <= e1 -> c <= e2 ->
  cmp_scaled m1 e1 m2 e2 = (m1 * 2 ^ (e1 - c) ?= m2 * 2 ^ (e2 - c)).
Proof.
  intros H1 H2. unfold cmp_scaled.
  set (e := Z.min e1 e2).
  assert (He : c <= e) by (subst e; lia).
  assert (He1 : e <= e1) by (subst e; lia).
  assert (He2 : e <= e2) by (subst e; lia).
  replace (e1 - c) with ((e1 - e) + (e - c)) by lia.
  replace (e2 - c) with ((e2 - e) + (e - c)) by lia.
  rewrite !Z.pow_add_r by lia.
  rewrite !Z.mul_assoc.
  apply Zmult_compare_compat_r.
  apply Z.lt_gt, Z.pow_pos_nonneg; lia.
Qed.

Lemma shr_fexp_53 (M e : Z) (l : location) :
  2 ^ 52 <= M < 2 ^ 53 -> -1074 <= e ->
  shr_fexp prec emax M e l = (shr_record_of_loc M l, e).
Proof.
  intros HM He. unfold shr_fexp.
  rewrite (Zdigits2_eq M 53) by (try lia; exact HM).
  unfold fexp, emin, prec, emax.
  replace (Z.max (53 + e - 53) (3 - 1024 - 53) - e) with 0 by lia.
  reflexivity.
Qed.

Lemma shr_fexp_54 (M e : Z) (l : location) :
  2 ^ 53 <= M < 2 ^ 54 -> -1074 <= e ->
  shr_fexp prec emax M e l = (shr_1 (shr_record_of_loc M l), e + 1).
Proof.
  intros HM He. unfold shr_fexp.
  rewrite (Zdigits2_eq M 54) by (try lia; exact HM).
  unfold fexp, emin, prec, emax.
  replace (Z.max (54 + e - 53) (3 - 1024 - 53) - e) with 1 by lia.
  reflexivity.
Qed.

Lemma loc_of_record_of_loc (M : Z) (l : location) :
  loc_of_shr_record (shr_record_of_loc M l) = l /\
  shr_m (shr_record_of_loc M l) = M.
Proof. destruct l as [|[| |]]; split; reflexivity. Qed.

Lemma round_nearest_even_bounds (M : Z) (l : location) :
  M <= round_nearest_even M l <= M + 1 /\
  (l = loc_Exact -> round_nearest_even M l = M).
Proof.
  destruct l as [|[| |]]; cbn [round_nearest_even];
    try destruct (Z.even M); split; try lia; try reflexivity;
    intros; try discriminate; reflexivity.
Qed.

(** Halving with rounding: one shift, then round to nearest even. *)
Lemma shift_round_bounds (Q : Z) (l : location) :
  2 <= Q ->
  let mrs := shr_1 (shr_record_of_loc Q l) in
  let M1 := round_nearest_even (shr_m mrs) (loc_of_shr_record mrs) in
  Q / 2 <= M1 <= Q / 2 + 1 /\
  (Q mod 2 = 0 -> l = loc_Exact -> M1 = Q / 2).
Proof.
  intros HQ. cbv zeta.
  destruct Q as [|p|p]; try lia.
  destruct p as [p|p|]; try lia.
  - (* odd *)
    assert (Hd : Z.pos p~1 / 2 = Zpos p)
      by (rewrite Pos2Z.inj_xI; Z.div_mod_to_equations; lia).
    assert (Hm : Z.pos p~1 mod 2 = 1)
      by (rewrite Pos2Z.inj_xI; Z.div_mod_to_equations; lia).
    rewrite Hd, Hm.
    destruct l as [|[| |]];
      cbn [shr_1 shr_record_of_loc shr_m loc_of_shr_record round_nearest_even orb];
      try destruct (Z.even (Zpos p)); split;
      try lia; intros; try discriminate; try lia.
  - assert (Hd : Z.pos p~0 / 2 = Zpos p)
      by (rewrite Pos2Z.inj_xO; Z.div_mod_to_equations; lia).
    rewrite Hd.
    destruct l as [|[| |]];
      cbn [shr_1 shr_record_of_loc shr_m loc_of_shr_record round_nearest_even orb];
      try destruct (Z.even (Zpos p)); split;
      try lia; intros; try discriminate; try reflexivity.
Qed.

(** The second normalisation of [binary_round_aux]: the rounded mantissa
    fits, or is exactly [2^53] and is halved. *)
Lemma renormalise (M1 e1 : Z) :
  2 ^ 52 <= M1 <= 2 ^ 53 -> -1074 <= e1 <= 970 ->
  exists (M : positive) (E : Z),
    (let '(mrs, e2) := shr_fexp prec emax M1 e1 loc_Exact in
     match shr_m mrs with
     | Z0 => S754_zero false
     | Zpos m =>
         if e2 <=? emax - prec then S754_finite false m e2
         else S754_infinity false
     | Zneg _ => S754_nan
     end) = S754_finite false M E /\
    e1 <= E <= e1 + 1 /\
    Zpos M * 2 ^ (E - e1) = M1.
Proof.
  intros HM He.
  destruct (Z.eq_dec M1 (2 ^ 53)) as [->|Hne].
  - rewrite shr_fexp_54 by lia.
    exists (Z.to_pos (2 ^ 52)), (e1 + 1).
    change (shr_m (shr_1 (shr_record_of_loc (2 ^ 53) loc_Exact)))
      with (Zpos (Z.to_pos (2 ^ 52))).
    cbv iota beta.
    assert (Hle : (e1 + 1 <=? emax - prec) = true)
      by (apply Z.leb_le; unfold emax, prec; lia).
    rewrite Hle. split; [reflexivity|]. split; [lia|].
    replace (e1 + 1 - e1) with 1 by lia. reflexivity.
  - rewrite shr_fexp_53 by lia.
    cbn [shr_record_of_loc shr_m].
    destruct M1 as [|m|m]; try lia.
    exists m, e1.
    assert (Hle : (e1 <=? emax - prec) = true)
      by (apply Z.leb_le; unfold emax, prec; lia).
    rewrite Hle. split; [reflexivity|]. split; [lia|].
    rewrite Z.sub_diag. lia.
Qed.

(** [binary_round_aux] on a quotient of 53 or 54 bits: the result is finite
    and lies between the even grid points around the exact value. *)
Lemma binary_round_aux_sandwich (Q e : Z) (l : location) :
  2 ^ 52 <= Q < 2 ^ 54 -> -1074 <= e <= 900 ->
  exists (M : positive) (E : Z),
    binary_round_aux prec emax false Q e l = S754_finite false M E /\
    e <= E /\
    (forall G, G mod 2 = 0 -> G <= Q -> G <= Zpos M * 2 ^ (E - e)) /\
    (forall H, H mod 2 = 0 -> Q < H \/ (Q = H /\ l = loc_Exact) ->
               Zpos M * 2 ^ (E - e) <= H).
Proof.
  intros HQ He. unfold binary_round_aux.
  destruct (Z_lt_le_dec Q (2 ^ 53)) as [Hlt|Hge].
  - rewrite shr_fexp_53 by lia.
    destruct (loc_of_record_of_loc Q l) as [-> ->].
    destruct (round_nearest_even_bounds Q l) as [Hb Hex].
    destruct (renormalise (round_nearest_even Q l) e) as (M & E & -> & HE & HV);
      try lia.
    exists M, E. split; [reflexivity|]. split; [lia|].
    rewrite HV. split.
    + intros G _ HG. lia.
    + intros H _ [HH|[HH Hl]]; [lia|]. rewrite (Hex Hl). lia.
  - rewrite shr_fexp_54 by lia.
    pose proof (shift_round_bounds Q l ltac:(lia)) as Hs. cbv zeta in Hs.
    destruct Hs as [Hb Hex].
    set (M1 := round_nearest_even _ _) in *.
    assert (HQ2 : 2 ^ 52 <= Q / 2 < 2 ^ 53).
    { change (2 ^ 54) with (2 * 2 ^ 53) in HQ.
      change (2 ^ 53) with (2 * 2 ^ 52) in Hge.
      Z.div_mod_to_equations. lia. }
    destruct (renormalise M1 (e + 1)) as (M & E & -> & HE & HV); try lia.
    exists M, E. split; [reflexivity|]. split; [lia|].
    replace (E - e) with ((E - (e + 1)) + 1) by lia.
    rewrite Z.pow_add_r by lia. rewrite Z.mul_assoc, HV.
    change (2 ^ 1) with 2.
    split.
    + intros G HG HGQ. Z.div_mod_to_equations. lia.
    + intros H HH [HHQ|[HHQ Hl]].
      * Z.div_mod_to_equations. lia.
      * subst H. rewrite (Hex HH Hl). Z.div_mod_to_equations. lia.
Qed.

Lemma div_core_hundred (q : positive) (d : Z) :
  Zdigits2 (Zpos q) = d -> 10 <= d <= 20 ->
  SFdiv_core_binary prec emax (Zpos q) 0 100 0 =
  (Zpos q * 2 ^ (60 - d) / 100, d - 60,
   new_location 100 ((Zpos q * 2 ^ (60 - d)) mod 100)).
Proof.
  intros Hd Hr. unfold SFdiv_core_binary. rewrite Hd.
  change (Zdigits2 100) with 7.
  unfold fexp, emin, prec, emax.
  replace (Z.min (Z.max (d + 0 - (7 + 0) - 53) (3 - 1024 - 53)) (0 - 0))
    with (d - 60) by lia.
  replace (0 - 0 - (d - 60)) with (60 - d) by lia.
  destruct (60 - d) as [|s|s] eqn:Hs; try lia.
  rewrite Z.shiftl_mul_pow2 by lia.
  unfold Z.div, Z.modulo.
  destruct (Z.div_eucl (Zpos q * 2 ^ Zpos s) 100) as [Q R].
  reflexivity.
Qed.

Lemma new_location_hundred (r : Z) :
  new_location 100 r = loc_Exact <-> r = 0.
Proof.
  unfold new_location. change (Z.even 100) with true. cbv iota.
  unfold new_location_even.
  destruct (Z.eqb_spec r 0) as [->|Hne]; split; intros H;
    try reflexivity; try discriminate; contradiction.
Qed.

Lemma num_le_int_float (a : Z) (M : positive) (E c : Z) :
  c <= 0 -> c <= E ->
  a * 2 ^ (- c) <= Zpos M * 2 ^ (E - c) ->
  num_le (PInt a) (PFloat (S754_finite false M E)) = true.
Proof.
  intros Hc HE Hle. unfold num_le, num_compare. cbn.
  rewrite (cmp_scaled_common a 0 (Zpos M) E c) by lia.
  replace (0 - c) with (- c) by lia.
  destruct (Z.compare_spec (a * 2 ^ (- c)) (Zpos M * 2 ^ (E - c)));
    try reflexivity; lia.
Qed.

Lemma num_le_float_int (a : Z) (M : positive) (E c : Z) :
  c <= 0 -> c <= E ->
  Zpos M * 2 ^ (E - c) <= a * 2 ^ (- c) ->
  num_le (PFloat (S754_finite false M E)) (PInt a) = true.
Proof.
  intros Hc HE Hle. unfold num_le, num_compare. cbn.
  rewrite (cmp_scaled_common (Zpos M) E a 0 c) by lia.
  replace (0 - c) with (- c) by lia.
  destruct (Z.compare_spec (Zpos M * 2 ^ (E - c)) (a * 2 ^ (- c)));
    try reflexivity; lia.
Qed.

(** The decimal [q / 100] of a value between the integers [lo] and [hi] is
    converted to a binary64 between them. *)
Lemma fdiv_hundredths_in_range (q : positive) (lo hi : Z) :
  10 <= lo -> hi <= 10000 -> 100 * lo <= Zpos q <= 100 * hi ->
  in_range lo hi
    (PFloat (fdiv (S754_finite false q 0) (S754_finite false 100 0))) = true.
Proof.
  intros Hlo Hhi Hq.
  pose proof (digits2_bounds q) as [Hdl Hdh].
  remember (Zpos (digits2_pos q)) as d eqn:Hd0.
  assert (Hd : 10 <= d <= 20).
  { assert (0 < d) by (subst d; lia). split.
    - destruct (Z_lt_le_dec d 10) as [Hc|Hc]; [|lia]. exfalso.
      assert (2 ^ d <= 2 ^ 9) by (apply Z.pow_le_mono_r; lia). lia.
    - destruct (Z_lt_le_dec 20 d) as [Hc|Hc]; [|lia]. exfalso.
      assert (2 ^ 20 <= 2 ^ (d - 1)) by (apply Z.pow_le_mono_r; lia). lia. }
  unfold fdiv, SFdiv. cbn [xorb].
  rewrite (div_core_hundred q d (eq_sym Hd0) Hd).
  set (P := 2 ^ (60 - d)).
  assert (HP0 : 0 < P) by (apply Z.pow_pos_nonneg; lia).
  assert (HPeven : P = 2 * 2 ^ (59 - d)).
  { unfold P. replace (60 - d) with (Z.succ (59 - d)) by lia.
    apply Z.pow_succ_r. lia. }
  assert (H59 : 2 ^ (d - 1) * P = 2 ^ 59).
  { unfold P. rewrite <- Z.pow_add_r by lia. f_equal. lia. }
  assert (H60 : 2 ^ d * P = 2 ^ 60).
  { unfold P. rewrite <- Z.pow_add_r by lia. f_equal. lia. }
  assert (HqP : 2 ^ 59 <= Zpos q * P < 2 ^ 60).
  { rewrite <- H59, <- H60. split.
    - apply Z.mul_le_mono_nonneg_r; lia.
    - apply Z.mul_lt_mono_pos_r; lia. }
  assert (HG : 100 * (lo * P) <= Zpos q * P).
  { rewrite Z.mul_assoc. apply Z.mul_le_mono_nonneg_r; lia. }
  assert (HH : Zpos q * P <= 100 * (hi * P)).
  { rewrite Z.mul_assoc. apply Z.mul_le_mono_nonneg_r; lia. }
  assert (Heven : forall a, (a * P) mod 2 = 0).
  { intros a. rewrite HPeven.
    replace (a * (2 * 2 ^ (59 - d))) with (a * 2 ^ (59 - d) * 2) by ring.
    apply Z_mod_mult. }
  set (qP := Zpos q * P) in *.
  set (G := lo * P) in *. set (H := hi * P) in *.
  destruct (binary_round_aux_sandwich (qP / 100) (d - 60)
              (new_location 100 (qP mod 100)))
    as (M & E & -> & HE & Hlow & Hhigh).
  { Z.div_mod_to_equations. lia. }
  { lia. }
  unfold in_range. apply andb_true_iff. split.
  - apply (num_le_int_float lo M E (d - 60)); try lia.
    replace (- (d - 60)) with (60 - d) by lia. fold P. fold G.
    apply Hlow; [apply Heven|]. Z.div_mod_to_equations. lia.
  - apply (num_le_float_int hi M E (d - 60)); try lia.
    replace (- (d - 60)) with (60 - d) by lia. fold P. fold H.
    apply Hhigh; [apply Heven|].
    destruct (Z.eq_dec qP (100 * H)) as [Heq|Hne].
    + right. split; [Z.div_mod_to_equations; lia|].
      apply new_location_hundred. Z.div_mod_to_equations. lia.
    + left. Z.div_mod_to_equations. lia.
Qed.

Lemma round_half_even_div_bounds (n d : Z) :
  0 < d ->
  n / d <= round_half_even_div n d <= n / d + 1 /\
  (n mod d = 0 -> round_half_even_div n d = n / d).
Proof.
  intros Hd. unfold round_half_even_div.
  destruct (Z.compare_spec (2 * (n mod d)) d) as [Heq|Hlt|Hgt];
    try destruct (Z.even (n / d)); split; try lia; intros; lia.
Qed.

Lemma cmp_scaled_int (a b : Z) : cmp_scaled a 0 b 0 = (a ?= b).
Proof.
  unfold cmp_scaled. change (Z.min 0 0) with 0. change (2 ^ (0 - 0)) with 1.
  rewrite !Z.mul_1_r. reflexivity.
Qed.

Lemma num_le_int (a b : Z) : num_le (PInt a) (PInt b) = (a <=? b).
Proof.
  unfold num_le, num_compare. cbn. rewrite cmp_scaled_int.
  unfold Z.leb. destruct (a ?= b); reflexivity.
Qed.

Lemma in_range_int (lo hi z : Z) :
  in_range lo hi (PInt z) = true <-> lo <= z <= hi.
Proof.
  unfold in_range. rewrite !num_le_int, andb_true_iff, !Z.leb_le.
  reflexivity.
Qed.

(** A float between two positive integers is a positive finite float, and
    its exact value lies between them. *)
Lemma in_range_float (lo hi : Z) (f : float) :
  0 < lo ->
  in_range lo hi (PFloat f) = true ->
  exists (m : positive) (e : Z),
    f = S754_finite false m e /\
    (0 <= e -> lo <= Zpos m * 2 ^ e <= hi) /\
    (e < 0 -> lo * 2 ^ (- e) <= Zpos m <= hi * 2 ^ (- e)).
Proof.
  intros Hlo. unfold in_range, num_le, num_compare. rewrite andb_true_iff.
  destruct f as [s|[|]| |[|] m e];
    cbn [xreal_of_number xreal_of_float xreal_compare cond_Zopp Z.opp];
    try (intros [H1 H2]; discriminate).
  - rewrite cmp_scaled_int.
    destruct (Z.compare_spec lo 0); intros [H1 _]; try discriminate; lia.
  - intros [H1 _]. exfalso. revert H1. unfold cmp_scaled.
    set (c := Z.min 0 e).
    assert (0 < 2 ^ (0 - c)) by (apply Z.pow_pos_nonneg; subst c; lia).
    assert (0 < 2 ^ (e - c)) by (apply Z.pow_pos_nonneg; subst c; lia).
    destruct (Z.compare_spec (lo * 2 ^ (0 - c)) (Z.neg m * 2 ^ (e - c)));
      try discriminate; nia.
  - intros [H1 H2]. exists m, e. split; [reflexivity|].
    split; intros He.
    + rewrite (cmp_scaled_common lo 0 (Zpos m) e 0) in H1 by lia.
      rewrite (cmp_scaled_common (Zpos m) e hi 0 0) in H2 by lia.
      change (2 ^ (0 - 0)) with 1 in *. rewrite Z.sub_0_r in *.
      rewrite Z.mul_1_r in *.
      destruct (Z.compare_spec lo (Zpos m * 2 ^ e)); try discriminate;
        destruct (Z.compare_spec (Zpos m * 2 ^ e) hi); try discriminate; lia.
    + rewrite (cmp_scaled_common lo 0 (Zpos m) e e) in H1 by lia.
      rewrite (cmp_scaled_common (Zpos m) e hi 0 e) in H2 by lia.
      rewrite Z.sub_diag in *. change (2 ^ 0) with 1 in *.
      rewrite Z.mul_1_r in *. replace (0 - e) with (- e) in * by lia.
      destruct (Z.compare_spec (lo * 2 ^ (- e)) (Zpos m)); try discriminate;
        destruct (Z.compare_spec (Zpos m) (hi * 2 ^ (- e))); try discriminate;
        lia.
Qed.

Lemma hundredths_bounds (m : positive) (e lo hi : Z) :
  (0 <= e -> lo <= Zpos m * 2 ^ e <= hi) ->
  (e < 0 -> lo * 2 ^ (- e) <= Zpos m <= hi * 2 ^ (- e)) ->
  100 * lo <= hundredths m e <= 100 * hi.
Proof.
  intros Hpos Hneg. unfold hundredths.
  destruct (Z.leb_spec 0 e) as [He|He].
  - specialize (Hpos He). lia.
  - specialize (Hneg He). set (D := 2 ^ (- e)) in *.
    assert (HD : 0 < D) by (apply Z.pow_pos_nonneg; lia).
    destruct (round_half_even_div_bounds (100 * Zpos m) D HD) as [Hb Hex].
    assert (H1 : 100 * lo <= 100 * Zpos m / D)
      by (apply Z.div_le_lower_bound; nia).
    split; [lia|].
    destruct (Z.eq_dec (100 * Zpos m) (100 * hi * D)) as [Heq|Hne].
    + rewrite Hex; rewrite Heq.
      * rewrite Z.div_mul by lia. lia.
      * apply Z_mod_mult.
    + assert (100 * Zpos m / D < 100 * hi)
        by (apply Z.div_lt_upper_bound; nia).
      lia.
Qed.

(** [round(x, 2)] keeps a number between two integers of the amounts'
    magnitude. *)
Lemma py_round2_in_range (lo hi : Z) (x : number) :
  10 <= lo -> hi <= 10000 ->
  in_range lo hi x = true -> in_range lo hi (py_round2 x) = true.
Proof.
  intros Hlo Hhi Hx. destruct x as [z|f]; [exact Hx|].
  destruct (in_range_float lo hi f ltac:(lia) Hx) as (m & e & -> & Hpos & Hneg).
  pose proof (hundredths_bounds m e lo hi Hpos Hneg) as Hq.
  cbn [py_round2 float_round2].
  destruct (hundredths m e) as [|q|q]; try lia.
  apply fdiv_hundredths_in_range; assumption.
Qed.

Lemma num_lt_le (a b : number) : num_lt a b = true -> num_le a b = true.
Proof.
  unfold num_lt, num_le. destruct (num_compare a b) as [[| |]|];
    intros; try discriminate; reflexivity.
Qed.

(** The clamp of [_generate_normal_amount] lands in the range, whatever the
    draw (an infinity or a NaN included). *)
Lemma clamp_in_range (lo hi : Z) (g : float) :
  lo <= hi ->
  in_range lo hi (py_max (PInt lo) (py_min (PInt hi) (PFloat g))) = true.
Proof.
  intros Hle. unfold py_max, py_min.
  destruct (num_lt (PFloat g) (PInt hi)) eqn:Hgh.
  - destruct (num_lt (PInt lo) (PFloat g)) eqn:Hlg.
    + unfold in_range. rewrite (num_lt_le _ _ Hlg), (num_lt_le _ _ Hgh).
      reflexivity.
    + apply in_range_int. lia.
  - destruct (num_lt (PInt lo) (PInt hi)); apply in_range_int; lia.
Qed.

Lemma in_range_positive (lo hi : Z) (x : number) :
  0 < lo -> in_range lo hi x = true -> num_lt (PInt 0) x = true.
Proof.
  intros Hlo Hx. destruct x as [z|f].
  - apply in_range_int in Hx. unfold num_lt, num_compare.
    cbn [xreal_of_number xreal_of_float xreal_compare cond_Zopp].
    rewrite cmp_scaled_int. destruct (Z.compare_spec 0 z); try reflexivity; lia.
  - destruct (in_range_float lo hi f Hlo Hx) as (m & e & -> & _).
    unfold num_lt, num_compare.
    cbn [xreal_of_number xreal_of_float xreal_compare cond_Zopp]. unfold cmp_scaled.
    set (c := Z.min 0 e).
    assert (0 < 2 ^ (e - c)) by (apply Z.pow_pos_nonneg; subst c; lia).
    destruct (Z.compare_spec (0 * 2 ^ (0 - c)) (Zpos m * 2 ^ (e - c)));
      try reflexivity; nia.
Qed.

End PyNumFacts.

(* ================================================================== *)
(** * Properties of the generator's construction and statistics *)
(* ================================================================== *)

Module DataGeneratorSpec.
Import PyNum PyNumFacts Py DataGenerator GeneratorLaws.
Local Open Scope string_scope.
Local Open Scope Z_scope.

Section Construction.
Context {R : RandomLib} {F : FakerLib} {U : UuidLib} {C : ClockLib}
        {P : MathLib}.

Lemma total_ret {A} (a : A) : total (ret a).
Proof. intros w. exists a, w. reflexivity. Qed.

Lemma total_bind {A B} (c : G A) (k : A -> G B) :
  total c -> (forall a, total (k a)) -> total (bind c k).
Proof.
  intros Hc Hk w. destruct (Hc w) as (a & w1 & Hcw).
  destruct (Hk a w1) as (b & w2 & Hkw).
  exists b, w2. unfold bind. rewrite Hcw. exact Hkw.
Qed.

Lemma total_with_faker {A} (f : FakerRng -> A * FakerRng) : total (with_faker f).
Proof.
  intros w. unfold with_faker. destruct (f (w_faker w)) as [a g].
  eexists _, _. reflexivity.
Qed.

Lemma total_with_entropy {A} (f : Entropy -> A * Entropy) :
  total (with_entropy f).
Proof.
  intros w. unfold with_entropy. destruct (f (w_entropy w)) as [a g].
  eexists _, _. reflexivity.
Qed.

Lemma total_fake_location : total fake_location.
Proof.
  unfold fake_location.
  repeat (apply total_bind; [apply total_with_faker|intros ?]).
  apply total_ret.
Qed.

Lemma total_new_customer (self : TransactionGenerator) :
  fake self = Some tt -> total (new_customer self).
Proof.
  intros Hfake. unfold new_customer. rewrite Hfake. cbn [get_attr].
  apply total_bind; [apply total_with_entropy|intros ?].
  apply total_bind; [apply total_ret|intros ?].
  repeat (apply total_bind; [apply total_with_faker|intros ?]).
  apply total_bind; [apply total_fake_location|intros ?].
  apply total_ret.
Qed.

(** A loop over [range(n)] whose body always returns builds [n] entries. *)
Lemma repeatM_total {A} (body : G A) :
  total body ->
  forall (n : nat) (w : World),
    exists l w', repeatM n body w = (Ok l, w') /\ List.length l = n.
Proof.
  intros Hbody. induction n as [|n IH]; intros w; cbn [repeatM].
  - exists [], w. split; reflexivity.
  - destruct (Hbody w) as (a & w1 & Ha).
    destruct (IH w1) as (l & w2 & Hl & Hlen).
    exists (a :: l), w2. unfold bind. rewrite Ha, Hl.
    split; [reflexivity|]. cbn. rewrite Hlen. reflexivity.
Qed.

Lemma bind_ok {A B} (c : G A) (k : A -> G B) (w w' : World) (a : A) :
  c w = (Ok a, w') -> bind c k w = k a w'.
Proof. intros H. unfold bind. rewrite H. reflexivity. Qed.

Lemma bind_raise {A B} (c : G A) (k : A -> G B) (w w' : World) (e : exn) :
  c w = (Raise e, w') -> bind c k w = (Raise e, w').
Proof. intros H. unfold bind. rewrite H. reflexivity. Qed.

Lemma bind_never_ok {A B} (c : G A) (k : A -> G B) (w : World) :
  (forall a w', is_ok (fst (k a w')) = false) ->
  is_ok (fst (bind c k w)) = false.
Proof.
  intros Hk. unfold bind. destruct (c w) as [[a|e] w']; [apply Hk|reflexivity].
Qed.

(** The first pass of the merchant loop reads [self.categories], which
    [__init__] assigns only after the pools are built. *)
Lemma new_merchant_without_categories (self : TransactionGenerator) (w : World) :
  fake self = Some tt -> categories self = None ->
  exists w', new_merchant self w = (Raise (AttributeError "categories"), w').
Proof.
  intros Hfake Hcat. unfold new_merchant. rewrite Hfake, Hcat.
  destruct (total_with_entropy uuid4_hex w) as (u & w1 & Hu).
  rewrite (bind_ok _ _ _ _ _ Hu). cbn [get_attr].
  rewrite (bind_ok _ _ w1 w1 tt eq_refl).
  destruct (total_with_faker faker_company w1) as (name & w2 & Hname).
  rewrite (bind_ok _ _ _ _ _ Hname).
  exists w2. reflexivity.
Qed.

Lemma generate_merchants_raises (self : TransactionGenerator) (nm : Z)
    (w : World) :
  fake self = Some tt -> categories self = None ->
  num_merchants self = Some nm -> 0 < nm ->
  exists w',
    _generate_merchants self w = (Raise (AttributeError "categories"), w').
Proof.
  intros Hfake Hcat Hnm Hpos. unfold _generate_merchants. rewrite Hnm.
  cbn [get_attr]. rewrite (bind_ok _ _ w w nm eq_refl).
  destruct (Z.to_nat nm) as [|n] eqn:Hn; [lia|]. cbn [repeatM].
  destruct (new_merchant_without_categories self w Hfake Hcat) as (w' & Hm).
  exists w'. apply bind_raise. exact Hm.
Qed.

Lemma generate_merchants_empty (self : TransactionGenerator) (nm : Z)
    (w : World) :
  num_merchants self = Some nm -> nm <= 0 ->
  _generate_merchants self w = (Ok [], w).
Proof.
  intros Hnm Hneg. unfold _generate_merchants. rewrite Hnm.
  cbn [get_attr]. rewrite (bind_ok _ _ w w nm eq_refl).
  replace (Z.to_nat nm) with 0%nat by lia. reflexivity.
Qed.

Lemma generate_customers_returns (self : TransactionGenerator) (nc : Z)
    (w : World) :
  fake self = Some tt -> num_customers self = Some nc ->
  exists cs w',
    _generate_customers self w = (Ok cs, w') /\ len cs = Z.max nc 0.
Proof.
  intros Hfake Hnc. unfold _generate_customers. rewrite Hnc.
  cbn [get_attr]. rewrite (bind_ok _ _ w w nc eq_refl).
  destruct (repeatM_total (new_customer self) (total_new_customer self Hfake)
              (Z.to_nat nc) w) as (cs & w' & Hcs & Hlen).
  exists cs, w'. split; [exact Hcs|]. unfold len. rewrite Hlen. lia.
Qed.

Lemma seed_step_returns (seed : option Z) (w : World) :
  exists w', seed_step seed w = (Ok tt, w').
Proof. destruct seed; eexists; reflexivity. Qed.

(** A fraud ratio outside [[0, 1]] is refused before anything is drawn:
    the world is left as it was. *)
Lemma init_rejects_ratio (ratio : number) (nm nc : Z) (seed : option Z)
    (w : World) :
  ratio_ok ratio = false ->
  __init__ ratio nm nc seed w = (Raise ValueError, w).
Proof. intros Hr. unfold __init__. rewrite Hr. reflexivity. Qed.

(** With a valid ratio and a merchant to build, the construction stops in
    the merchant loop. *)
Lemma init_stops_in_merchant_loop (ratio : number) (nm nc : Z)
    (seed : option Z) (w : World) :
  ratio_ok ratio = true ->
  0 < nm ->
  exists w',
    __init__ ratio nm nc seed w = (Raise (AttributeError "categories"), w').
Proof.
  intros Hr Hnm. unfold __init__. rewrite Hr.
  change (negb true) with false. cbv iota zeta.
  destruct (seed_step_returns seed w) as (w1 & Hseed).
  rewrite (bind_ok _ _ _ _ _ Hseed).
  match goal with
  | |- context [_generate_merchants ?self] =>
      destruct (generate_merchants_raises self nm w1 eq_refl eq_refl eq_refl Hnm)
        as (w2 & Hms)
  end.
  rewrite (bind_raise _ _ _ _ _ Hms). exists w2. reflexivity.
Qed.

(** C1, at the code.  A fraud ratio outside [[0, 1]] is refused with
    [ValueError] before anything is drawn; but with a ratio in [[0, 1]]
    and at least one merchant asked for, [__init__] does not return a
    generator either: building the merchant pool raises [AttributeError]
    on [self.categories]. *)
Theorem init_raises_AttributeError (ratio : number) (nm nc : Z)
    (seed : option Z) (w : World) :
  ratio_ok ratio = true ->
  0 < nm ->
  fst (__init__ ratio nm nc seed w) = Raise (AttributeError "categories").
Proof.
  intros Hr Hnm.
  destruct (init_stops_in_merchant_loop ratio nm nc seed w Hr Hnm) as (w' & ->).
  reflexivity.
Qed.

(** With a valid ratio and no merchant to build, the construction runs to
    its end. *)
Lemma init_without_merchants (ratio : number) (nm nc : Z)
    (seed : option Z) (w : World) :
  ratio_ok ratio = true ->
  nm <= 0 ->
  exists (cs : list Customer) (w' : World),
    __init__ ratio nm nc seed w =
    (Ok {| fraud_ratio := Some ratio; num_merchants := Some nm;
           num_customers := Some nc; fake := Some tt;
           merchants := Some []; customers := Some cs;
           categories := Some category_list |}, w') /\
    len cs = Z.max nc 0.
Proof.
  intros Hr Hnm. unfold __init__. rewrite Hr.
  change (negb true) with false. cbv iota zeta.
  destruct (seed_step_returns seed w) as (w1 & Hseed).
  rewrite (bind_ok _ _ _ _ _ Hseed).
  match goal with
  | |- context [_generate_merchants ?self] =>
      rewrite (bind_ok _ _ _ _ _
                 (generate_merchants_empty self nm w1 eq_refl Hnm))
  end.
  match goal with
  | |- context [_generate_customers ?self] =>
      destruct (generate_customers_returns self nc w1 eq_refl eq_refl)
        as (cs & w2 & Hcs & Hlen)
  end.
  rewrite (bind_ok _ _ _ _ _ Hcs).
  exists cs, w2. split; [reflexivity|exact Hlen].
Qed.

(** C8, as the code has it.  The counts are not validated: with a fraud
    ratio in [[0, 1]] and [num_merchants <= 0] the construction returns a
    generator whose merchant pool is empty and whose customer pool has
    [max(num_customers, 0)] entries. *)
Theorem init_accepts_nonpositive_merchants (ratio : number) (nm nc : Z)
    (seed : option Z) (w : World) :
  ratio_ok ratio = true ->
  nm <= 0 ->
  exists (gen : TransactionGenerator) (w' : World),
    __init__ ratio nm nc seed w = (Ok gen, w') /\
    merchants gen = Some [] /\
    exists cs, customers gen = Some cs /\ len cs = Z.max nc 0.
Proof.
  intros Hr Hnm.
  destruct (init_without_merchants ratio nm nc seed w Hr Hnm)
    as (cs & w' & Hinit & Hlen).
  eexists _, w'. split; [exact Hinit|]. cbn [merchants customers].
  split; [reflexivity|]. exists cs. split; [reflexivity|exact Hlen].
Qed.

(** With an empty merchant pool [generate_transaction] raises at
    [random.choice(self.merchants)], if not before. *)
Lemma generate_transaction_needs_merchants (self : TransactionGenerator)
    (is_fraud0 : option bool) (w : World) :
  merchants self = Some [] ->
  is_ok (fst (generate_transaction self is_fraud0 w)) = false.
Proof.
  intros Hms. unfold generate_transaction. rewrite Hms.
  apply bind_never_ok; intros is_fraud1 w1.
  apply bind_never_ok; intros cs w2.
  apply bind_never_ok; intros customer w3.
  reflexivity.
Qed.

(** C2, at the code.  Whatever the seed, the ratio and the counts,
    constructing a generator and asking it for a transaction yields no
    transaction: the construction raises when merchants are asked for, and
    with an empty merchant pool [random.choice] raises. *)
Theorem first_transaction_never_returns (ratio : number) (nm nc : Z)
    (seed : option Z) (w : World) :
  is_ok (fst (first_transaction ratio nm nc seed w)) = false.
Proof.
  unfold first_transaction.
  destruct (ratio_ok ratio) eqn:Hr.
  2:{ rewrite (bind_raise _ _ _ _ _ (init_rejects_ratio ratio nm nc seed w Hr)).
      reflexivity. }
  destruct (Z_lt_le_dec 0 nm) as [Hnm|Hnm].
  - destruct (init_stops_in_merchant_loop ratio nm nc seed w Hr Hnm)
      as (w1 & Hinit).
    rewrite (bind_raise _ _ _ _ _ Hinit). reflexivity.
  - destruct (init_without_merchants ratio nm nc seed w Hr Hnm)
      as (cs & w1 & Hinit & _).
    rewrite (bind_ok _ _ _ _ _ Hinit).
    apply generate_transaction_needs_merchants. reflexivity.
Qed.

(** The identifiers come from the entropy source, which seeding leaves
    alone: [new_merchant] names the merchant after [uuid4]. *)
Lemma merchant_id_from_entropy (self : TransactionGenerator) (w w' : World)
    (m : Merchant) :
  new_merchant self w = (Ok m, w') ->
  m_merchant_id m = "M" ++ substring 0 12 (fst (uuid4_hex (w_entropy w))).
Proof.
  unfold new_merchant, bind at 1. unfold with_entropy at 1.
  destruct (uuid4_hex (w_entropy w)) as [u e]. cbn [fst].
  repeat match goal with
  | |- (let (_, _) := ?c in _) = _ -> _ =>
      destruct c as [[?|?] ?]; [|discriminate]
  | |- bind _ _ _ = _ -> _ => unfold bind at 1
  end.
  unfold ret. intros H. injection H as <- _. reflexivity.
Qed.

Lemma seed_all_keeps_entropy (s : Z) (w : World) :
  w_entropy (snd (seed_all s w)) = w_entropy w.
Proof. reflexivity. Qed.

End Construction.

(** The construction at the concrete libraries, with the default
    arguments. *)
Lemma init_raises_AttributeError_witness :
  fst (__init__ (R := Fixtures.counter_random) (F := Fixtures.constant_faker)
         (U := Fixtures.counter_uuid) (C := Fixtures.fixed_clock)
         Fixtures.ratio_005 1000 5000 None (Fixtures.new_world 0))
  = Raise (AttributeError "categories").
Proof.
  apply (init_raises_AttributeError
           (R := Fixtures.counter_random) (F := Fixtures.constant_faker)
           (U := Fixtures.counter_uuid) (C := Fixtures.fixed_clock)
           Fixtures.ratio_005 1000 5000 None (Fixtures.new_world 0)).
  - vm_compute. reflexivity.
  - lia.
Defined.

Lemma init_accepts_nonpositive_merchants_witness :
  exists gen w',
    __init__ (R := Fixtures.counter_random) (F := Fixtures.constant_faker)
      (U := Fixtures.counter_uuid) (C := Fixtures.fixed_clock)
      Fixtures.ratio_005 (-3) 2 (Some 42) (Fixtures.new_world 0) = (Ok gen, w') /\
    merchants gen = Some [] /\
    exists cs, customers gen = Some cs /\ len cs = 2.
Proof.
  apply (init_accepts_nonpositive_merchants
           (R := Fixtures.counter_random) (F := Fixtures.constant_faker)
           (U := Fixtures.counter_uuid) (C := Fixtures.fixed_clock)
           Fixtures.ratio_005 (-3) 2 (Some 42) (Fixtures.new_world 0)).
  - vm_compute. reflexivity.
  - lia.
Defined.

(** The specification's sentence fails: zero merchants and zero
    customers are accepted and two empty pools are built.  *)
Lemma init_accepts_zero_counts :
  exists gen,
    fst (__init__ (R := Fixtures.counter_random) (F := Fixtures.constant_faker)
           (U := Fixtures.counter_uuid) (C := Fixtures.fixed_clock)
           Fixtures.ratio_005 0 0 None (Fixtures.new_world 0)) = Ok gen /\
    merchants gen = Some [] /\ customers gen = Some [].
Proof. eexists. split; [vm_compute; reflexivity|]. split; reflexivity. Qed.

(** Under one seed, two runs of the merchant loop's body on a completed
    object name their merchants differently when the entropy differs. *)
Lemma seeded_merchant_ids_differ :
  let run entropy :=
    fst (bind (seed_all 123) (fun _ => new_merchant Fixtures.small_generator)
           (Fixtures.new_world entropy)) in
  exists m0 m1,
    run 0 = Ok m0 /\ run 1 = Ok m1 /\
    m_merchant_name m0 = m_merchant_name m1 /\
    m_merchant_id m0 <> m_merchant_id m1.
Proof.
  cbv zeta. eexists _, _.
  split; [vm_compute; reflexivity|]. split; [vm_compute; reflexivity|].
  split; [reflexivity|]. cbn. discriminate.
Qed.

(** ** [get_fraud_statistics] *)

Lemma count_fraud_filter (transactions : list Transaction) :
  count_fraud transactions = len (filter is_fraud transactions).
Proof.
  unfold count_fraud, len.
  assert (H : forall acc,
    fold_left (fun acc t => if is_fraud t then acc + 1 else acc) transactions acc
    = acc + Z.of_nat (List.length (filter is_fraud transactions))).
  { induction transactions as [|t ts IH]; intros acc; cbn [fold_left filter].
    - cbn. lia.
    - rewrite IH. destruct (is_fraud t); cbn [List.length]; lia. }
  rewrite H. lia.
Qed.

Lemma filter_length_split {A} (f : A -> bool) (l : list A) :
  (List.length (filter f l)
   + List.length (filter (fun x => negb (f x)) l))%nat = List.length l.
Proof.
  induction l as [|x l IH]; cbn; [reflexivity|].
  destruct (f x); cbn; lia.
Qed.

(** C6.  [get_fraud_statistics] always returns (the division is never
    reached with a zero divisor): [total] is the list's length,
    [fraud_count] the number of transactions with [is_fraud] true,
    [legitimate_count] their difference, which is the number of the others,
    and [fraud_percentage] is [round(fraud_count / total * 100, 2)] when
    the list is not empty and the integer 0 when it is.  A list of 100
    transactions of which 20 are fraudulent yields
    [{100, 20, 80, 20.0}]. *)
Theorem get_fraud_statistics_spec :
  (forall transactions : list Transaction,
     let total := len transactions in
     let frauds := len (filter is_fraud transactions) in
     get_fraud_statistics transactions =
     Ok {| total_transactions := total;
           fraud_count := frauds;
           legitimate_count := total - frauds;
           fraud_percentage :=
             if 0 <? total
             then PFloat (float_round2
                            (fmul (fdiv (exact_int frauds) (exact_int total))
                                  (float_of_int 100)))
             else PInt 0 |} /\
     total - frauds
     = len (filter (fun t => negb (is_fraud t)) transactions) /\
     (transactions = [] ->
      fraud_percentage_of (get_fraud_statistics transactions) = Some (PInt 0)))
  /\
  (forall transactions : list Transaction,
     len transactions = 100 ->
     len (filter is_fraud transactions) = 20 ->
     get_fraud_statistics transactions =
     Ok {| total_transactions := 100; fraud_count := 20;
           legitimate_count := 80; fraud_percentage := PFloat twenty |}).
Proof.
  assert (Hgen : forall transactions : list Transaction,
     get_fraud_statistics transactions =
     Ok {| total_transactions := len transactions;
           fraud_count := len (filter is_fraud transactions);
           legitimate_count :=
             len transactions - len (filter is_fraud transactions);
           fraud_percentage :=
             if 0 <? len transactions
             then PFloat (float_round2
                            (fmul (fdiv (exact_int (len (filter is_fraud transactions)))
                                        (exact_int (len transactions)))
                                  (float_of_int 100)))
             else PInt 0 |}).
  { intros transactions. unfold get_fraud_statistics.
    rewrite count_fraud_filter.
    destruct (0 <? len transactions) eqn:Hpos; [|reflexivity].
    unfold int_truediv.
    apply Z.ltb_lt in Hpos.
    destruct (len transactions =? 0) eqn:Hz; [apply Z.eqb_eq in Hz; lia|].
    reflexivity. }
  split.
  - intros transactions. cbv zeta. split; [apply Hgen|]. split.
    + pose proof (filter_length_split is_fraud transactions).
      unfold len. lia.
    + intros ->. reflexivity.
  - intros transactions Htotal Hfraud.
    rewrite Hgen, Htotal, Hfraud. reflexivity.
Qed.


(** ** Transaction amounts *)

Lemma amount_range_cases (category : string) :
  In (amount_range category)
     [(20, 150); (15, 100); (30, 80); (25, 300); (100, 1000); (50, 800);
      (30, 250); (50, 500); (50, 300); (10, 200)].
Proof.
  unfold amount_range, category_ranges. cbn [dict_get].
  repeat match goal with
  | |- context [String.eqb ?a ?b] => destruct (String.eqb a b)
  end; cbn; tauto.
Qed.

Lemma amount_range_facts (category : string) :
  let (lo, hi) := amount_range category in
  10 <= lo /\ lo <= hi /\ hi <= 1000 /\
  exists mean std,
    int_truediv (lo + hi) 2 = Some mean /\
    int_truediv (hi - lo) 4 = Some std /\
    float_is_ratio mean (lo + hi) 2 /\
    float_is_ratio std (hi - lo) 4.
Proof.
  pose proof (amount_range_cases category) as Hin.
  destruct (amount_range category) as [lo hi].
  cbn [In] in Hin.
  repeat destruct Hin as [Hin|Hin]; try contradiction;
    injection Hin as <- <-;
    (split; [lia|]); (split; [lia|]); (split; [lia|]);
    eexists _, _; (split; [reflexivity|]); (split; [reflexivity|]);
    split; vm_compute; reflexivity.
Qed.

Section Amounts.
Context {R : RandomLib} {L : RandomLaws R} {F : FakerLib} {U : UuidLib}
        {C : ClockLib} {P : MathLib}.

Lemma bind_inv {A B} (c : G A) (k : A -> G B) (w w' : World) (b : B) :
  bind c k w = (Ok b, w') ->
  exists a w1, c w = (Ok a, w1) /\ k a w1 = (Ok b, w').
Proof.
  unfold bind. destruct (c w) as [[a|e] w1]; [|discriminate].
  intros H. exists a, w1. split; [reflexivity|exact H].
Qed.

Lemma with_random_inv {A} (f : Rng -> A * Rng) (w w' : World) (a : A) :
  with_random f w = (Ok a, w') -> a = fst (f (w_random w)).
Proof.
  unfold with_random. destruct (f (w_random w)) as [a0 g].
  intros H. injection H as <- _. reflexivity.
Qed.

Lemma normal_amount_legitimate (category : string) (w w' : World) (a : number) :
  _generate_normal_amount category w = (Ok a, w') ->
  let (lo, hi) := amount_range category in
  legitimate_amount lo hi (py_round2 a).
Proof.
  unfold _generate_normal_amount.
  pose proof (amount_range_facts category) as Hf.
  destruct (amount_range category) as [lo hi].
  destruct Hf as (Hlo & Hle & Hhi & mean & std & Hmean & Hstd & Hm & Hs).
  unfold truediv. rewrite Hmean, Hstd.
  intros H.
  apply bind_inv in H. destruct H as (mean' & w1 & Hr1 & H).
  injection Hr1 as <- <-.
  apply bind_inv in H. destruct H as (std' & w2 & Hr2 & H).
  injection Hr2 as <- <-.
  apply bind_inv in H. destruct H as (g & w3 & Hg & H).
  apply with_random_inv in Hg.
  injection H as <- _. subst g.
  split.
  - apply py_round2_in_range; try lia. apply clamp_in_range. exact Hle.
  - eexists. split; [|reflexivity].
    exists mean, std, (w_random w). repeat split; assumption.
Qed.

Lemma choice_inv {A} (l : list A) (w w' : World) (x : A) :
  choice l w = (Ok x, w') -> In x l.
Proof.
  unfold choice. destruct l as [|y l]; [discriminate|].
  intros H. apply bind_inv in H. destruct H as (i & w1 & _ & H).
  destruct (nth_error (y :: l) (Z.to_nat i)) as [z|] eqn:Hn; [|discriminate].
  injection H as <- _. eapply nth_error_In, Hn.
Qed.

Lemma fraud_amount_kinds (category : string) (w w' : World) (a : number) :
  _generate_fraud_amount category w = (Ok a, w') ->
  let (lo, hi) := amount_range category in
  high_value_amount (py_round2 a) \/ legitimate_amount lo hi (py_round2 a).
Proof.
  unfold _generate_fraud_amount. intros H.
  apply bind_inv in H. destruct H as (fraud_type & w1 & _ & H).
  destruct (String.eqb fraud_type "high_value").
  - apply bind_inv in H. destruct H as (x & w2 & Hx & H).
    apply with_random_inv in Hx. injection H as <- _. subst x.
    destruct (amount_range category) as [lo hi]. left. split.
    + apply py_round2_in_range; try lia. apply uniform_range. lia.
    + exists (w_random w1). reflexivity.
  - pose proof (normal_amount_legitimate category w1 w' a H) as Hn.
    destruct (amount_range category) as [lo hi]. right. exact Hn.
Qed.

Lemma legitimate_amount_positive (category : string) (x : number) :
  (let (lo, hi) := amount_range category in legitimate_amount lo hi x) ->
  num_lt (PInt 0) x = true.
Proof.
  pose proof (amount_range_facts category) as Hf.
  destruct (amount_range category) as [lo hi].
  destruct Hf as (Hlo & _). intros [Hr _].
  apply (in_range_positive lo hi); [lia|exact Hr].
Qed.

(** Which kind a fraudulent amount is follows [random.choice] between the
    two names: the first gives the high-value draw, the second the
    legitimate distribution. *)
Lemma fraud_amount_by_choice (category : string) (w : World) :
  let (i, g) := rng_randbelow 2 (w_random w) in
  let w1 := {| w_random := g; w_faker := w_faker w;
               w_entropy := w_entropy w; w_clock := w_clock w |} in
  (i = 0 ->
   _generate_fraud_amount category w =
   bind (with_random (rng_uniform 3000 10000)) (fun x => ret (PFloat x)) w1) /\
  (i = 1 ->
   _generate_fraud_amount category w = _generate_normal_amount category w1).
Proof.
  unfold _generate_fraud_amount, choice, bind, with_random.
  change (len ["high_value"; "normal_suspicious"]) with 2.
  destruct (rng_randbelow 2 (w_random w)) as [i g].
  split; intros ->; reflexivity.
Qed.

(** ** What one call of [generate_transaction] draws *)

Lemma get_attr_inv {A} (name : string) (field : option A) (w w' : World)
    (a : A) :
  get_attr name field w = (Ok a, w') -> field = Some a /\ w' = w.
Proof.
  destruct field as [x|]; cbn [get_attr]; [|discriminate].
  intros H. injection H as <- <-. split; reflexivity.
Qed.

Lemma lift_inv {A} (r : result A) (w w' : World) (a : A) :
  lift r w = (Ok a, w') -> r = Ok a /\ w' = w.
Proof. unfold lift. intros H. injection H as -> <-. split; reflexivity. Qed.

Lemma with_random_run {A} (f : Rng -> A * Rng) (w w' : World) (a : A) :
  with_random f w = (Ok a, w') ->
  a = fst (f (w_random w)) /\ w_random w' = snd (f (w_random w)) /\
  w_clock w' = w_clock w.
Proof.
  unfold with_random. destruct (f (w_random w)) as [a0 g].
  intros H. injection H as <- <-. repeat split.
Qed.

Lemma with_clock_run {A} (f : Clock -> A * Clock) (w w' : World) (a : A) :
  with_clock f w = (Ok a, w') ->
  a = fst (f (w_clock w)) /\ w_random w' = w_random w.
Proof.
  unfold with_clock. destruct (f (w_clock w)) as [a0 g].
  intros H. injection H as <- <-. repeat split.
Qed.

Lemma choice_run {A} (l : list A) (w w' : World) (x : A) :
  choice l w = (Ok x, w') ->
  In x l /\ w_random w' = snd (rng_randbelow (len l) (w_random w)) /\
  w_clock w' = w_clock w.
Proof.
  intros H. split; [apply (choice_inv _ _ _ _ H)|].
  revert H. unfold choice. destruct l as [|y l]; [discriminate|].
  intros H. apply bind_inv in H. destruct H as (i & w1 & Hi & H).
  apply with_random_run in Hi. destruct Hi as (_ & Hg & Hc).
  destruct (nth_error (y :: l) (Z.to_nat i)); [|discriminate].
  injection H as _ <-. split; assumption.
Qed.

Lemma randint_run (a b : Z) (w w' : World) (x : Z) :
  randint a b w = (Ok x, w') ->
  x = a + fst (rng_randbelow (b - a + 1) (w_random w)) /\
  w_random w' = snd (rng_randbelow (b - a + 1) (w_random w)).
Proof.
  unfold randint. intros H.
  apply bind_inv in H. destruct H as (i & w1 & Hi & H).
  apply with_random_run in Hi. destruct Hi as (-> & Hg & _).
  injection H as <- <-. split; [reflexivity|exact Hg].
Qed.

(** What a returned transaction was built from, and where the stream of
    [random] stood when its amount was drawn. *)
Lemma generate_transaction_inv (self : TransactionGenerator)
    (is_fraud0 : option bool) (w w' : World) (tx : Transaction) :
  generate_transaction self is_fraud0 w = (Ok tx, w') ->
  exists cs customer ms merchant g seconds w7 amount0 w8 distance u card,
    label_from self is_fraud0 w (is_fraud tx) /\
    customers self = Some cs /\ In customer cs /\
    merchants self = Some ms /\ In merchant ms /\
    seconds = fst (rng_randbelow 86401 g) /\
    w_random w7 = amount_rng is_fraud0 cs ms (w_random w) /\
    (if is_fraud tx
     then _generate_fraud_amount (m_merchant_category merchant)
     else _generate_normal_amount (m_merchant_category merchant)) w7
    = (Ok amount0, w8) /\
    _calculate_distance (c_home_location customer)
                        (m_merchant_location merchant) = Ok distance /\
    In card card_types /\
    tx = {| transaction_id := "T" ++ u;
            timestamp :=
              isoformat (fst (clock_utcnow (w_clock w)) - seconds * 1000000)
              ++ "Z";
            customer_id := c_customer_id customer;
            merchant_id := m_merchant_id merchant;
            merchant_name := m_merchant_name merchant;
            merchant_category := m_merchant_category merchant;
            amount := py_round2 amount0;
            currency := "USD";
            merchant_location := m_merchant_location merchant;
            distance_from_home_km := float_round2 distance;
            is_unusual_hour :=
              _is_unusual_hour
                (fst (clock_utcnow (w_clock w)) - seconds * 1000000);
            card_type := card;
            is_fraud := is_fraud tx |}.
Proof.
  unfold generate_transaction. intros H.
  apply bind_inv in H. destruct H as (is_fraud1 & w1 & Hlabel & H).
  apply bind_inv in H. destruct H as (cs & w2 & Hcs & H).
  apply get_attr_inv in Hcs. destruct Hcs as [Hcs ->].
  apply bind_inv in H. destruct H as (customer & w3 & Hcustomer & H).
  apply bind_inv in H. destruct H as (ms & w4 & Hms & H).
  apply get_attr_inv in Hms. destruct Hms as [Hms ->].
  apply bind_inv in H. destruct H as (merchant & w5 & Hmerchant & H).
  apply bind_inv in H. destruct H as (base_time & w6 & Hbase & H).
  apply bind_inv in H. destruct H as (seconds & w7 & Hseconds & H).
  cbv zeta in H.
  apply bind_inv in H. destruct H as (amount0 & w8 & Hamount & H).
  apply bind_inv in H. destruct H as (distance & w8' & Hdistance & H).
  apply lift_inv in Hdistance. destruct Hdistance as [Hdistance ->].
  apply bind_inv in H. destruct H as (u & w9 & _ & H).
  apply bind_inv in H. destruct H as (card & w10 & Hcard & H).
  injection H as <- _. cbn [is_fraud].
  apply choice_run in Hcustomer. destruct Hcustomer as (Hc & Hg3 & Hk3).
  apply choice_run in Hmerchant. destruct Hmerchant as (Hm & Hg5 & Hk5).
  apply with_clock_run in Hbase. destruct Hbase as (Hb & Hg6).
  apply randint_run in Hseconds. destruct Hseconds as (Hs & Hg7).
  assert (Hfirst : label_from self is_fraud0 w is_fraud1 /\
                   w_clock w1 = w_clock w /\
                   w_random w1 = match is_fraud0 with
                                 | Some _ => w_random w
                                 | None => snd (rng_random (w_random w))
                                 end).
  { destruct is_fraud0 as [b|]; cbn [label_from].
    - injection Hlabel as <- <-. repeat split.
    - apply bind_inv in Hlabel. destruct Hlabel as (x & wa & Hx & Hlabel).
      apply with_random_run in Hx. destruct Hx as (Hx & Hga & Hka).
      apply bind_inv in Hlabel. destruct Hlabel as (r & wb & Hr & Hlabel).
      apply get_attr_inv in Hr. destruct Hr as [Hr ->].
      injection Hlabel as <- <-. split; [|split; assumption].
      exists r. split; [exact Hr|]. rewrite Hx. reflexivity. }
  destruct Hfirst as (Hlab & Hk1 & Hg1).
  exists cs, customer, ms, merchant, (w_random w5), seconds, w7, amount0, w8,
    distance, u, card.
  rewrite Hk5, Hk3, Hk1 in Hb. subst base_time.
  split; [exact Hlab|]. split; [exact Hcs|]. split; [exact Hc|].
  split; [exact Hms|]. split; [exact Hm|].
  split; [rewrite Hs, Hg6; reflexivity|].
  split.
  { unfold amount_rng. rewrite Hg7, Hg6, Hg5, Hg3, Hg1. reflexivity. }
  split; [exact Hamount|]. split; [exact Hdistance|].
  split; [apply (choice_inv _ _ _ _ Hcard)|]. reflexivity.
Qed.

(** A legitimate amount is the clamp of the [gauss] draw made on the
    current state of [random], with the mean and the deviation of the
    category's range. *)
Lemma normal_amount_exact (category : string) (w w' : World) (a : number) :
  _generate_normal_amount category w = (Ok a, w') ->
  let (lo, hi) := amount_range category in
  exists mean std,
    int_truediv (lo + hi) 2 = Some mean /\
    int_truediv (hi - lo) 4 = Some std /\
    a = clamped lo hi (fst (rng_gauss mean std (w_random w))).
Proof.
  unfold _generate_normal_amount.
  pose proof (amount_range_facts category) as Hf.
  destruct (amount_range category) as [lo hi].
  destruct Hf as (_ & _ & _ & mean & std & Hmean & Hstd & _).
  unfold truediv. rewrite Hmean, Hstd.
  intros H.
  apply bind_inv in H. destruct H as (mean' & w1 & Hr1 & H).
  injection Hr1 as <- <-.
  apply bind_inv in H. destruct H as (std' & w2 & Hr2 & H).
  injection Hr2 as <- <-.
  apply bind_inv in H. destruct H as (x & w3 & Hx & H).
  apply with_random_run in Hx. destruct Hx as (-> & _).
  injection H as <- _.
  exists mean, std. repeat split.
Qed.

(** A fraudulent amount follows the index [random.choice] draws on the
    current state: index 0 is ["high_value"], the [uniform] draw made on
    the next state; index 1 is the legitimate amount drawn there. *)
Lemma fraud_amount_exact (category : string) (w w' : World) (a : number) :
  _generate_fraud_amount category w = (Ok a, w') ->
  let (lo, hi) := amount_range category in
  let (i, g) := rng_randbelow 2 (w_random w) in
  (i = 0 /\ a = PFloat (fst (rng_uniform 3000 10000 g))) \/
  (i = 1 /\
   exists mean std,
     int_truediv (lo + hi) 2 = Some mean /\
     int_truediv (hi - lo) 4 = Some std /\
     a = clamped lo hi (fst (rng_gauss mean std g))).
Proof.
  intros H.
  pose proof (fraud_amount_by_choice category w) as Hby.
  pose proof (randbelow_range 2 (w_random w) ltac:(lia)) as Hi.
  pose proof (normal_amount_exact category) as Hn.
  destruct (amount_range category) as [lo hi].
  destruct (rng_randbelow 2 (w_random w)) as [i g]. cbn [fst] in Hi.
  destruct Hby as [H0 H1].
  assert (Hcases : i = 0 \/ i = 1) by lia.
  destruct Hcases as [->| ->].
  - left. split; [reflexivity|].
    rewrite (H0 eq_refl) in H.
    apply bind_inv in H. destruct H as (x & w2 & Hx & H).
    apply with_random_run in Hx. destruct Hx as (-> & _).
    injection H as <- _. reflexivity.
  - right. split; [reflexivity|].
    rewrite (H1 eq_refl) in H. apply (Hn _ _ _ H).
Qed.

(** The range of a category is its entry of the table, or [[10, 200]]
    when the table has none. *)
Lemma dict_get_cases {A} (d : list (string * A)) (key : string)
    (default : A) :
  In (key, dict_get d key default) d \/
  ((forall v, ~ In (key, v) d) /\ dict_get d key default = default).
Proof.
  induction d as [|[k v] d IH]; cbn [dict_get In].
  - right. split; [intros v []|reflexivity].
  - destruct (String.eqb_spec k key) as [->|Hne].
    + left. left. reflexivity.
    + destruct IH as [Hin|[Hout Hd]].
      * left. right. exact Hin.
      * right. split; [|exact Hd].
        intros v' [Heq|Hin]; [congruence|exact (Hout v' Hin)].
Qed.

Lemma clamped_in_range (lo hi : Z) (x : float) :
  10 <= lo -> lo <= hi -> hi <= 1000 ->
  in_range lo hi (py_round2 (clamped lo hi x)) = true.
Proof.
  intros Hlo Hle Hhi. apply py_round2_in_range; try lia.
  apply clamp_in_range. exact Hle.
Qed.

(** C9.  Every transaction [generate_transaction] returns has a positive
    amount, fixed by the draws of [random] in the order the code makes
    them.  The range [[min, max]] is the entry of the merchant's category
    in the table, or [[10, 200]] for a category without one.  A legitimate
    amount is the [gauss] draw of mean [(min + max) / 2] and deviation
    [(max - min) / 4], both exact, made on the state the earlier draws
    left, clamped into the range and rounded to two decimals.  For a
    fraudulent amount [random.choice] first draws an index on that state:
    index 0 gives the rounded [uniform(3000, 10000)] draw, which lies in
    [[3000, 10000]], and index 1 the legitimate amount of the category,
    each drawn on the state the choice left.  The rounded amount lies in
    the range that applies. *)
Theorem generated_amount_in_range (self : TransactionGenerator)
    (is_fraud0 : option bool) (w w' : World) (tx : Transaction) :
  generate_transaction self is_fraud0 w = (Ok tx, w') ->
  let (lo, hi) := amount_range (merchant_category tx) in
  num_lt (PInt 0) (amount tx) = true /\
  (In (merchant_category tx, (lo, hi)) category_ranges \/
   (forall range, ~ In (merchant_category tx, range) category_ranges) /\
   (lo, hi) = (10, 200)) /\
  exists cs ms mean std,
    customers self = Some cs /\ merchants self = Some ms /\
    int_truediv (lo + hi) 2 = Some mean /\ float_is_ratio mean (lo + hi) 2 /\
    int_truediv (hi - lo) 4 = Some std /\ float_is_ratio std (hi - lo) 4 /\
    let g := amount_rng is_fraud0 cs ms (w_random w) in
    (is_fraud tx = false ->
     amount tx = py_round2 (clamped lo hi (fst (rng_gauss mean std g))) /\
     in_range lo hi (amount tx) = true) /\
    (is_fraud tx = true ->
     let (i, g') := rng_randbelow 2 g in
     (i = 0 /\
      amount tx = py_round2 (PFloat (fst (rng_uniform 3000 10000 g'))) /\
      in_range 3000 10000 (amount tx) = true) \/
     (i = 1 /\
      amount tx = py_round2 (clamped lo hi (fst (rng_gauss mean std g'))) /\
      in_range lo hi (amount tx) = true)).
Proof.
  intros H. apply generate_transaction_inv in H.
  destruct H as (cs & customer & ms & merchant & g0 & seconds & w7 & amount0
                 & w8 & distance & u & card & _ & Hcs & _ & Hms & _ & _ & Hg
                 & Hamount & _ & _ & Htx).
  assert (Hcat : merchant_category tx = m_merchant_category merchant)
    by (rewrite Htx; reflexivity).
  assert (Ha : amount tx = py_round2 amount0) by (rewrite Htx; reflexivity).
  rewrite Hcat, Ha. clear Htx Hcat Ha.
  set (category := m_merchant_category merchant) in *.
  pose proof (amount_range_facts category) as Hf.
  pose proof (normal_amount_exact category w7 w8 amount0) as Hn.
  pose proof (fraud_amount_exact category w7 w8 amount0) as Hfr.
  pose proof (dict_get_cases category_ranges category (10, 200)) as Htable.
  fold (amount_range category) in Htable.
  rewrite Hg in Hn, Hfr.
  destruct (amount_range category) as [lo hi].
  destruct Hf as (Hlo & Hle & Hhi & mean & std & Hmean & Hstd & Hm & Hs).
  assert (Hpos : forall x, in_range lo hi x = true \/
                           in_range 3000 10000 x = true ->
                           num_lt (PInt 0) x = true).
  { intros x [Hx|Hx].
    - apply (in_range_positive lo hi); [lia|exact Hx].
    - apply (in_range_positive 3000 10000); [lia|exact Hx]. }
  assert (Hlegit : forall x, in_range lo hi
                               (py_round2 (clamped lo hi x)) = true)
    by (intros x; apply clamped_in_range; assumption).
  assert (Hhigh : forall g1, in_range 3000 10000
            (py_round2 (PFloat (fst (rng_uniform 3000 10000 g1)))) = true).
  { intros g1. apply py_round2_in_range; try lia.
    apply uniform_range. lia. }
  split; [|split; [exact Htable|]].
  - destruct (is_fraud tx).
    + specialize (Hfr Hamount).
      destruct (rng_randbelow 2 (amount_rng is_fraud0 cs ms (w_random w)))
        as [i g'].
      destruct Hfr as [[_ ->]|[_ (mean' & std' & _ & _ & ->)]].
      * apply Hpos. right. apply Hhigh.
      * apply Hpos. left. apply Hlegit.
    + destruct (Hn Hamount) as (mean' & std' & _ & _ & ->).
      apply Hpos. left. apply Hlegit.
  - exists cs, ms, mean, std.
    split; [exact Hcs|]. split; [exact Hms|]. split; [exact Hmean|].
    split; [exact Hm|]. split; [exact Hstd|]. split; [exact Hs|].
    cbv zeta. split.
    + intros Hlabel. rewrite Hlabel in Hamount.
      destruct (Hn Hamount) as (mean' & std' & Hmean' & Hstd' & ->).
      assert (mean' = mean) by congruence.
      assert (std' = std) by congruence. subst mean' std'.
      split; [reflexivity|apply Hlegit].
    + intros Hlabel. rewrite Hlabel in Hamount. specialize (Hfr Hamount).
      destruct (rng_randbelow 2 (amount_rng is_fraud0 cs ms (w_random w)))
        as [i g'].
      destruct Hfr as [[Hi ->]|[Hi (mean' & std' & Hmean' & Hstd' & ->)]].
      * left. split; [exact Hi|]. split; [reflexivity|apply Hhigh].
      * assert (mean' = mean) by congruence.
        assert (std' = std) by congruence. subst mean' std'.
        right. split; [exact Hi|]. split; [reflexivity|apply Hlegit].
Qed.

(** A category outside the table gets the range [[10, 200]]. *)
Lemma amount_range_fallback (category : string) :
  ~ In category category_list -> amount_range category = (10, 200).
Proof.
  intros Hnot. unfold amount_range, category_ranges. cbn [dict_get].
  repeat match goal with
  | |- context [String.eqb ?a category] =>
      destruct (String.eqb_spec a category) as [Heq|_];
      [exfalso; apply Hnot; rewrite <- Heq; cbn; tauto|]
  end.
  reflexivity.
Qed.

End Amounts.

(** The counter generator keeps the library's promises. *)
Lemma counter_random_laws : RandomLaws Fixtures.counter_random.
Proof.
  split.
  - intros n g Hn. cbn. apply Z.mod_pos_bound. exact Hn.
  - intros a b g Hab. cbn [rng_uniform Fixtures.counter_random fst].
    unfold in_range, num_le, num_compare.
    assert (Hx : xreal_of_number (PFloat (exact_int a)) = XFin a 0)
      by (destruct a; reflexivity).
    rewrite Hx. cbn [xreal_of_number xreal_compare].
    rewrite !cmp_scaled_int, Z.compare_refl.
    destruct (Z.compare_spec a b); try reflexivity; lia.
Qed.

(** Two transactions at the travel merchant, from the counter generator:
    a legitimate one, whose draw is the mean 550, and a fraudulent one
    whose choice draws index 0 and whose [uniform] draw is 3000. *)
Lemma generated_amount_in_range_witness :
  exists legitimate fraudulent w1 w2,
    generate_transaction (R := Fixtures.counter_random)
      (F := Fixtures.constant_faker) (U := Fixtures.counter_uuid)
      (C := Fixtures.fixed_clock) (P := Fixtures.first_argument_pow)
      Fixtures.small_generator (Some false) (Fixtures.new_world 0)
    = (Ok legitimate, w1) /\
    generate_transaction (R := Fixtures.counter_random)
      (F := Fixtures.constant_faker) (U := Fixtures.counter_uuid)
      (C := Fixtures.fixed_clock) (P := Fixtures.first_argument_pow)
      Fixtures.small_generator (Some true) (Scenarios.world_at 1)
    = (Ok fraudulent, w2) /\
    amount legitimate = PFloat (float_of_int 550) /\
    in_range 100 1000 (amount legitimate) = true /\
    amount fraudulent = PFloat (float_of_int 3000) /\
    in_range 3000 10000 (amount fraudulent) = true.
Proof.
  destruct (generate_transaction (R := Fixtures.counter_random)
              (F := Fixtures.constant_faker) (U := Fixtures.counter_uuid)
              (C := Fixtures.fixed_clock) (P := Fixtures.first_argument_pow)
              Fixtures.small_generator (Some false) (Fixtures.new_world 0))
    as [[tx1|e] w1] eqn:Hrun1; [|vm_compute in Hrun1; discriminate].
  destruct (generate_transaction (R := Fixtures.counter_random)
              (F := Fixtures.constant_faker) (U := Fixtures.counter_uuid)
              (C := Fixtures.fixed_clock) (P := Fixtures.first_argument_pow)
              Fixtures.small_generator (Some true) (Scenarios.world_at 1))
    as [[tx2|e] w2] eqn:Hrun2; [|vm_compute in Hrun2; discriminate].
  exists tx1, tx2, w1, w2. split; [reflexivity|]. split; [reflexivity|].
  pose proof (generated_amount_in_range (L := counter_random_laws)
                _ _ _ _ _ Hrun1) as H1.
  pose proof (generated_amount_in_range (L := counter_random_laws)
                _ _ _ _ _ Hrun2) as H2.
  assert (Hcat1 : merchant_category tx1 = "travel")
    by (vm_compute in Hrun1; injection Hrun1 as <- _; reflexivity).
  assert (Hcat2 : merchant_category tx2 = "travel")
    by (vm_compute in Hrun2; injection Hrun2 as <- _; reflexivity).
  assert (Hlabel1 : is_fraud tx1 = false)
    by (vm_compute in Hrun1; injection Hrun1 as <- _; reflexivity).
  assert (Hlabel2 : is_fraud tx2 = true)
    by (vm_compute in Hrun2; injection Hrun2 as <- _; reflexivity).
  rewrite Hcat1 in H1. rewrite Hcat2 in H2.
  change (amount_range "travel") with (100, 1000) in H1, H2.
  destruct H1 as (_ & _ & cs1 & ms1 & mean1 & std1 & Hcs1 & Hms1 & Hmean1 & _
                  & Hstd1 & _ & Hlegit & _).
  destruct H2 as (_ & _ & cs2 & ms2 & mean2 & std2 & Hcs2 & Hms2 & Hmean2 & _
                  & Hstd2 & _ & _ & Hfraud).
  injection Hcs1 as <-. injection Hms1 as <-.
  injection Hcs2 as <-. injection Hms2 as <-.
  injection Hmean1 as <-. injection Hstd1 as <-.
  injection Hmean2 as <-. injection Hstd2 as <-.
  destruct (Hlegit Hlabel1) as [Ha1 Hr1].
  specialize (Hfraud Hlabel2).
  vm_compute (rng_randbelow 2 _) in Hfraud.
  destruct Hfraud as [(_ & Ha2 & Hr2)|(Hi & _)]; [|discriminate Hi].
  split; [rewrite Ha1; vm_compute; reflexivity|]. split; [exact Hr1|].
  split; [rewrite Ha2; vm_compute; reflexivity|exact Hr2].
Defined.

End DataGeneratorSpec.

(* ================================================================== *)
(** * Further properties of the delivery client *)
(* ================================================================== *)

Module KinesisRetrySpec.
Import PyNum Py KinesisProducer KinesisRetry.
Local Open Scope Z_scope.

Section Facts.
Context {K : KinesisClient} {Rec : Type} {J : RecordCodec Rec}
        {T : TimeLib}.

Local Abbreviation retry_of :=
  (retry_of (K := K) (Rec := Rec) (J := J) (T := T)).

(** From [run = (Ok x, s)] with a result variable, name the result. *)
Ltac ok_result H :=
  apply (f_equal fst) in H; cbn [fst put_records_batch] in H;
  unfold ret in H; cbn [fst] in H;
  match type of H with
  | Ok ?x = Ok ?r => assert (r = x) by congruence; subst r
  end;
  cbv [successful failed].

(** One layer of [put_records_batch] on a non-empty batch. *)
Lemma put_records_batch_step (depth : nat) (r0 : Rec) (rs : list Rec)
    (self : Producer) :
  put_records_batch depth (r0 :: rs) self =
  (let records := r0 :: rs in
   let '(answer, service) :=
     client_put_records (stream_name self) (kinesis_records self records)
                        (client self) in
   let called :=
     add_effect (set_client self service)
       (CallPutRecords (stream_name self) (kinesis_records self records)) in
   match answer with
   | inl _ =>
       (Ok {| successful := 0; failed := len records |},
        set_metrics called
          {| total_records_sent := total_records_sent (metrics self);
             total_records_failed :=
               total_records_failed (metrics self) + len records;
             total_batches_sent := total_batches_sent (metrics self);
             total_bytes_sent := total_bytes_sent (metrics self) |})
   | inr response =>
       let k := failed_count_of response in
       let counted := after_attempt self records k service in
       let result := {| successful := len records - k; failed := k |} in
       if 0 <? k then
         match Records response with
         | None => (Raise (KeyError "Records"), counted)
         | Some response_records =>
             match collect_failed records 0 response_records with
             | Raise e => (Raise e, counted)
             | Ok [] => (Ok result, counted)
             | Ok (f0 :: fs) =>
                 match time_sleep (retry_delay self) with
                 | Some e => (Raise e, counted)
                 | None =>
                     match retry_of depth (f0 :: fs)
                             (add_effect counted (Sleep (retry_delay self)))
                     with
                     | (Ok _, self2) => (Ok result, self2)
                     | (Raise e, self2) => (Raise e, self2)
                     end
                 end
             end
         end
       else (Ok result, counted)
   end).
Proof.
  cbv zeta.
  destruct depth as [|d]; cbn [put_records_batch KinesisRetry.retry_of];
    unfold bind, get_self, call_put_records;
    destruct (client_put_records (stream_name self)
                (kinesis_records self (r0 :: rs)) (client self))
      as [[e|response] service];
    try reflexivity;
    unfold update_metrics, failed_count_of, after_attempt;
    destruct (FailedRecordCount response) as [k|];
    try reflexivity;
    destruct (0 <? k); try reflexivity;
    destruct (Records response) as [response_records|]; try reflexivity;
    unfold _handle_failed_records;
    destruct (collect_failed (r0 :: rs) 0 response_records) as [[|f0 fs]|e];
    try reflexivity;
    unfold bind, get_self, sleep, raise;
    cbn [retry_delay set_metrics add_effect set_client];
    destruct (time_sleep (retry_delay self)) as [e|];
    cbn [retry_delay set_metrics add_effect set_client];
    try reflexivity;
    match goal with
    | |- _ = ?R =>
        match R with
        | context [put_records_batch d (f0 :: fs) ?s] => set (st := s)
        end
    end;
    repeat match goal with
    | |- context [put_records_batch d (f0 :: fs) ?s2] =>
        tryif constr_eq s2 st then fail else change s2 with st
    end;
    destruct (put_records_batch d (f0 :: fs) st) as [[res|e] self2];
    reflexivity.
Qed.

Lemma total_bytes_nonneg (records : list Rec) : 0 <= total_bytes records.
Proof.
  unfold total_bytes.
  assert (H : forall acc, 0 <= acc ->
    0 <= fold_left
           (fun acc r => acc + Z.of_nat (String.length (json_dumps true r)))
           records acc).
  { induction records as [|r rs IH]; intros acc Hacc; cbn [fold_left];
      [exact Hacc|apply IH; lia]. }
  apply H. lia.
Qed.

Lemma len_kinesis_records (self : Producer) (records : list Rec) :
  len (kinesis_records self records) = len records.
Proof. unfold len, kinesis_records. rewrite length_map. reflexivity. Qed.

Lemma metrics_le_refl (m : Metrics) : metrics_le m m.
Proof. unfold metrics_le. lia. Qed.

Lemma metrics_le_trans (a b c : Metrics) :
  metrics_le a b -> metrics_le b c -> metrics_le a c.
Proof. unfold metrics_le. lia. Qed.

(** Every entry flagged: the records to resubmit are the whole batch. *)
Lemma failed_subset_all (records : list Rec) :
  forall rrs : list ResponseRecord,
    List.length rrs = List.length records ->
    forallb flagged rrs = true ->
    failed_subset records rrs = records.
Proof.
  unfold failed_subset.
  induction records as [|r rs IH]; intros [|rr rrs] Hlen Hall;
    try discriminate; [reflexivity|].
  cbn in Hall. apply andb_true_iff in Hall. destruct Hall as [Hrr Hall].
  cbn [combine filter snd]. rewrite Hrr. cbn [map fst].
  f_equal. apply IH; [cbn in Hlen; lia|exact Hall].
Qed.

Lemma count_flagged_all (rrs : list ResponseRecord) :
  forallb flagged rrs = true -> count_flagged rrs = len rrs.
Proof.
  unfold count_flagged, len. intros Hall.
  induction rrs as [|rr rrs IH]; [reflexivity|].
  cbn in Hall. apply andb_true_iff in Hall. destruct Hall as [Hrr Hall].
  cbn [filter]. rewrite Hrr. cbn [List.length].
  rewrite !Nat2Z.inj_succ, (IH Hall). reflexivity.
Qed.

(** When the loop of [_handle_failed_records] completes, every flagged
    entry sat at a position inside the batch. *)
Lemma collect_failed_in_bounds (original : list Rec) :
  forall (rrs : list ResponseRecord) (idx : nat) (l : list Rec),
    collect_failed original idx rrs = Ok l ->
    forall j rr, nth_error rrs j = Some rr -> flagged rr = true ->
                 (idx + j < List.length original)%nat.
Proof.
  induction rrs as [|rr0 rrs IH]; intros idx l Hok j rr Hj Hflag.
  - destruct j; discriminate.
  - cbn [collect_failed] in Hok. destruct j as [|j]; cbn in Hj.
    + injection Hj as ->. unfold flagged in Hflag.
      destruct (ErrorCode rr); [|discriminate].
      destruct (nth_error original idx) eqn:Hn; [|discriminate].
      assert (idx < List.length original)%nat
        by (apply nth_error_Some; congruence).
      lia.
    + destruct (ErrorCode rr0).
      * destruct (nth_error original idx); [|discriminate].
        destruct (collect_failed original (S idx) rrs) as [l'|e] eqn:Hrec;
          [|discriminate].
        specialize (IH (S idx) l' Hrec j rr Hj Hflag). lia.
      * specialize (IH (S idx) l Hok j rr Hj Hflag). lia.
Qed.

Lemma collect_failed_raises_IndexError (original : list Rec) :
  forall (rrs : list ResponseRecord) (idx : nat) (e : exn),
    collect_failed original idx rrs = Raise e -> e = IndexError.
Proof.
  induction rrs as [|rr0 rrs IH]; intros idx e H; cbn [collect_failed] in H;
    [discriminate|].
  destruct (ErrorCode rr0).
  - destruct (nth_error original idx); [|congruence].
    destruct (collect_failed original (S idx) rrs) as [l'|e'] eqn:Hrec;
      [discriminate|].
    injection H as <-. exact (IH (S idx) e' Hrec).
  - exact (IH (S idx) e H).
Qed.

(** X1.  Whenever [put_records_batch] returns, its two counts add up to
    the number of records it was given, whatever the service answered. *)
Theorem put_records_batch_counts_add_up (depth : nat) (records : list Rec)
    (self self' : Producer) (result : BatchResult) :
  put_records_batch depth records self = (Ok result, self') ->
  successful result + failed result = len records.
Proof.
  destruct records as [|r0 rs].
  - destruct depth; intros H; ok_result H; reflexivity.
  - rewrite put_records_batch_step. cbv zeta.
    destruct (client_put_records _ _ _) as [[e|response] service].
    + intros H. ok_result H. lia.
    + destruct (0 <? failed_count_of response).
      * destruct (Records response) as [rrs|]; [|discriminate].
        destruct (collect_failed (r0 :: rs) 0 rrs) as [[|f0 fs]|e];
          [| |discriminate].
        -- intros H. ok_result H. lia.
        -- destruct (time_sleep (retry_delay self)); [discriminate|].
           destruct (retry_of depth (f0 :: fs) _) as [[res|e] self2];
             [|discriminate].
           intros H. ok_result H. lia.
      * intros H. ok_result H. lia.
Qed.

(** X2.  Against a service whose failure counts stay between zero and the
    size of the request, both counts [put_records_batch] returns lie
    between zero and the number of records it was given. *)
Theorem put_records_batch_counts_in_range (depth : nat) (records : list Rec)
    (self self' : Producer) (result : BatchResult) :
  counts_in_bounds ->
  put_records_batch depth records self = (Ok result, self') ->
  0 <= successful result <= len records /\
  0 <= failed result <= len records.
Proof.
  intros Hb. destruct records as [|r0 rs].
  - destruct depth; intros H; ok_result H; cbn; lia.
  - rewrite put_records_batch_step. cbv zeta.
    set (records := r0 :: rs). clearbody records.
    assert (Hn : 0 <= len records) by (unfold len; lia).
    destruct (client_put_records _ _ _) as [[e|response] service] eqn:Hcall.
    + intros H. ok_result H. lia.
    + pose proof (Hb _ _ _ _ _ Hcall) as Hk.
      rewrite len_kinesis_records in Hk.
      destruct (0 <? failed_count_of response).
      * destruct (Records response) as [rrs|]; [|discriminate].
        destruct (collect_failed records 0 rrs) as [[|f0 fs]|e];
          [| |discriminate].
        -- intros H. ok_result H. lia.
        -- destruct (time_sleep (retry_delay self)); [discriminate|].
           destruct (retry_of depth (f0 :: fs) _) as [[res|e] self2];
             [|discriminate].
           intros H. ok_result H. lia.
      * intros H. ok_result H. lia.
Qed.

Lemma layer_metrics_grow (depth : nat) :
  counts_in_bounds ->
  (forall recs s,
     metrics_le (metrics s) (metrics (snd (retry_of depth recs s)))) ->
  forall records self,
    metrics_le (metrics self)
               (metrics (snd (put_records_batch depth records self))).
Proof.
  intros Hb Hretry records self.
  destruct records as [|r0 rs].
  - destruct depth; apply metrics_le_refl.
  - rewrite put_records_batch_step. cbv zeta.
    set (records := r0 :: rs). clearbody records.
    assert (Hn : 0 <= len records) by (unfold len; lia).
    pose proof (total_bytes_nonneg records) as Hbytes.
    destruct (client_put_records _ _ _) as [[e|response] service] eqn:Hcall.
    + unfold metrics_le.
      cbn [snd set_metrics add_effect set_client metrics total_records_sent
           total_records_failed total_batches_sent total_bytes_sent].
      lia.
    + pose proof (Hb _ _ _ _ _ Hcall) as Hk.
      rewrite len_kinesis_records in Hk.
      set (k := failed_count_of response) in *.
      assert (Hcounted : metrics_le (metrics self)
                (metrics (after_attempt self records k service))).
      { unfold metrics_le, after_attempt.
        cbn [set_metrics add_effect set_client metrics
             total_records_sent total_records_failed total_batches_sent
             total_bytes_sent]. lia. }
      destruct (0 <? k); [|exact Hcounted].
      destruct (Records response) as [rrs|]; [|exact Hcounted].
      destruct (collect_failed records 0 rrs) as [[|f0 fs]|e];
        try exact Hcounted.
      destruct (time_sleep (retry_delay self)); [exact Hcounted|].
      match goal with
      | |- context [retry_of depth (f0 :: fs) ?s] =>
          pose proof (Hretry (f0 :: fs) s) as Hr;
          destruct (retry_of depth (f0 :: fs) s) as [[res|e] self2]
      end; cbn [snd] in *;
        (eapply metrics_le_trans; [exact Hcounted|exact Hr]).
Qed.

(** X3.  Against a service whose failure counts stay between zero and the
    size of the request, no call of [put_records_batch] lowers any of the
    four counters, whether it returns or raises. *)
Theorem put_records_batch_metrics_grow :
  counts_in_bounds ->
  forall (depth : nat) (records : list Rec) (self : Producer),
    metrics_le (metrics self)
               (metrics (snd (put_records_batch depth records self))).
Proof.
  intros Hb. induction depth as [|d IH]; apply layer_metrics_grow;
    try exact Hb; intros recs s; cbn [KinesisRetry.retry_of].
  - apply metrics_le_refl.
  - apply IH.
Qed.

Lemma count_calls_app (a b : list Effect) :
  count_calls (a ++ b) = count_calls a + count_calls b.
Proof.
  unfold count_calls, len. rewrite filter_app, length_app. lia.
Qed.

Lemma extends_by_refl (bound : Z) (s : Producer) :
  0 <= bound -> extends_by bound s s.
Proof.
  intros Hb. split; [repeat split|].
  exists []. rewrite app_nil_r. split; [reflexivity|exact Hb].
Qed.

Lemma layer_extends (depth : nat) :
  (forall recs s, extends_by (Z.of_nat depth) s (snd (retry_of depth recs s))) ->
  forall records self,
    let self' := snd (put_records_batch depth records self) in
    extends_by (Z.of_nat depth + 1) self self' /\
    (records <> [] ->
     exists rest,
       effects self' =
       effects self ++
       CallPutRecords (stream_name self) (kinesis_records self records) :: rest).
Proof.
  intros Hretry records self. cbv zeta.
  destruct records as [|r0 rs].
  - split; [|congruence].
    destruct depth; apply extends_by_refl; lia.
  - rewrite put_records_batch_step. cbv zeta.
    set (records := r0 :: rs). clearbody records.
    set (c := CallPutRecords (stream_name self) (kinesis_records self records)).
    assert (Hone : forall s',
              same_settings self s' -> effects s' = effects self ++ [c] ->
              extends_by (Z.of_nat depth + 1) self s' /\
              (records <> [] -> exists rest, effects s' = effects self ++ c :: rest)).
    { intros s' Hs He. split.
      - split; [exact Hs|]. exists [c]. split; [exact He|].
        unfold count_calls, len. cbn. lia.
      - intros _. exists []. exact He. }
    destruct (client_put_records _ _ _) as [[e|response] service]; cbn [snd].
    + apply Hone; [repeat split|reflexivity].
    + set (k := failed_count_of response).
      assert (Hcounted :
                same_settings self (after_attempt self records k service) /\
                effects (after_attempt self records k service)
                = effects self ++ [c])
        by (split; [repeat split|reflexivity]).
      destruct Hcounted as [Hs He].
      destruct (0 <? k); cbn [snd]; [|apply Hone; assumption].
      destruct (Records response) as [rrs|]; cbn [snd];
        [|apply Hone; assumption].
      destruct (collect_failed records 0 rrs) as [[|f0 fs]|e]; cbn [snd];
        try (apply Hone; assumption).
      destruct (time_sleep (retry_delay self)); cbn [snd];
        [apply Hone; assumption|].
      match goal with
      | |- context [retry_of depth (f0 :: fs) ?s] =>
          pose proof (Hretry (f0 :: fs) s) as Hr;
          assert (Heff : effects s = effects self ++ [c; Sleep (retry_delay self)])
            by (cbn [effects add_effect]; rewrite He, <- app_assoc; reflexivity);
          assert (Hset : same_settings self s) by exact Hs;
          destruct (retry_of depth (f0 :: fs) s) as [[res|e] self2]
      end; cbn [snd] in *;
        destruct Hr as [Hs2 (made & Hmade & Hcount)];
        (split;
         [split;
          [unfold same_settings in *; intuition congruence|
           exists ([c; Sleep (retry_delay self)] ++ made);
           split;
           [rewrite Hmade, Heff, <- app_assoc; reflexivity|
            rewrite count_calls_app;
            change (count_calls [c; Sleep (retry_delay self)]) with 1; lia]]|
          intros _; exists (Sleep (retry_delay self) :: made);
          rewrite Hmade, Heff, <- app_assoc; reflexivity]).
Qed.

(** X4.  [put_records_batch] never changes the producer's settings, only
    appends to what it has done, and calls the service at most once per
    nesting level: at most [depth + 1] times; for a non-empty batch the
    first thing it does is to send the whole batch. *)
Theorem put_records_batch_frame (depth : nat) (records : list Rec)
    (self : Producer) :
  let self' := snd (put_records_batch depth records self) in
  extends_by (Z.of_nat depth + 1) self self' /\
  (records <> [] ->
   exists rest,
     effects self' =
     effects self ++
     CallPutRecords (stream_name self) (kinesis_records self records) :: rest).
Proof.
  revert records self. induction depth as [|d IH]; intros records self;
    apply layer_extends; intros recs s; cbn [KinesisRetry.retry_of].
  - apply extends_by_refl. lia.
  - replace (Z.of_nat (S d)) with (Z.of_nat d + 1) by lia.
    apply (IH recs s).
Qed.

(** X5.  The retry is driven by the response's count alone: when
    [FailedRecordCount] is missing (read as 0) or not positive, nothing is
    resubmitted, even if entries of the response carry an error code; the
    call returns after its one request with [successful = n - count]. *)
Theorem put_records_batch_trusts_the_count (depth : nat)
    (records : list Rec) (self : Producer) (response : PutRecordsResponse)
    (service : Service) :
  records <> [] ->
  client_put_records (stream_name self) (kinesis_records self records)
                     (client self) = (inr response, service) ->
  failed_count_of response <= 0 ->
  put_records_batch depth records self =
  (Ok {| successful := len records - failed_count_of response;
         failed := failed_count_of response |},
   after_attempt self records (failed_count_of response) service).
Proof.
  intros Hne Hcall Hk. destruct records as [|r0 rs]; [congruence|].
  rewrite put_records_batch_step. cbv zeta. rewrite Hcall.
  destruct (Z.ltb_spec 0 (failed_count_of response)); [lia|reflexivity].
Qed.

(** X6.  A response that counts failures but has no ["Records"] list makes
    [put_records_batch] raise [KeyError]: the [except] clause does not
    catch it, and the counters have already been moved. *)
Theorem put_records_batch_missing_records (depth : nat)
    (records : list Rec) (self : Producer) (response : PutRecordsResponse)
    (service : Service) :
  records <> [] ->
  client_put_records (stream_name self) (kinesis_records self records)
                     (client self) = (inr response, service) ->
  0 < failed_count_of response ->
  Records response = None ->
  put_records_batch depth records self =
  (Raise (KeyError "Records"),
   after_attempt self records (failed_count_of response) service).
Proof.
  intros Hne Hcall Hk Hnone. destruct records as [|r0 rs]; [congruence|].
  rewrite put_records_batch_step. cbv zeta. rewrite Hcall.
  apply Z.ltb_lt in Hk. rewrite Hk, Hnone. reflexivity.
Qed.

(** X7.  A response with an error-coded entry at a position past the end
    of the batch makes [put_records_batch] raise [IndexError], after the
    counters have been moved and before anything is resubmitted. *)
Theorem put_records_batch_overlong_response (depth : nat)
    (records : list Rec) (self : Producer) (response : PutRecordsResponse)
    (service : Service) (rrs : list ResponseRecord) (j : nat)
    (rr : ResponseRecord) :
  records <> [] ->
  client_put_records (stream_name self) (kinesis_records self records)
                     (client self) = (inr response, service) ->
  0 < failed_count_of response ->
  Records response = Some rrs ->
  nth_error rrs j = Some rr -> flagged rr = true ->
  (List.length records <= j)%nat ->
  put_records_batch depth records self =
  (Raise IndexError,
   after_attempt self records (failed_count_of response) service).
Proof.
  intros Hne Hcall Hk Hrrs Hj Hflag Hlen.
  destruct records as [|r0 rs]; [congruence|].
  rewrite put_records_batch_step. cbv zeta. rewrite Hcall.
  apply Z.ltb_lt in Hk. rewrite Hk, Hrrs.
  destruct (collect_failed (r0 :: rs) 0 rrs) as [l|e] eqn:Hcf.
  - pose proof (collect_failed_in_bounds _ _ _ _ Hcf j rr Hj Hflag). lia.
  - rewrite (collect_failed_raises_IndexError _ _ _ _ Hcf). reflexivity.
Qed.

(** X8.  Records that fail twice are counted twice: when the first
    response flags [k > 0] of [n] records, [time.sleep] takes the
    configured delay and the resubmission meets a transport failure, the
    caller is told [failed = k] while [total_records_failed] has grown by
    [2 * k]; one batch is counted. *)
Theorem failed_retry_counts_twice (depth : nat)
    (records : list Rec) (self : Producer) (response : PutRecordsResponse)
    (rrs : list ResponseRecord) (service service2 : Service) (k : Z)
    (err : TransportError) :
  records <> [] ->
  client_put_records (stream_name self) (kinesis_records self records)
                     (client self) = (inr response, service) ->
  FailedRecordCount response = Some k ->
  Records response = Some rrs ->
  List.length rrs = List.length records ->
  count_flagged rrs = k ->
  0 < k ->
  time_sleep (retry_delay self) = None ->
  client_put_records (stream_name self)
    (kinesis_records self (failed_subset records rrs)) service
    = (inl err, service2) ->
  exists self2 : Producer,
    put_records_batch (S depth) records self
    = (Ok {| successful := len records - k; failed := k |}, self2) /\
    total_records_failed (metrics self2)
    = total_records_failed (metrics self) + 2 * k /\
    total_records_sent (metrics self2)
    = total_records_sent (metrics self) + (len records - k) /\
    total_batches_sent (metrics self2) = total_batches_sent (metrics self) + 1.
Proof.
  intros Hne Hcall Hcount Hrrs Hlen Hflag Hk Hsleep Hcall2.
  destruct records as [|r0 rs]; [congruence|].
  assert (Hsub : collect_failed (r0 :: rs) 0 rrs
                 = Ok (failed_subset (r0 :: rs) rrs))
    by (apply (KinesisProducerSpec.collect_failed_subset (r0 :: rs) rrs 0);
        cbn in *; lia).
  assert (Hlenk : len (failed_subset (r0 :: rs) rrs) = k)
    by (rewrite KinesisProducerSpec.failed_subset_length by lia; exact Hflag).
  destruct (KinesisProducerSpec.failed_subset_nonempty (r0 :: rs) rrs
              ltac:(lia)) as (f0 & fs & Hf).
  rewrite put_records_batch_step. cbv zeta. rewrite Hcall.
  unfold failed_count_of. rewrite Hcount.
  apply Z.ltb_lt in Hk. rewrite Hk, Hrrs, Hsub, Hsleep.
  rewrite Hf in *. cbn [KinesisRetry.retry_of].
  rewrite put_records_batch_step. cbv zeta.
  set (records := r0 :: rs) in *. clearbody records.
  cbn [stream_name client after_attempt set_metrics add_effect set_client].
  repeat match goal with
  | |- context [kinesis_records ?s (f0 :: fs)] =>
      tryif constr_eq s self then fail
      else change (kinesis_records s (f0 :: fs))
           with (kinesis_records self (f0 :: fs))
  end.
  rewrite Hcall2.
  eexists. split; [reflexivity|].
  unfold after_attempt.
  cbn [metrics set_metrics add_effect set_client total_records_failed
       total_records_sent total_batches_sent].
  repeat split; lia.
Qed.

Lemma layer_never_gives_up (depth : nat) :
  rejects_everything ->
  (forall records s, records <> [] ->
     time_sleep (retry_delay s) = None ->
     exists s',
       retry_of depth records s = (Raise RecursionError, s') /\
       total_records_failed (metrics s')
       = total_records_failed (metrics s) + Z.of_nat depth * len records /\
       total_records_sent (metrics s') = total_records_sent (metrics s) /\
       total_batches_sent (metrics s')
       = total_batches_sent (metrics s) + Z.of_nat depth) ->
  forall records self, records <> [] ->
    time_sleep (retry_delay self) = None ->
    exists self',
      put_records_batch depth records self = (Raise RecursionError, self') /\
      total_records_failed (metrics self')
      = total_records_failed (metrics self)
        + (Z.of_nat depth + 1) * len records /\
      total_records_sent (metrics self') = total_records_sent (metrics self) /\
      total_batches_sent (metrics self')
      = total_batches_sent (metrics self) + Z.of_nat depth + 1.
Proof.
  intros Hrej Hretry records self Hne Hsleep.
  destruct records as [|r0 rs]; [congruence|].
  rewrite put_records_batch_step. cbv zeta.
  destruct (Hrej (stream_name self) (kinesis_records self (r0 :: rs))
              (client self)) as (rrs & service & Hcall & Hlen & Hall).
  rewrite Hcall. unfold failed_count_of. cbn [FailedRecordCount Records].
  rewrite len_kinesis_records in *.
  assert (Hlen' : List.length rrs = List.length (r0 :: rs))
    by (rewrite Hlen; unfold kinesis_records; apply length_map).
  assert (Hpos : (0 <? len (r0 :: rs)) = true)
    by (apply Z.ltb_lt; unfold len; cbn [List.length]; lia).
  rewrite Hpos.
  rewrite (KinesisProducerSpec.collect_failed_subset (r0 :: rs) rrs 0)
    by (cbn [Nat.add]; lia).
  cbn [skipn]. rewrite (failed_subset_all (r0 :: rs) rrs Hlen' Hall).
  rewrite Hsleep.
  match goal with
  | |- context [retry_of depth (r0 :: rs) ?s] =>
      destruct (Hretry (r0 :: rs) s Hne Hsleep) as (s' & -> & Hf & Hs & Hb)
  end.
  exists s'. split; [reflexivity|].
  set (records := r0 :: rs) in *. clearbody records.
  cbn [metrics after_attempt set_metrics add_effect set_client
       total_records_failed total_records_sent total_batches_sent] in Hf, Hs, Hb.
  repeat split; lia.
Qed.

(** Against a service that rejects everything, a delay [time.sleep]
    refuses ends the call after its first request. *)
Lemma refused_delay_ends_the_call (depth : nat) (records : list Rec)
    (self : Producer) (e : exn) :
  rejects_everything ->
  records <> [] ->
  time_sleep (retry_delay self) = Some e ->
  exists self',
    put_records_batch depth records self = (Raise e, self') /\
    total_records_failed (metrics self')
    = total_records_failed (metrics self) + len records /\
    total_records_sent (metrics self') = total_records_sent (metrics self) /\
    total_batches_sent (metrics self') = total_batches_sent (metrics self) + 1.
Proof.
  intros Hrej Hne Hsleep.
  destruct records as [|r0 rs]; [congruence|].
  rewrite put_records_batch_step. cbv zeta.
  destruct (Hrej (stream_name self) (kinesis_records self (r0 :: rs))
              (client self)) as (rrs & service & Hcall & Hlen & Hall).
  rewrite Hcall. unfold failed_count_of. cbn [FailedRecordCount Records].
  rewrite len_kinesis_records in *.
  assert (Hlen' : List.length rrs = List.length (r0 :: rs))
    by (rewrite Hlen; unfold kinesis_records; apply length_map).
  assert (Hpos : (0 <? len (r0 :: rs)) = true)
    by (apply Z.ltb_lt; unfold len; cbn [List.length]; lia).
  rewrite Hpos.
  rewrite (KinesisProducerSpec.collect_failed_subset (r0 :: rs) rrs 0)
    by (cbn [Nat.add]; lia).
  cbn [skipn]. rewrite (failed_subset_all (r0 :: rs) rrs Hlen' Hall).
  rewrite Hsleep.
  eexists. split; [reflexivity|].
  set (records := r0 :: rs) in *. clearbody records.
  cbn [metrics after_attempt set_metrics add_effect set_client
       total_records_failed total_records_sent total_batches_sent].
  repeat split; lia.
Qed.

(** X9.  Against a service that rejects every record of every request,
    [put_records_batch] on a non-empty batch never reports, and
    [max_retries] plays no part.  When [time.sleep] takes the configured
    delay, the call ends in [RecursionError] at every allowance [depth] of
    nested calls, having sent the whole batch [depth + 1] times and counted
    each record failed that many times and none sent.  When [time.sleep]
    refuses the delay, the call ends with its exception after one
    request, each record counted failed once. *)
Theorem put_records_batch_never_gives_up :
  rejects_everything ->
  forall (depth : nat) (records : list Rec) (self : Producer),
    records <> [] ->
    (time_sleep (retry_delay self) = None ->
     exists self',
       put_records_batch depth records self = (Raise RecursionError, self') /\
       total_records_failed (metrics self')
       = total_records_failed (metrics self)
         + (Z.of_nat depth + 1) * len records /\
       total_records_sent (metrics self') = total_records_sent (metrics self) /\
       total_batches_sent (metrics self')
       = total_batches_sent (metrics self) + Z.of_nat depth + 1) /\
    (forall e : exn,
       time_sleep (retry_delay self) = Some e ->
       exists self',
         put_records_batch depth records self = (Raise e, self') /\
         total_records_failed (metrics self')
         = total_records_failed (metrics self) + len records /\
         total_records_sent (metrics self') = total_records_sent (metrics self) /\
         total_batches_sent (metrics self')
         = total_batches_sent (metrics self) + 1).
Proof.
  intros Hrej depth records self Hne. split.
  - revert records self Hne.
    induction depth as [|d IH]; apply layer_never_gives_up;
      try exact Hrej; intros records s Hne Hsleep; cbn [KinesisRetry.retry_of].
    + exists s. split; [reflexivity|]. repeat split; lia.
    + destruct (IH records s Hne Hsleep) as (s' & Hrun & Hf & Hs & Hb).
      exists s'. split; [exact Hrun|]. repeat split; lia.
  - intros e Hsleep.
    apply refused_delay_ends_the_call; assumption.
Qed.

Section Delay.
Context {TL : TimeLaws T}.

(** The default delay of half a second is one [time.sleep] takes. *)
Lemma default_delay_is_accepted : time_sleep (PFloat half) = None.
Proof. apply sleep_accepted. reflexivity. Qed.

(** A producer configured with a negative delay never resubmits: once a
    response has flagged records, [time.sleep] raises [ValueError] and
    the call ends there, the counters of the first attempt moved. *)
Lemma negative_delay_is_refused (depth : nat) (records : list Rec)
    (self : Producer) (resp : PutRecordsResponse)
    (rrs : list ResponseRecord) (service : Service) (k : Z) :
  records <> [] ->
  client_put_records (stream_name self) (kinesis_records self records)
                     (client self) = (inr resp, service) ->
  FailedRecordCount resp = Some k ->
  Records resp = Some rrs ->
  List.length rrs = List.length records ->
  count_flagged rrs = k ->
  0 < k ->
  num_lt (retry_delay self) (PInt 0) = true ->
  num_le (PInt (-1000000000)) (retry_delay self) = true ->
  put_records_batch (S depth) records self
  = (Raise ValueError, after_attempt self records k service).
Proof.
  intros Hne Hcall Hcount Hrecs Hlen Hflag Hk Hneg Hsmall.
  rewrite (KinesisProducerSpec.put_records_batch_flagged
             depth records self resp rrs service k) by assumption.
  rewrite (sleep_negative _ Hneg Hsmall). reflexivity.
Qed.

End Delay.

End Facts.

(** The [time.sleep] of the fixtures keeps the library's promises. *)
Lemma posix_time_laws : TimeLaws Fixtures.posix_time.
Proof.
  split.
  - reflexivity.
  - intros [|]; reflexivity.
  - intros secs. cbn [time_sleep Fixtures.posix_time].
    unfold num_lt, num_le, num_compare. cbn [xreal_of_number].
    destruct (xreal_of_number secs) as [| |m e|]; cbn [xreal_compare];
      try discriminate.
    set (c := Z.min e 0).
    rewrite (PyNumFacts.cmp_scaled_common m e 0 0 c),
      (PyNumFacts.cmp_scaled_common (-1000000000) 0 m e c),
      (PyNumFacts.cmp_scaled_common m e (-9223372036) 0 c),
      (PyNumFacts.cmp_scaled_common 9223372036 0 m e c) by (subst c; lia).
    assert (Hp : 0 < 2 ^ (0 - c)) by (apply Z.pow_pos_nonneg; subst c; lia).
    destruct (Z.compare_spec (m * 2 ^ (e - c)) (0 * 2 ^ (0 - c)));
      try discriminate; intros _.
    destruct (Z.compare_spec (-1000000000 * 2 ^ (0 - c)) (m * 2 ^ (e - c)));
      try discriminate; intros _;
      destruct (Z.compare_spec (m * 2 ^ (e - c)) (-9223372036 * 2 ^ (0 - c)));
      try lia;
      destruct (Z.compare_spec (9223372036 * 2 ^ (0 - c)) (m * 2 ^ (e - c)));
      try lia; reflexivity.
  - intros secs. cbn [time_sleep Fixtures.posix_time].
    unfold in_range, num_lt, num_le, num_compare. cbn [xreal_of_number].
    rewrite andb_true_iff.
    destruct (xreal_of_number secs) as [| |m e|]; cbn [xreal_compare];
      try (intros [H1 H2]; discriminate).
    set (c := Z.min e 0).
    rewrite (PyNumFacts.cmp_scaled_common m e 0 0 c),
      (PyNumFacts.cmp_scaled_common 0 0 m e c),
      (PyNumFacts.cmp_scaled_common m e 1000000000 0 c),
      (PyNumFacts.cmp_scaled_common m e (-9223372036) 0 c),
      (PyNumFacts.cmp_scaled_common 9223372036 0 m e c) by (subst c; lia).
    assert (Hp : 0 < 2 ^ (0 - c)) by (apply Z.pow_pos_nonneg; subst c; lia).
    intros [H1 H2].
    destruct (Z.compare_spec (0 * 2 ^ (0 - c)) (m * 2 ^ (e - c)));
      try discriminate;
      destruct (Z.compare_spec (m * 2 ^ (e - c)) (1000000000 * 2 ^ (0 - c)));
      try discriminate;
      destruct (Z.compare_spec (m * 2 ^ (e - c)) (-9223372036 * 2 ^ (0 - c)));
      try lia;
      destruct (Z.compare_spec (9223372036 * 2 ^ (0 - c)) (m * 2 ^ (e - c)));
      try lia;
      destruct (Z.compare_spec (m * 2 ^ (e - c)) (0 * 2 ^ (0 - c)));
      try lia; reflexivity.
Qed.


(** The theorems at concrete services. *)

Lemma accepting_counts_in_bounds :
  counts_in_bounds (K := Scenarios.accepting_client).
Proof.
  intros stream records service response service' H.
  injection H as <- _. unfold failed_count_of. cbn [FailedRecordCount].
  unfold len. lia.
Qed.

Lemma rejecting_rejects_everything :
  rejects_everything (K := Scenarios.rejecting_client).
Proof.
  intros stream records service. eexists _, _.
  split; [reflexivity|]. split; [apply length_map|].
  induction records as [|r rs IH]; [reflexivity|exact IH].
Qed.

Lemma put_records_batch_counts_add_up_witness :
  exists result self',
    put_records_batch (K := Fixtures.scripted_client)
      (J := Fixtures.text_codec)
      (T := Fixtures.posix_time) 1 Fixtures.three_records
      (Fixtures.new_producer Fixtures.retry_succeeds) = (Ok result, self') /\
    successful result + failed result = 3.
Proof.
  destruct (put_records_batch (K := Fixtures.scripted_client)
              (J := Fixtures.text_codec)
              (T := Fixtures.posix_time) 1 Fixtures.three_records
              (Fixtures.new_producer Fixtures.retry_succeeds))
    as [[result|e] self'] eqn:Hrun; [|vm_compute in Hrun; discriminate].
  exists result, self'. split; [reflexivity|].
  exact (put_records_batch_counts_add_up _ _ _ _ _ Hrun).
Defined.

Lemma put_records_batch_counts_in_range_witness :
  exists result self',
    put_records_batch (K := Scenarios.accepting_client)
      (J := Fixtures.text_codec)
      (T := Fixtures.posix_time) 1 Fixtures.three_records
      (Scenarios.producer_at Scenarios.accepting_client tt)
    = (Ok result, self') /\
    0 <= successful result <= 3 /\ 0 <= failed result <= 3.
Proof.
  destruct (put_records_batch (K := Scenarios.accepting_client)
              (J := Fixtures.text_codec)
              (T := Fixtures.posix_time) 1 Fixtures.three_records
              (Scenarios.producer_at Scenarios.accepting_client tt))
    as [[result|e] self'] eqn:Hrun; [|vm_compute in Hrun; discriminate].
  exists result, self'. split; [reflexivity|].
  exact (put_records_batch_counts_in_range _ _ _ _ _
           accepting_counts_in_bounds Hrun).
Defined.

Lemma put_records_batch_metrics_grow_witness :
  metrics_le zero_metrics
    (metrics (snd (put_records_batch (K := Scenarios.accepting_client)
                     (J := Fixtures.text_codec)
                     (T := Fixtures.posix_time) 1 Fixtures.three_records
                     (Scenarios.producer_at Scenarios.accepting_client tt)))).
Proof.
  exact (put_records_batch_metrics_grow (J := Fixtures.text_codec)
                                        (T := Fixtures.posix_time)
           accepting_counts_in_bounds 1 Fixtures.three_records
           (Scenarios.producer_at Scenarios.accepting_client tt)).
Defined.

(** Two entries carry an error code, the count is missing: nothing is
    resubmitted and three successes are reported. *)
Lemma put_records_batch_trusts_the_count_witness :
  fst (put_records_batch (K := Fixtures.scripted_client)
         (J := Fixtures.text_codec)
         (T := Fixtures.posix_time) 1 Fixtures.three_records
         (Fixtures.new_producer
            [inr {| FailedRecordCount := None;
                    Records := Some [Fixtures.rejected; Fixtures.accepted;
                                     Fixtures.rejected] |}]))
  = Ok {| successful := 3; failed := 0 |}.
Proof.
  rewrite (put_records_batch_trusts_the_count
             (K := Fixtures.scripted_client) (J := Fixtures.text_codec)
             (T := Fixtures.posix_time)
             1 Fixtures.three_records _
             {| FailedRecordCount := None;
                Records := Some [Fixtures.rejected; Fixtures.accepted;
                                 Fixtures.rejected] |} []).
  - reflexivity.
  - discriminate.
  - reflexivity.
  - cbn. lia.
Defined.

Lemma put_records_batch_missing_records_witness :
  fst (put_records_batch (K := Fixtures.scripted_client)
         (J := Fixtures.text_codec)
         (T := Fixtures.posix_time) 1 Fixtures.three_records
         (Fixtures.new_producer
            [inr {| FailedRecordCount := Some 2; Records := None |}]))
  = Raise (KeyError "Records").
Proof.
  rewrite (put_records_batch_missing_records
             (K := Fixtures.scripted_client) (J := Fixtures.text_codec)
             (T := Fixtures.posix_time)
             1 Fixtures.three_records _
             {| FailedRecordCount := Some 2; Records := None |} []).
  - reflexivity.
  - discriminate.
  - reflexivity.
  - cbn. lia.
  - reflexivity.
Defined.

(** Four entries answer three records, the fourth with an error code. *)
Lemma put_records_batch_overlong_response_witness :
  fst (put_records_batch (K := Fixtures.scripted_client)
         (J := Fixtures.text_codec)
         (T := Fixtures.posix_time) 1 Fixtures.three_records
         (Fixtures.new_producer
            [Fixtures.response 1 [Fixtures.accepted; Fixtures.accepted;
                                  Fixtures.accepted; Fixtures.rejected]]))
  = Raise IndexError.
Proof.
  rewrite (put_records_batch_overlong_response
             (K := Fixtures.scripted_client) (J := Fixtures.text_codec)
             (T := Fixtures.posix_time)
             1 Fixtures.three_records _
             {| FailedRecordCount := Some 1;
                Records := Some [Fixtures.accepted; Fixtures.accepted;
                                 Fixtures.accepted; Fixtures.rejected] |} []
             [Fixtures.accepted; Fixtures.accepted; Fixtures.accepted;
              Fixtures.rejected] 3 Fixtures.rejected).
  - reflexivity.
  - discriminate.
  - reflexivity.
  - cbn. lia.
  - reflexivity.
  - reflexivity.
  - reflexivity.
  - cbn. lia.
Defined.

Lemma failed_retry_counts_twice_witness :
  exists self2,
    put_records_batch (K := Fixtures.scripted_client)
      (J := Fixtures.text_codec)
      (T := Fixtures.posix_time) 1 Fixtures.three_records
      (Fixtures.new_producer Fixtures.retry_fails)
    = (Ok {| successful := 1; failed := 2 |}, self2) /\
    total_records_failed (metrics self2) = 4.
Proof.
  destruct (failed_retry_counts_twice
              (K := Fixtures.scripted_client) (J := Fixtures.text_codec)
              (T := Fixtures.posix_time)
              0 Fixtures.three_records
              (Fixtures.new_producer Fixtures.retry_fails)
              {| FailedRecordCount := Some 2;
                 Records := Some [Fixtures.rejected; Fixtures.accepted;
                                  Fixtures.rejected] |}
              [Fixtures.rejected; Fixtures.accepted; Fixtures.rejected]
              [inl BotoCoreError] [] 2 BotoCoreError
              ltac:(discriminate) eq_refl eq_refl eq_refl eq_refl eq_refl
              eq_refl eq_refl eq_refl)
    as (self2 & Hrun & Hfailed & _).
  exists self2. split; [exact Hrun|]. rewrite Hfailed. reflexivity.
Defined.

(** Three records against the throttled stream, with an allowance of
    three nested calls: four requests with the default delay, one with a
    delay of [-1]. *)
Lemma put_records_batch_never_gives_up_witness :
  (exists self',
     put_records_batch (K := Scenarios.rejecting_client)
       (J := Fixtures.text_codec) (T := Fixtures.posix_time)
       3 Fixtures.three_records
       (Scenarios.producer_at Scenarios.rejecting_client tt)
     = (Raise RecursionError, self') /\
     total_records_failed (metrics self') = 12) /\
  (exists self',
     put_records_batch (K := Scenarios.rejecting_client)
       (J := Fixtures.text_codec) (T := Fixtures.posix_time)
       3 Fixtures.three_records
       (Scenarios.with_retry_delay (PInt (-1))
          (Scenarios.producer_at Scenarios.rejecting_client tt))
     = (Raise ValueError, self') /\
     total_records_failed (metrics self') = 3).
Proof.
  split.
  - destruct (put_records_batch_never_gives_up
                (J := Fixtures.text_codec) (T := Fixtures.posix_time)
                rejecting_rejects_everything 3 Fixtures.three_records
                (Scenarios.producer_at Scenarios.rejecting_client tt)
                ltac:(discriminate)) as [Hpause _].
    destruct (Hpause eq_refl) as (self' & Hrun & Hfailed & _).
    exists self'. split; [exact Hrun|]. rewrite Hfailed. reflexivity.
  - destruct (put_records_batch_never_gives_up
                (J := Fixtures.text_codec) (T := Fixtures.posix_time)
                rejecting_rejects_everything 3 Fixtures.three_records
                (Scenarios.with_retry_delay (PInt (-1))
                   (Scenarios.producer_at Scenarios.rejecting_client tt))
                ltac:(discriminate)) as [_ Hrefused].
    destruct (Hrefused ValueError eq_refl) as (self' & Hrun & Hfailed & _).
    exists self'. split; [exact Hrun|]. rewrite Hfailed. reflexivity.
Defined.

End KinesisRetrySpec.

(* ================================================================== *)
(** * Properties of stream set-up and of [put_record] *)
(* ================================================================== *)

Module KinesisStreamSpec.
Import PyNum Py KinesisProducer KinesisStream.
Local Open Scope string_scope.
Local Open Scope Z_scope.

Section Facts.
Context {K : KinesisClient} {A : StreamClient K} {Rec : Type}
        {J : RecordCodec Rec}.

(** X10.  On a stream that [describe_stream] reports [ACTIVE],
    [create_stream_if_not_exists] is a no-op beyond that one query: it
    neither creates nor waits, and returns. *)
Theorem create_stream_on_active_stream (shard_count : Z) (s : Session)
    (service : Service) :
  client_describe_stream (stream_name (producer s)) (client (producer s))
  = (inr "ACTIVE", service) ->
  create_stream_if_not_exists shard_count s =
  (Returns tt,
   after_call s service (DescribeStream (stream_name (producer s)))).
Proof.
  intros Hd.
  unfold create_stream_if_not_exists, try_except_ClientError,
    verify_stream_exists, try_except_ClientError, bind, stream_of, call.
  rewrite Hd. reflexivity.
Qed.

(** X11.  A stream that exists without being active makes
    [create_stream_if_not_exists] return early: [describe_stream] reports
    another status, [create_stream] is called and refused with
    [ResourceInUseException], the exception is swallowed and the function
    returns without having waited for the stream. *)
Theorem create_stream_on_inactive_stream (shard_count : Z) (s : Session)
    (status : string) (service1 service2 : Service) :
  client_describe_stream (stream_name (producer s)) (client (producer s))
  = (inr status, service1) ->
  String.eqb status "ACTIVE" = false ->
  client_create_stream (stream_name (producer s)) shard_count service1
  = (inl (ClientError "ResourceInUseException"), service2) ->
  create_stream_if_not_exists shard_count s =
  (Returns tt,
   after_call
     (after_call s service1 (DescribeStream (stream_name (producer s))))
     service2 (CreateStream (stream_name (producer s)) shard_count)).
Proof.
  intros Hd Hs Hc.
  unfold create_stream_if_not_exists, try_except_ClientError,
    verify_stream_exists, try_except_ClientError, bind, stream_of, call.
  rewrite Hd. unfold ret. rewrite Hs.
  cbn [producer stream_name set_client client]. rewrite Hc. reflexivity.
Qed.

(** X12.  Whatever the service does, [create_stream_if_not_exists] makes
    one, two or three calls, in the order describe, create, wait; it
    never lets [ResourceInUseException] out; and it leaves the producer's
    counters and stream name alone. *)
Theorem create_stream_if_not_exists_bounds (shard_count : Z) (s : Session) :
  let name := stream_name (producer s) in
  let '(result, s') := create_stream_if_not_exists shard_count s in
  result <> Propagates (ClientError "ResourceInUseException") /\
  (exists made,
     calls s' = (calls s ++ made)%list /\ setup_prefix name shard_count made) /\
  metrics (producer s') = metrics (producer s) /\
  stream_name (producer s') = name.
Proof.
  cbv zeta.
  unfold create_stream_if_not_exists, try_except_ClientError,
    verify_stream_exists, try_except_ClientError, bind, stream_of, call, ret.
  set (name := stream_name (producer s)).
  assert (Hcode : forall code,
            String.eqb code "ResourceInUseException" = false ->
            @Propagates unit (ClientError code)
            <> Propagates (ClientError "ResourceInUseException")).
  { intros code Hne H. injection H as ->. discriminate. }
  destruct (client_describe_stream name (client (producer s)))
    as [[[|code]|status] service1];
    [ | destruct (String.eqb code "ResourceNotFoundException");
        [|destruct (String.eqb code "ResourceInUseException") eqn:Hne]
      | destruct (String.eqb status "ACTIVE") ];
    cbn [producer stream_name set_client client]; fold name;
    try (destruct (client_create_stream name shard_count service1)
           as [[[|code2]|[]] service2];
         [ | destruct (String.eqb code2 "ResourceInUseException") eqn:Hne2
           | cbn [producer stream_name set_client client]; fold name;
             destruct (waiter_wait name service2) as [[[|code3]|[]] service3];
             [ | destruct (String.eqb code3 "ResourceInUseException") eqn:Hne3
               | ] ]);
    (split; [first [discriminate | apply Hcode; assumption]|]);
    (split; [|split; reflexivity]);
    eexists;
    (split; [cbn [calls]; rewrite <- ?app_assoc; reflexivity|]);
    unfold setup_prefix; cbn [app]; tauto.
Qed.

(** X13.  [put_record] makes exactly one client call, keyed by the
    caller's partition key when one is given and by the configured field
    (or ["default"]) otherwise, and never raises on a client exception:
    it returns [True] exactly when the client accepted the record.  It
    moves exactly one record counter by one: [total_records_sent] when the
    client accepted the record, with [total_bytes_sent] growing by the
    length of the data sent, and [total_records_failed] when the client
    raised; [total_batches_sent] stays. *)
Theorem put_record_counts_one (record : Rec) (key : option string)
    (s : Session) :
  let data := json_dumps false record in
  let partition := match key with
                   | Some k => k
                   | None => partition_key (producer s) record
                   end in
  let answer := client_put_record (stream_name (producer s)) data partition
                                  (client (producer s)) in
  let accepted := match fst answer with
                  | inr _ => true
                  | inl _ => false
                  end in
  let '(ok, s') := put_record record key s in
  let m := metrics (producer s) in
  let m' := metrics (producer s') in
  ok = accepted /\
  client (producer s') = snd answer /\
  total_records_sent m' = total_records_sent m + (if accepted then 1 else 0) /\
  total_records_failed m'
  = total_records_failed m + (if accepted then 0 else 1) /\
  total_bytes_sent m'
  = total_bytes_sent m
    + (if accepted then Z.of_nat (String.length data) else 0) /\
  total_batches_sent m' = total_batches_sent m /\
  calls s' =
  (calls s ++ [PutRecord (stream_name (producer s)) data partition])%list.
Proof.
  cbv zeta. unfold put_record, call.
  destruct (client_put_record _ _ _ _) as [[e|[]] service];
    cbn [set_producer_metrics producer calls metrics set_metrics set_client
         client total_records_sent total_records_failed total_bytes_sent
         total_batches_sent fst snd];
    repeat split; lia.
Qed.

(** X14.  The set-up of [run_producer] always begins with one
    [describe_stream], and what follows is decided by its answer.  If it
    reports the stream [ACTIVE] nothing else happens and the set-up
    returns; if it raises anything but [ResourceNotFoundException] the
    set-up lets that exception through; otherwise (another status, or the
    stream not found) [create_stream_if_not_exists] is run for one shard
    and, when it returns, the two-second pause is taken.  So the stream is
    described a second time before any creation, a creation always asks
    for one shard, and the pause is taken exactly when
    [create_stream_if_not_exists] returned.  The producer's counters are
    not touched. *)
Theorem stream_setup_traces (s : Session) :
  let name := stream_name (producer s) in
  let answer := client_describe_stream name (client (producer s)) in
  let described := after_call s (snd answer) (DescribeStream name) in
  let creation :=
    bind (create_stream_if_not_exists 1) (fun _ => MainSetup.sleep 2)
         described in
  MainSetup.stream_setup s =
  match fst answer with
  | inr status =>
      if String.eqb status "ACTIVE" then (Returns tt, described)
      else creation
  | inl (ClientError code) =>
      if String.eqb code "ResourceNotFoundException" then creation
      else (Propagates (ClientError code), described)
  | inl BotoCoreError => (Propagates BotoCoreError, described)
  end /\
  let '(result, s') := MainSetup.stream_setup s in
  (exists made,
     calls s' = (calls s ++ DescribeStream name :: made)%list /\
     In made (MainSetup.setup_traces name) /\
     (result = Returns tt -> made = [] \/ last made (Slept 0) = Slept 2) /\
     (last made (Slept 0) = Slept 2 -> result = Returns tt)) /\
  metrics (producer s') = metrics (producer s).
Proof.
  cbv zeta. split.
  - unfold MainSetup.stream_setup, verify_stream_exists,
      try_except_ClientError, stream_of, call, after_call, ret.
    unfold bind at 1 2 3.
    destruct (client_describe_stream (stream_name (producer s))
                (client (producer s))) as [[[|code]|status] service];
      cbn [fst snd]; try reflexivity.
    + destruct (String.eqb code "ResourceNotFoundException"); reflexivity.
    + destruct (String.eqb status "ACTIVE"); reflexivity.
  - unfold MainSetup.stream_setup, MainSetup.sleep,
      create_stream_if_not_exists, try_except_ClientError,
      verify_stream_exists, try_except_ClientError, bind, stream_of, call,
      ret.
    set (name := stream_name (producer s)).
    repeat
      (match goal with
       | |- context [client_describe_stream ?n ?sv] =>
           destruct (client_describe_stream n sv) as [[[|?]|?] ?]
       | |- context [client_create_stream ?n ?c ?sv] =>
           destruct (client_create_stream n c sv) as [[[|?]|[]] ?]
       | |- context [waiter_wait ?n ?sv] =>
           destruct (waiter_wait n sv) as [[[|?]|[]] ?]
       | |- context [String.eqb ?a ?b] => destruct (String.eqb a b)
       end;
       cbn [producer stream_name set_client client]; fold name);
      (split; [|reflexivity]);
      eexists;
      (split; [cbn [calls]; rewrite <- ?app_assoc; cbn [app]; reflexivity|]);
      (split; [unfold MainSetup.setup_traces; cbn [In]; tauto|]);
      cbn [last]; split; intros H;
      first [discriminate H | reflexivity | left; reflexivity
             | right; reflexivity].
Qed.

End Facts.

(** The theorems at the one-stream service. *)

(** A record put on the active stream is counted sent with its two bytes;
    one put while the stream does not exist is counted failed. *)
Lemma put_record_counts_one_witness :
  let accepted := put_record (K := Scenarios.one_stream_client)
                    (A := Scenarios.one_stream) (J := Fixtures.text_codec)
                    "t1" None (Scenarios.session_at (Some "ACTIVE")) in
  let refused := put_record (K := Scenarios.one_stream_client)
                   (A := Scenarios.one_stream) (J := Fixtures.text_codec)
                   "t1" None (Scenarios.session_at None) in
  fst accepted = true /\
  total_records_sent (metrics (producer (snd accepted))) = 1 /\
  total_bytes_sent (metrics (producer (snd accepted))) = 2 /\
  fst refused = false /\
  total_records_failed (metrics (producer (snd refused))) = 1.
Proof.
  cbv zeta.
  pose proof (put_record_counts_one (K := Scenarios.one_stream_client)
                (A := Scenarios.one_stream) (J := Fixtures.text_codec)
                "t1" None (Scenarios.session_at (Some "ACTIVE"))) as Ha.
  pose proof (put_record_counts_one (K := Scenarios.one_stream_client)
                (A := Scenarios.one_stream) (J := Fixtures.text_codec)
                "t1" None (Scenarios.session_at None)) as Hr.
  cbv zeta in Ha, Hr.
  destruct (put_record "t1" None (Scenarios.session_at (Some "ACTIVE")))
    as [ok1 s1].
  destruct (put_record "t1" None (Scenarios.session_at None)) as [ok2 s2].
  destruct Ha as (Hok1 & _ & Hsent & _ & Hbytes & _).
  destruct Hr as (Hok2 & _ & _ & Hfailed & _).
  cbn [fst snd]. rewrite Hok1, Hsent, Hbytes, Hok2, Hfailed.
  repeat split.
Defined.

(** On the active stream the set-up is one query; when the stream does
    not exist it is described twice, created with one shard, waited for,
    and the pause is taken. *)
Lemma stream_setup_traces_witness :
  let active := MainSetup.stream_setup (K := Scenarios.one_stream_client)
                  (A := Scenarios.one_stream)
                  (Scenarios.session_at (Some "ACTIVE")) in
  let missing := MainSetup.stream_setup (K := Scenarios.one_stream_client)
                   (A := Scenarios.one_stream) (Scenarios.session_at None) in
  active = (Returns tt,
            after_call (Scenarios.session_at (Some "ACTIVE")) (Some "ACTIVE")
              (DescribeStream "fraud-transactions")) /\
  fst missing = Returns tt /\
  calls (snd missing) =
  [DescribeStream "fraud-transactions"; DescribeStream "fraud-transactions";
   CreateStream "fraud-transactions" 1;
   WaitStreamExists "fraud-transactions"; Slept 2].
Proof.
  cbv zeta.
  destruct (stream_setup_traces (K := Scenarios.one_stream_client)
              (A := Scenarios.one_stream)
              (Scenarios.session_at (Some "ACTIVE"))) as [Hactive _].
  destruct (stream_setup_traces (K := Scenarios.one_stream_client)
              (A := Scenarios.one_stream) (Scenarios.session_at None))
    as [Hmissing _].
  cbv zeta in Hactive, Hmissing.
  rewrite Hactive, Hmissing. repeat split.
Defined.


Lemma create_stream_on_active_stream_witness :
  let run := create_stream_if_not_exists (K := Scenarios.one_stream_client)
               (A := Scenarios.one_stream) 1
               (Scenarios.session_at (Some "ACTIVE")) in
  fst run = Returns tt /\
  calls (snd run) = [DescribeStream "fraud-transactions"].
Proof.
  cbv zeta.
  rewrite (create_stream_on_active_stream (K := Scenarios.one_stream_client)
             (A := Scenarios.one_stream) 1
             (Scenarios.session_at (Some "ACTIVE")) (Some "ACTIVE") eq_refl).
  split; reflexivity.
Defined.

(** A stream still being created: the creation is attempted and refused,
    and the function returns while the stream is not active. *)
Lemma create_stream_on_inactive_stream_witness :
  let run := create_stream_if_not_exists (K := Scenarios.one_stream_client)
               (A := Scenarios.one_stream) 1
               (Scenarios.session_at (Some "CREATING")) in
  fst run = Returns tt /\
  client (producer (snd run)) = Some "CREATING" /\
  calls (snd run) = [DescribeStream "fraud-transactions";
                     CreateStream "fraud-transactions" 1].
Proof.
  cbv zeta.
  rewrite (create_stream_on_inactive_stream
             (K := Scenarios.one_stream_client) (A := Scenarios.one_stream) 1
             (Scenarios.session_at (Some "CREATING")) "CREATING"
             (Some "CREATING") (Some "CREATING") eq_refl eq_refl eq_refl).
  repeat split.
Defined.

End KinesisStreamSpec.

(* ================================================================== *)
(** * Further properties of the generator *)
(* ================================================================== *)

Module GeneratorSpec.
Import PyNum PyNumFacts Py DataGenerator DataGeneratorSpec GeneratorLaws.
Local Open Scope string_scope.
Local Open Scope Z_scope.

Section Facts.
Context {R : RandomLib} {F : FakerLib} {U : UuidLib} {C : ClockLib}
        {P : MathLib}.

Lemma total_with_random {A} (f : Rng -> A * Rng) : total (with_random f).
Proof.
  intros w. unfold with_random. destruct (f (w_random w)) as [a g].
  eexists _, _. reflexivity.
Qed.

Lemma total_with_clock {A} (f : Clock -> A * Clock) : total (with_clock f).
Proof.
  intros w. unfold with_clock. destruct (f (w_clock w)) as [a g].
  eexists _, _. reflexivity.
Qed.

Lemma total_bind_ret {A B} (a : A) (k : A -> G B) :
  total (k a) -> total (bind (ret a) k).
Proof. intros H w. exact (H w). Qed.

Lemma total_randint (a b : Z) : total (randint a b).
Proof.
  unfold randint. apply total_bind; [apply total_with_random|intros ?].
  apply total_ret.
Qed.

Lemma total_normal_amount (category : string) :
  total (_generate_normal_amount category).
Proof.
  unfold _generate_normal_amount.
  pose proof (amount_range_facts category) as Hf.
  destruct (amount_range category) as [lo hi].
  destruct Hf as (_ & _ & _ & mean & std & Hmean & Hstd & _).
  unfold truediv. rewrite Hmean, Hstd.
  apply total_bind; [apply total_ret|intros ?].
  apply total_bind; [apply total_ret|intros ?].
  apply total_bind; [apply total_with_random|intros ?].
  apply total_ret.
Qed.


(** X15.  Every field of a returned transaction that names a merchant or a
    customer is copied from one entry of the generator's pools: the four
    merchant fields from one and the same merchant, the customer id from
    one customer, and the distance is the rounded distance between that
    customer's home and that merchant.  The card brand is one of the four
    listed, the currency is always USD, and a label passed by the caller
    is the label of the transaction. *)
Theorem generated_transaction_refers_to_pools (self : TransactionGenerator)
    (is_fraud0 : option bool) (w w' : World) (tx : Transaction) :
  generate_transaction self is_fraud0 w = (Ok tx, w') ->
  (exists ms merchant,
     merchants self = Some ms /\ In merchant ms /\
     merchant_id tx = m_merchant_id merchant /\
     merchant_name tx = m_merchant_name merchant /\
     merchant_category tx = m_merchant_category merchant /\
     merchant_location tx = m_merchant_location merchant /\
     exists cs customer distance,
       customers self = Some cs /\ In customer cs /\
       customer_id tx = c_customer_id customer /\
       _calculate_distance (c_home_location customer)
                           (m_merchant_location merchant) = Ok distance /\
       distance_from_home_km tx = float_round2 distance) /\
  In (card_type tx) card_types /\
  currency tx = "USD" /\
  (forall b, is_fraud0 = Some b -> is_fraud tx = b).
Proof.
  intros H. apply generate_transaction_inv in H.
  destruct H as (cs & customer & ms & merchant & g & seconds & w7 & amount0
                 & w8 & distance & u & card & Hlab & Hcs & Hc & Hms & Hm & _
                 & _ & _ & Hdistance & Hcard & Htx).
  split; [|split; [|split]].
  - exists ms, merchant. rewrite Htx. cbn. repeat split; try assumption.
    exists cs, customer, distance. repeat split; assumption.
  - rewrite Htx. exact Hcard.
  - rewrite Htx. reflexivity.
  - intros b ->. exact Hlab.
Qed.

Lemma unusual_hour_window (t : Z) :
  _is_unusual_hour t = true <->
  7200000000 <= t mod 86400000000 < 18000000000.
Proof.
  unfold _is_unusual_hour, hour.
  rewrite andb_true_iff, Z.leb_le, Z.ltb_lt.
  pose proof (Z.div_mod t 3600000000 ltac:(lia)) as H1.
  pose proof (Z.mod_pos_bound t 3600000000 ltac:(lia)) as H2.
  pose proof (Z.div_mod (t / 3600000000) 24 ltac:(lia)) as H3.
  pose proof (Z.mod_pos_bound (t / 3600000000) 24 ltac:(lia)) as H4.
  pose proof (Z.div_mod t 86400000000 ltac:(lia)) as H5.
  pose proof (Z.mod_pos_bound t 86400000000 ltac:(lia)) as H6.
  lia.
Qed.

(** ** Numbers *)

Lemma cmp_scaled_antisym (m1 e1 m2 e2 : Z) :
  cmp_scaled m2 e2 m1 e1 = CompOpp (cmp_scaled m1 e1 m2 e2).
Proof.
  unfold cmp_scaled. rewrite (Z.min_comm e2 e1). apply Z.compare_antisym.
Qed.

Lemma xreal_compare_antisym (a b : xreal) :
  xreal_compare b a = option_map CompOpp (xreal_compare a b).
Proof.
  destruct a, b; cbn [xreal_compare option_map CompOpp]; try reflexivity.
  rewrite cmp_scaled_antisym. reflexivity.
Qed.

(** [a <= b] excludes [b < a]. *)
Lemma num_le_not_lt (a b : number) :
  num_le a b = true -> num_lt b a = false.
Proof.
  unfold num_le, num_lt, num_compare.
  rewrite (xreal_compare_antisym (xreal_of_number a) (xreal_of_number b)).
  destruct (xreal_compare (xreal_of_number a) (xreal_of_number b))
    as [[| |]|]; cbn; intros; try discriminate; reflexivity.
Qed.

(** Comparing with a number is comparing with the integer it equals. *)
Lemma num_lt_has_value (x r : number) (z : Z) :
  has_value r z -> num_lt x r = num_lt x (PInt z).
Proof.
  unfold has_value, num_lt, num_compare.
  cbn [xreal_of_number].
  destruct (xreal_of_number r) as [| |m e|]; cbn [xreal_compare];
    try discriminate.
  intros H. injection H as H.
  destruct (xreal_of_number x) as [| |mx ex|]; cbn [xreal_compare];
    try reflexivity.
  set (c := Z.min (Z.min ex e) 0).
  rewrite (cmp_scaled_common m e z 0 c) in H by (subst c; lia).
  rewrite (cmp_scaled_common mx ex m e c) by (subst c; lia).
  rewrite (cmp_scaled_common mx ex z 0 c) by (subst c; lia).
  apply Z.compare_eq in H. rewrite H. reflexivity.
Qed.

(** [x <= a] and [a <= b] give [x <= b]. *)
Lemma num_le_int_trans (x : number) (a b : Z) :
  num_le x (PInt a) = true -> a <= b -> num_le x (PInt b) = true.
Proof.
  unfold num_le, num_compare. cbn [xreal_of_number].
  destruct (xreal_of_number x) as [| |m e|]; cbn [xreal_compare];
    try (intros; assumption).
  set (c := Z.min e 0).
  rewrite (cmp_scaled_common m e a 0 c), (cmp_scaled_common m e b 0 c)
    by (subst c; lia).
  assert (Hp : 0 < 2 ^ (0 - c)) by (apply Z.pow_pos_nonneg; subst c; lia).
  intros H Hab.
  assert (Hle : m * 2 ^ (e - c) <= a * 2 ^ (0 - c)).
  { destruct (Z.compare_spec (m * 2 ^ (e - c)) (a * 2 ^ (0 - c)));
      try discriminate; lia. }
  assert (Hab' : a * 2 ^ (0 - c) <= b * 2 ^ (0 - c))
    by (apply Z.mul_le_mono_nonneg_r; lia).
  destruct (Z.compare_spec (m * 2 ^ (e - c)) (b * 2 ^ (0 - c)));
    try reflexivity; lia.
Qed.

(** A legitimate amount is at most 1000, the top of the widest range. *)
Lemma legitimate_amount_small (category : string) (x : number) :
  (let (lo, hi) := amount_range category in legitimate_amount lo hi x) ->
  num_lt (PInt 1000) x = false.
Proof.
  pose proof (amount_range_facts category) as Hf.
  destruct (amount_range category) as [lo hi].
  destruct Hf as (_ & _ & Hhi & _). intros [Hr _].
  apply num_le_not_lt. unfold in_range in Hr.
  apply andb_true_iff in Hr. destruct Hr as [_ Hr].
  apply (num_le_int_trans x hi 1000 Hr Hhi).
Qed.

(** ** The distance *)





(** ** Batches *)

Lemma repeatM_app {A} (body : G A) (n m : nat) (w : World) :
  repeatM (n + m) body w =
  bind (repeatM n body)
       (fun xs => bind (repeatM m body) (fun ys => ret (xs ++ ys)%list)) w.
Proof.
  revert w. induction n as [|n IH]; intros w.
  - cbn [Nat.add repeatM]. unfold bind at 1. unfold ret at 1.
    unfold bind. destruct (repeatM m body w) as [[ys|e] w1]; reflexivity.
  - cbn [Nat.add repeatM]. unfold bind.
    destruct (body w) as [[x|e] w1]; [|reflexivity].
    rewrite IH. unfold bind.
    destruct (repeatM n body w1) as [[xs|e] w2]; [|reflexivity].
    unfold ret.
    destruct (repeatM m body w2) as [[ys|e] w3]; reflexivity.
Qed.

(** X17.  A batch of [a + b] transactions is a batch of [a] followed by a
    batch of [b] drawn from where the first left the random, entropy and
    clock sources: cutting a run into batches does not change the
    transactions produced. *)
Theorem generate_batch_splits (self : TransactionGenerator) (a b : Z)
    (w : World) :
  0 <= a -> 0 <= b ->
  generate_batch self (a + b) w =
  bind (generate_batch self a)
       (fun xs => bind (generate_batch self b) (fun ys => ret (xs ++ ys)%list)) w.
Proof.
  intros Ha Hb. unfold generate_batch.
  rewrite Z2Nat.inj_add by assumption. apply repeatM_app.
Qed.

Lemma repeatM_Forall {A} (body : G A) (Q : A -> Prop) :
  (forall w a w', body w = (Ok a, w') -> Q a) ->
  forall (n : nat) (w w' : World) (l : list A),
    repeatM n body w = (Ok l, w') -> Forall Q l.
Proof.
  intros Hbody. induction n as [|n IH]; intros w w' l; cbn [repeatM].
  - intros H. injection H as <- _. constructor.
  - intros H. apply bind_inv in H. destruct H as (x & w1 & Hx & H).
    apply bind_inv in H. destruct H as (xs & w2 & Hxs & H).
    injection H as <- _. constructor.
    + apply (Hbody _ _ _ Hx).
    + apply (IH _ _ _ Hxs).
Qed.

(** ** Statistics *)

Lemma filter_none (l : list Transaction) :
  Forall (fun tx => is_fraud tx = false) l -> filter is_fraud l = [].
Proof.
  induction 1 as [|tx l Htx _ IH]; cbn [filter]; [reflexivity|].
  rewrite Htx. exact IH.
Qed.

(** X18.  For a non-empty batch without fraud [get_fraud_statistics] counts
    no fraud, counts every transaction legitimate and reports the
    percentage as the float [0.0], where the empty batch gets the integer
    [0]. *)
Theorem fraud_free_statistics (transactions : list Transaction) :
  transactions <> [] ->
  Forall (fun tx => is_fraud tx = false) transactions ->
  get_fraud_statistics transactions =
  Ok {| total_transactions := len transactions;
        fraud_count := 0;
        legitimate_count := len transactions;
        fraud_percentage := PFloat (S754_zero false) |}.
Proof.
  intros Hne Hall. unfold get_fraud_statistics.
  rewrite count_fraud_filter, (filter_none _ Hall).
  change (len (@nil Transaction)) with 0.
  assert (Hpos : 0 < len transactions).
  { destruct transactions; [congruence|]. unfold len. cbn [List.length]. lia. }
  destruct (Z.ltb_spec 0 (len transactions)); [|lia].
  unfold int_truediv.
  destruct (Z.eqb_spec (len transactions) 0); [lia|].
  rewrite Z.sub_0_r.
  destruct (len transactions) as [|p|p]; try lia.
  reflexivity.
Qed.
Section Lawful.
Context {L : RandomLaws R}.

(** Under the library's promise on [_randbelow], [random.choice] returns
    on every non-empty sequence. *)
Lemma total_choice {A} (l : list A) : l <> [] -> total (choice l).
Proof.
  intros Hne w. unfold choice. destruct l as [|x l]; [congruence|].
  unfold bind, with_random.
  pose proof (randbelow_range (len (x :: l)) (w_random w)) as Hr.
  destruct (rng_randbelow (len (x :: l)) (w_random w)) as [i g].
  cbn [fst] in Hr.
  assert (Hi : 0 <= i < len (x :: l))
    by (apply Hr; unfold len; cbn [List.length]; lia).
  destruct (nth_error (x :: l) (Z.to_nat i)) as [y|] eqn:Hn.
  - eexists _, _. reflexivity.
  - apply nth_error_None in Hn. unfold len in Hi. lia.
Qed.

Lemma total_fraud_amount (category : string) :
  total (_generate_fraud_amount category).
Proof.
  unfold _generate_fraud_amount.
  apply total_bind; [apply total_choice; discriminate|intros fraud_type].
  destruct (String.eqb fraud_type "high_value").
  - apply total_bind; [apply total_with_random|intros ?]. apply total_ret.
  - apply total_normal_amount.
Qed.

Lemma total_bind_post {A B} (c : G A) (k : A -> G B) (Q : A -> Prop) :
  (forall w, exists a w', c w = (Ok a, w') /\ Q a) ->
  (forall a, Q a -> total (k a)) -> total (bind c k).
Proof.
  intros Hc Hk w. destruct (Hc w) as (a & w1 & Hcw & Ha).
  destruct (Hk a Ha w1) as (b & w2 & Hkw).
  exists b, w2. unfold bind. rewrite Hcw. exact Hkw.
Qed.

Lemma choice_returns_member {A} (l : list A) :
  l <> [] -> forall w, exists x w', choice l w = (Ok x, w') /\ In x l.
Proof.
  intros Hne w. destruct (total_choice l Hne w) as (x & w' & Hrun).
  exists x, w'. split; [exact Hrun|apply (choice_inv _ _ _ _ Hrun)].
Qed.

Lemma total_generate_transaction (self : TransactionGenerator)
    (is_fraud0 : option bool) :
  ready self -> distances_defined self ->
  total (generate_transaction self is_fraud0).
Proof.
  intros ((r & Hr) & (m & ms & Hm) & (c & cs & Hc)) Hdistances.
  unfold generate_transaction.
  pose proof (fun customer merchant =>
                Hdistances _ _ customer merchant Hc Hm) as Hd.
  rewrite Hr, Hm, Hc. cbn [get_attr].
  apply total_bind.
  { destruct is_fraud0; [apply total_ret|].
    apply total_bind; [apply total_with_random|intros ?].
    apply total_bind; [apply total_ret|intros ?]. apply total_ret. }
  intros is_fraud1.
  apply total_bind_ret.
  apply (total_bind_post _ _ (fun x => In x (c :: cs)));
    [apply choice_returns_member; discriminate|intros customer Hcustomer].
  apply total_bind_ret.
  apply (total_bind_post _ _ (fun x => In x (m :: ms)));
    [apply choice_returns_member; discriminate|intros merchant Hmerchant].
  apply total_bind; [apply total_with_clock|intros ?].
  apply total_bind; [apply total_randint|intros ?].
  cbv zeta.
  apply total_bind.
  { destruct is_fraud1; [apply total_fraud_amount|apply total_normal_amount]. }
  intros amount0.
  destruct (Hd customer merchant Hcustomer Hmerchant) as (d & ->).
  apply (total_bind_ret d).
  apply total_bind; [apply total_with_entropy|intros ?].
  apply total_bind; [apply total_choice; discriminate|intros ?].
  apply total_ret.
Qed.

(** X19.  On a generator with a fraud ratio and non-empty pools whose
    coordinates are close enough for every distance between a customer's
    home and a merchant to be computed (no power of [_calculate_distance]
    overflows), and with a [random] module that keeps [_randbelow(n)]
    below [n], [generate_batch(n)] never raises and returns exactly [n]
    transactions (none for a negative [n]). *)
Theorem generate_batch_length (self : TransactionGenerator) (n : Z)
    (w : World) :
  ready self -> distances_defined self ->
  exists txs w',
    generate_batch self n w = (Ok txs, w') /\ len txs = Z.max n 0.
Proof.
  intros Hready Hdistances. unfold generate_batch.
  destruct (repeatM_total (generate_transaction self None)
              (total_generate_transaction self None Hready Hdistances)
              (Z.to_nat n) w)
    as (txs & w' & Hrun & Hlen).
  exists txs, w'. split; [exact Hrun|]. unfold len. rewrite Hlen. lia.
Qed.


(** X20.  The timestamp of a returned transaction is an instant of the 24
    hours that end at the clock reading taken during the call (both ends
    included), and [is_unusual_hour] tells whether that instant, not the
    clock reading, falls between 02:00 and 05:00 of its day. *)
Theorem generated_timestamp_in_last_day (self : TransactionGenerator)
    (is_fraud0 : option bool) (w w' : World) (tx : Transaction) :
  generate_transaction self is_fraud0 w = (Ok tx, w') ->
  let now := fst (clock_utcnow (w_clock w)) in
  exists t,
    now - day <= t <= now /\
    timestamp tx = isoformat t ++ "Z" /\
    (is_unusual_hour tx = true <-> two_am <= t mod day < five_am).
Proof.
  intros H. apply generate_transaction_inv in H.
  destruct H as (cs & customer & ms & merchant & g & seconds & w7 & amount0
                 & w8 & distance & u & card & _ & _ & _ & _ & _ & Hs & _ & _
                 & _ & _ & Htx).
  cbv zeta. exists (fst (clock_utcnow (w_clock w)) - seconds * 1000000).
  pose proof (randbelow_range 86401 g ltac:(lia)) as Hr. rewrite <- Hs in Hr.
  rewrite Htx. cbn [timestamp is_unusual_hour].
  split; [unfold day; lia|]. split; [reflexivity|].
  apply unusual_hour_window.
Qed.

(** X21.  An amount above 1000 marks a fraud: a returned transaction whose
    amount exceeds 1000 is labelled fraudulent and its amount is a
    high-value draw, between 3000 and 10000.  No transaction has an amount
    strictly between 1000 and 3000. *)
Theorem large_amount_is_fraud (self : TransactionGenerator)
    (is_fraud0 : option bool) (w w' : World) (tx : Transaction) :
  generate_transaction self is_fraud0 w = (Ok tx, w') ->
  num_lt (PInt 1000) (amount tx) = true ->
  is_fraud tx = true /\ high_value_amount (amount tx).
Proof.
  intros H Hbig. apply generate_transaction_inv in H.
  destruct H as (cs & customer & ms & merchant & g & seconds & w7 & amount0
                 & w8 & distance & u & card & _ & _ & _ & _ & _ & _ & _
                 & Hamount & _ & _ & Htx).
  rewrite Htx in Hbig. cbn [amount] in Hbig.
  assert (Ha : amount tx = py_round2 amount0) by (rewrite Htx; reflexivity).
  rewrite Ha.
  set (category := m_merchant_category merchant) in *.
  pose proof (legitimate_amount_small category (py_round2 amount0)) as Hsmall.
  destruct (is_fraud tx).
  - split; [reflexivity|].
    pose proof (fraud_amount_kinds category w7 w8 amount0 Hamount) as Hk.
    destruct (amount_range category) as [lo hi].
    destruct Hk as [Hh|Hl]; [exact Hh|].
    rewrite (Hsmall Hl) in Hbig. discriminate.
  - pose proof (normal_amount_legitimate category w7 w8 amount0 Hamount) as Hl.
    rewrite (Hsmall Hl) in Hbig. discriminate.
Qed.
End Lawful.
Section Unit.
Context {Un : RandomUnit R}.

Lemma label_at_zero (x r : number) :
  num_le (PInt 0) x = true -> has_value r 0 -> num_lt x r = false.
Proof.
  intros Hx Hr. rewrite (num_lt_has_value x r 0 Hr).
  apply num_le_not_lt, Hx.
Qed.

Lemma label_at_one (x r : number) :
  num_lt x (PInt 1) = true -> has_value r 1 -> num_lt x r = true.
Proof. intros Hx Hr. rewrite (num_lt_has_value x r 1 Hr). exact Hx. Qed.

(** X22.  The two ends of the fraud ratio are exact: with [random()] in
    [[0, 1)], a generator whose ratio equals 0 labels no transaction of a
    batch fraudulent, and one whose ratio equals 1 labels every one. *)
Theorem generate_batch_extreme_ratios (self : TransactionGenerator)
    (r : number) (n : Z) (w w' : World) (txs : list Transaction) :
  fraud_ratio self = Some r ->
  generate_batch self n w = (Ok txs, w') ->
  (has_value r 0 -> Forall (fun tx => is_fraud tx = false) txs) /\
  (has_value r 1 -> Forall (fun tx => is_fraud tx = true) txs).
Proof.
  intros Hr Hrun. unfold generate_batch in Hrun.
  split; intros Hv;
    refine (repeatM_Forall _ _ _ _ _ _ _ Hrun);
    intros w0 tx w1 Htx; apply generate_transaction_inv in Htx;
    destruct Htx as (cs & customer & ms & merchant & g & seconds & w7
                     & amount0 & w8 & distance & u & card & Hlab & _);
    cbn [label_from] in Hlab; destruct Hlab as (r' & Hr' & ->);
    assert (r' = r) by congruence; subst r';
    destruct (random_unit (w_random w0)) as [H0 H1].
  - apply label_at_zero; assumption.
  - apply label_at_one; assumption.
Qed.

End Unit.

End Facts.

(** The theorems at the counter generator. *)

Lemma counter_random_unit : RandomUnit Fixtures.counter_random.
Proof. split. intros g. split; reflexivity. Qed.

Lemma small_generator_ready : ready Fixtures.small_generator.
Proof.
  split; [eexists; reflexivity|].
  split; eexists _, _; reflexivity.
Qed.

Lemma small_generator_distances :
  distances_defined (P := Fixtures.first_argument_pow)
    Fixtures.small_generator.
Proof.
  intros cs ms customer merchant Hcs Hms Hc Hm.
  injection Hcs as <-. injection Hms as <-.
  destruct Hc as [<-|[]]. destruct Hm as [<-|[]].
  eexists. reflexivity.
Qed.

Local Abbreviation transaction_of :=
  (generate_transaction (R := Fixtures.counter_random)
     (F := Fixtures.constant_faker) (U := Fixtures.counter_uuid)
     (C := Fixtures.fixed_clock) (P := Fixtures.first_argument_pow)).

Local Abbreviation batch_of :=
  (generate_batch (R := Fixtures.counter_random)
     (F := Fixtures.constant_faker) (U := Fixtures.counter_uuid)
     (C := Fixtures.fixed_clock) (P := Fixtures.first_argument_pow)).

Lemma generate_batch_length_witness :
  exists txs w',
    batch_of Fixtures.small_generator 3 (Fixtures.new_world 0) = (Ok txs, w')
    /\ len txs = 3.
Proof.
  destruct (generate_batch_length (L := counter_random_laws)
              (P := Fixtures.first_argument_pow)
              Fixtures.small_generator 3 (Fixtures.new_world 0)
              small_generator_ready small_generator_distances)
    as (txs & w' & Hrun & Hlen).
  exists txs, w'. split; [exact Hrun|exact Hlen].
Defined.

Lemma generated_transaction_refers_to_pools_witness :
  exists tx w',
    transaction_of Fixtures.small_generator (Some false) (Fixtures.new_world 0)
    = (Ok tx, w') /\
    merchant_id tx = "M0123456789ab" /\ currency tx = "USD" /\
    is_fraud tx = false.
Proof.
  destruct (transaction_of Fixtures.small_generator (Some false)
              (Fixtures.new_world 0))
    as [[tx|e] w'] eqn:Hrun; [|vm_compute in Hrun; discriminate].
  exists tx, w'. split; [reflexivity|].
  destruct (generated_transaction_refers_to_pools _ _ _ _ _ Hrun)
    as ((ms & merchant & Hms & Hin & Hid & _) & _ & Hcur & Hlabel).
  injection Hms as <-. destruct Hin as [<-|[]].
  split; [exact Hid|]. split; [exact Hcur|]. apply Hlabel. reflexivity.
Defined.

Lemma generate_batch_splits_witness :
  batch_of Fixtures.small_generator 3 (Fixtures.new_world 0) =
  bind (batch_of Fixtures.small_generator 1)
       (fun xs => bind (batch_of Fixtures.small_generator 2)
                       (fun ys => ret (xs ++ ys)%list))
       (Fixtures.new_world 0).
Proof.
  exact (generate_batch_splits (P := Fixtures.first_argument_pow)
           Fixtures.small_generator 1 2 (Fixtures.new_world 0)
           ltac:(lia) ltac:(lia)).
Defined.

Lemma generated_timestamp_in_last_day_witness :
  exists tx w' t,
    transaction_of Fixtures.small_generator (Some false) (Fixtures.new_world 0)
    = (Ok tx, w') /\
    43200000000 - day <= t <= 43200000000 /\
    (is_unusual_hour tx = true <-> two_am <= t mod day < five_am).
Proof.
  destruct (transaction_of Fixtures.small_generator (Some false)
              (Fixtures.new_world 0))
    as [[tx|e] w'] eqn:Hrun; [|vm_compute in Hrun; discriminate].
  destruct (generated_timestamp_in_last_day (L := counter_random_laws)
              _ _ _ _ _ Hrun) as (t & Hwindow & _ & Hhour).
  exists tx, w', t. split; [reflexivity|]. split; [exact Hwindow|exact Hhour].
Defined.

(** A fraud of the high-value kind: the counter generator draws 3000. *)
Lemma large_amount_is_fraud_witness :
  exists tx w',
    transaction_of Fixtures.small_generator (Some true) (Scenarios.world_at 1)
    = (Ok tx, w') /\
    is_fraud tx = true /\ in_range 3000 10000 (amount tx) = true.
Proof.
  destruct (transaction_of Fixtures.small_generator (Some true)
              (Scenarios.world_at 1))
    as [[tx|e] w'] eqn:Hrun; [|vm_compute in Hrun; discriminate].
  exists tx, w'. split; [reflexivity|].
  assert (Hbig : num_lt (PInt 1000) (amount tx) = true)
    by (vm_compute in Hrun; injection Hrun as <- _; reflexivity).
  destruct (large_amount_is_fraud (L := counter_random_laws)
              _ _ _ _ _ Hrun Hbig) as (Hfraud & Hrange & _).
  split; [exact Hfraud|exact Hrange].
Defined.

Lemma generate_batch_extreme_ratios_witness :
  exists txs w',
    batch_of (Scenarios.with_ratio (PInt 0)) 3 (Fixtures.new_world 0)
    = (Ok txs, w') /\
    Forall (fun tx => is_fraud tx = false) txs.
Proof.
  destruct (batch_of (Scenarios.with_ratio (PInt 0)) 3 (Fixtures.new_world 0))
    as [[txs|e] w'] eqn:Hrun; [|vm_compute in Hrun; discriminate].
  exists txs, w'. split; [reflexivity|].
  apply (generate_batch_extreme_ratios (Un := counter_random_unit)
           (Scenarios.with_ratio (PInt 0)) (PInt 0) 3 _ _ _ eq_refl Hrun).
  reflexivity.
Defined.

Lemma fraud_free_statistics_witness :
  get_fraud_statistics
    [Scenarios.legitimate_purchase; Scenarios.legitimate_purchase]
  = Ok {| total_transactions := 2; fraud_count := 0; legitimate_count := 2;
          fraud_percentage := PFloat (S754_zero false) |}.
Proof.
  apply (fraud_free_statistics
           [Scenarios.legitimate_purchase; Scenarios.legitimate_purchase]).
  - discriminate.
  - repeat constructor.
Defined.

End GeneratorSpec.

(* ================================================================== *)
(** * Further properties of the batch loop *)
(* ================================================================== *)

Module MainLoopSpec.
Import KinesisProducer Main MainSpec MainLoop.
Import ListNotations.
Local Open Scope Z_scope.

Section Loop.
Variable env : Environment.
Variables num_transactions batch_size batch_interval_ms : Z.

Local Abbreviation loop_test := (loop_test env num_transactions).
Local Abbreviation loop_body :=
  (loop_body env num_transactions batch_size batch_interval_ms).
Local Abbreviation while_loop :=
  (while_loop env num_transactions batch_size batch_interval_ms).
Local Abbreviation run_producer :=
  (run_producer env num_transactions batch_size batch_interval_ms).
Local Abbreviation stops_at := (stops_at env num_transactions).
Local Abbreviation at_boundary := (at_boundary env).

(** A loop that returns has returned at a boundary where its condition
    fails. *)
Lemma while_loop_some :
  forall (n i : nat) (st st' : LoopState),
    at_boundary i st ->
    while_loop n i st = Some st' ->
    exists j, (i <= j)%nat /\ at_boundary j st' /\ stops_at j.
Proof.
  induction n as [|n IH]; intros i st st' Hinv; cbn [Main.while_loop];
    destruct (loop_test i st) eqn:Htest; intros H; try discriminate.
  - injection H as <-. exists i. split; [lia|]. split; [exact Hinv|].
    apply (loop_test_false_iff env num_transactions i st Hinv), Htest.
  - destruct (IH (S i) (loop_body i st) st'
                (at_boundary_step env num_transactions batch_size
                   batch_interval_ms i st Hinv) H)
      as (j & Hj & Hinv' & Hstop).
    exists j. split; [lia|]. split; assumption.
  - injection H as <-. exists i. split; [lia|]. split; [exact Hinv|].
    apply (loop_test_false_iff env num_transactions i st Hinv), Htest.
Qed.

Lemma run_producer_some (fuel : nat) (st : LoopState) :
  run_producer fuel = Some st ->
  exists j st0,
    while_loop fuel 0 initial = Some st0 /\
    at_boundary j st0 /\ stops_at j /\
    total_sent st = total_sent st0 /\ batch_count st = batch_count st0 /\
    events st = events st0 ++
                [ProducerFinished (total_sent st0) (batch_count st0); Closed].
Proof.
  unfold Main.run_producer.
  destruct (while_loop fuel 0 initial) as [st0|] eqn:Hloop; [|discriminate].
  intros H. injection H as <-.
  destruct (while_loop_some fuel 0 initial st0 (at_boundary_initial env) Hloop)
    as (j & _ & Hinv & Hstop).
  exists j, st0. split; [reflexivity|]. split; [exact Hinv|].
  split; [exact Hstop|]. cbn [total_sent batch_count events].
  repeat split.
Qed.

Lemma sent_after_within :
  counts_within_batch env num_transactions batch_size ->
  0 <= num_transactions ->
  forall i, 0 <= sent_after env i <= num_transactions.
Proof.
  intros Hc Hn. induction i as [|i IH]; cbn [sent_after]; [lia|].
  specialize (Hc i). unfold current_batch_size in Hc. lia.
Qed.

(** X23.  When every call of [put_records_batch] reports between none and
    all of the records of its batch as successful, [total_sent] never
    exceeds [num_transactions]: the cap on [current_batch_size] works.  A
    run that ends without a signal ends with [total_sent] equal to
    [num_transactions] exactly. *)
Theorem run_producer_never_overshoots (fuel : nat) (st : LoopState) :
  counts_within_batch env num_transactions batch_size ->
  0 <= num_transactions ->
  run_producer fuel = Some st ->
  0 <= total_sent st <= num_transactions /\
  (never_interrupted env -> total_sent st = num_transactions).
Proof.
  intros Hc Hn Hrun.
  destruct (run_producer_some fuel st Hrun)
    as (j & st0 & _ & [Hs _] & Hstop & Hts & _).
  pose proof (sent_after_within Hc Hn j) as Hj.
  rewrite Hts, Hs. split; [exact Hj|].
  intros Hq. destruct Hstop as [Hstop|Hstop]; [lia|].
  rewrite Hq in Hstop. discriminate.
Qed.



Lemma count_pauses_app (a b : list Event) :
  count_pauses (a ++ b) = count_pauses a + count_pauses b.
Proof.
  unfold count_pauses. rewrite filter_app, length_app. lia.
Qed.

Lemma loop_body_pauses (i : nat) (st : LoopState) :
  count_pauses (events (loop_body i st)) =
  count_pauses (events st) +
  (if (0 <? batch_interval_ms)
      && (total_sent (loop_body i st) <? num_transactions)
   then 1 else 0).
Proof.
  cbn [Main.loop_body events total_sent].
  destruct ((0 <? batch_interval_ms)
            && (total_sent st + successful (put_result env i)
                <? num_transactions));
    rewrite !count_pauses_app; cbn; lia.
Qed.

Lemma batch_count_loop_body (i : nat) (st : LoopState) :
  batch_count (loop_body i st) = batch_count st + 1.
Proof. reflexivity. Qed.

(** Either the loop made no pass, or it paused after every pass but a
    last one that reached the target. *)
Lemma while_loop_pauses :
  forall (n i : nat) (st st' : LoopState),
    while_loop n i st = Some st' ->
    st' = st \/
    (total_sent st < num_transactions /\
     batch_count st < batch_count st' /\
     count_pauses (events st') =
     count_pauses (events st) +
     (if 0 <? batch_interval_ms
      then batch_count st' - batch_count st
           - (if num_transactions <=? total_sent st' then 1 else 0)
      else 0)).
Proof.
  induction n as [|n IH]; intros i st st'; cbn [Main.while_loop];
    destruct (loop_test i st) eqn:Htest; intros H; try discriminate;
    try (injection H as <-; left; reflexivity).
  right.
  assert (Hlt : total_sent st < num_transactions).
  { unfold Main.loop_test in Htest. apply andb_true_iff in Htest.
    destruct Htest as [Htest _]. apply Z.ltb_lt in Htest. exact Htest. }
  split; [exact Hlt|].
  pose proof (loop_body_pauses i st) as Hp.
  pose proof (batch_count_loop_body i st) as Hb.
  destruct (IH (S i) (loop_body i st) st' H)
    as [->|(Hlt1 & Hbc & Hpauses)].
  - split; [lia|]. rewrite Hp, Hb.
    destruct (0 <? batch_interval_ms); cbn [andb]; [|lia].
    destruct (Z.ltb_spec (total_sent (loop_body i st)) num_transactions);
      destruct (Z.leb_spec num_transactions (total_sent (loop_body i st)));
      lia.
  - split; [lia|]. rewrite Hpauses, Hp.
    destruct (0 <? batch_interval_ms); cbn [andb]; [|lia].
    destruct (Z.ltb_spec (total_sent (loop_body i st)) num_transactions);
      lia.
Qed.

(** X25.  Rate limiting pauses between batches, not after the last one: a
    run with a positive [batch_interval_ms] sleeps once per batch, except
    after a batch that brings [total_sent] to the target; a run ended by a
    signal below the target has slept after every batch.  With an
    interval of zero or less it never sleeps. *)
Theorem run_producer_pauses (fuel : nat) (st : LoopState) :
  run_producer fuel = Some st ->
  count_pauses (events st) =
  if 0 <? batch_interval_ms
  then batch_count st
       - (if (0 <? batch_count st) && (num_transactions <=? total_sent st)
          then 1 else 0)
  else 0.
Proof.
  intros Hrun.
  destruct (run_producer_some fuel st Hrun)
    as (j & st0 & Hloop & _ & _ & Hts & Hbc & Hev).
  rewrite Hev, count_pauses_app, Hts, Hbc.
  change (count_pauses [ProducerFinished (total_sent st0) (batch_count st0);
                        Closed]) with 0.
  destruct (while_loop_pauses fuel 0 initial st0 Hloop)
    as [->|(_ & Hpos & Hp)].
  - cbn. destruct (0 <? batch_interval_ms); reflexivity.
  - rewrite Hp. cbn [initial events batch_count] in *.
    change (count_pauses []) with 0.
    destruct (0 <? batch_interval_ms); [|lia].
    destruct (Z.ltb_spec 0 (batch_count st0)); [|lia].
    cbn [andb]. lia.
Qed.

Lemma progress_logged_app (a b : list Event) :
  progress_logged (a ++ b) = progress_logged a ++ progress_logged b.
Proof. unfold progress_logged. apply flat_map_app. Qed.

(** What a pass of the loop logs as progress. *)
Lemma loop_body_progress (i : nat) (st : LoopState) :
  progress_logged (events (loop_body i st)) =
  progress_logged (events st)
  ++ [(total_sent (loop_body i st), num_transactions)].
Proof.
  cbn [Main.loop_body events total_sent].
  destruct ((0 <? batch_interval_ms)
            && (total_sent st + successful (put_result env i)
                <? num_transactions));
    rewrite !progress_logged_app; cbn [progress_logged flat_map app];
    rewrite ?app_nil_r; reflexivity.
Qed.

(** Every progress line written during the loop was written in a pass,
    with the target positive and the total of some later boundary. *)
Lemma while_loop_progress :
  forall (n i : nat) (st st' : LoopState),
    at_boundary i st ->
    while_loop n i st = Some st' ->
    exists logged,
      progress_logged (events st') = progress_logged (events st) ++ logged /\
      forall total target,
        In (total, target) logged ->
        target = num_transactions /\ 1 <= num_transactions + - total_sent st
        /\ exists j, total = sent_after env j.
Proof.
  induction n as [|n IH]; intros i st st' Hinv; cbn [Main.while_loop];
    destruct (loop_test i st) eqn:Htest; intros H; try discriminate;
    try (injection H as <-; exists []; rewrite app_nil_r;
         split; [reflexivity|intros ? ? []]).
  assert (Hlt : total_sent st < num_transactions).
  { unfold Main.loop_test in Htest. apply andb_true_iff in Htest.
    destruct Htest as [Htest _]. apply Z.ltb_lt in Htest. exact Htest. }
  pose proof (at_boundary_step env num_transactions batch_size
                batch_interval_ms i st Hinv) as Hinv1.
  destruct (IH (S i) (loop_body i st) st' Hinv1 H) as (logged & Hlog & Hall).
  exists ((total_sent (loop_body i st), num_transactions) :: logged).
  split.
  - rewrite Hlog, loop_body_progress, <- app_assoc. reflexivity.
  - intros total target [Hin|Hin].
    + injection Hin as <- <-. split; [reflexivity|]. split; [lia|].
      exists (S i). apply Hinv1.
    + destruct (Hall total target Hin) as (Ht & _ & Hj).
      split; [exact Ht|]. split; [lia|exact Hj].
Qed.

(** X26.  The progress percentage logged after each batch never divides by
    zero: every line is written with the target [num_transactions], which
    is at least 1 whenever a batch was sent at all.  When every call
    reports between none and all of its batch as successful, the logged
    total lies between 0 and the target, so the quotient is at most 1. *)
Theorem progress_never_divides_by_zero (fuel : nat) (st : LoopState)
    (total target : Z) :
  run_producer fuel = Some st ->
  In (total, target) (progress_logged (events st)) ->
  target = num_transactions /\ 1 <= target /\
  progress_pct total target <> Py.Raise Py.ZeroDivisionError /\
  (counts_within_batch env num_transactions batch_size ->
   0 <= total <= target).
Proof.
  intros Hrun Hin.
  destruct (run_producer_some fuel st Hrun)
    as (j & st0 & Hloop & _ & _ & _ & _ & Hev).
  rewrite Hev, progress_logged_app in Hin.
  cbn [progress_logged flat_map app] in Hin. rewrite app_nil_r in Hin.
  destruct (while_loop_progress fuel 0 initial st0 (at_boundary_initial env)
              Hloop) as (logged & Hlog & Hall).
  rewrite Hlog in Hin. cbn [initial events progress_logged flat_map app] in Hin.
  destruct (Hall total target Hin) as (Ht & Hpos & k & Hk).
  cbn [initial total_sent] in Hpos.
  split; [exact Ht|]. split; [lia|]. split.
  - unfold progress_pct, PyNum.int_truediv.
    destruct (Z.eqb_spec target 0); [lia|discriminate].
  - intros Hc. rewrite Ht, Hk.
    apply (sent_after_within Hc). lia.
Qed.

End Loop.

(** The theorems on a run of 25 records in batches of ten. *)

Lemma capped_sent_after (i : nat) :
  sent_after Scenarios.capped_delivery i = Z.min (Z.of_nat i * 10) 25.
Proof.
  induction i as [|i IH]; [reflexivity|].
  cbn [sent_after Scenarios.capped_delivery put_result successful].
  rewrite IH. lia.
Qed.

Lemma capped_delivers_all : delivers_all Scenarios.capped_delivery 25 10.
Proof.
  intros i. unfold current_batch_size. rewrite capped_sent_after. reflexivity.
Qed.

Lemma capped_counts_within_batch :
  counts_within_batch Scenarios.capped_delivery 25 10.
Proof.
  intros i. rewrite (capped_delivers_all i). unfold current_batch_size.
  rewrite capped_sent_after. lia.
Qed.

Lemma run_producer_never_overshoots_witness :
  exists st,
    run_producer Scenarios.capped_delivery 25 10 100 5 = Some st /\
    total_sent st = 25.
Proof.
  destruct (run_producer Scenarios.capped_delivery 25 10 100 5)
    as [st|] eqn:Hrun; [|vm_compute in Hrun; discriminate].
  exists st. split; [reflexivity|].
  destruct (run_producer_never_overshoots Scenarios.capped_delivery 25 10 100
              5 st capped_counts_within_batch ltac:(lia) Hrun) as [_ Hexact].
  apply Hexact. intros i. reflexivity.
Defined.


(** Three batches bring [total_sent] to 30: two pauses, none after the
    third. *)
Lemma run_producer_pauses_witness :
  exists st,
    run_producer Fixtures.all_delivered 25 10 1000 3 = Some st /\
    batch_count st = 3 /\ count_pauses (events st) = 2.
Proof.
  destruct (run_producer Fixtures.all_delivered 25 10 1000 3)
    as [st|] eqn:Hrun; [|vm_compute in Hrun; discriminate].
  exists st. split; [reflexivity|].
  rewrite (run_producer_pauses Fixtures.all_delivered 25 10 1000 3 st Hrun).
  vm_compute in Hrun. injection Hrun as <-. split; reflexivity.
Defined.

Lemma progress_never_divides_by_zero_witness :
  exists st,
    run_producer Scenarios.capped_delivery 25 10 100 5 = Some st /\
    progress_logged (events st) = [(10, 25); (20, 25); (25, 25)] /\
    progress_pct 20 25 <> Py.Raise Py.ZeroDivisionError.
Proof.
  destruct (run_producer Scenarios.capped_delivery 25 10 100 5)
    as [st|] eqn:Hrun; [|vm_compute in Hrun; discriminate].
  exists st. split; [reflexivity|].
  assert (Hlog : progress_logged (events st) = [(10, 25); (20, 25); (25, 25)])
    by (vm_compute in Hrun; injection Hrun as <-; reflexivity).
  split; [exact Hlog|].
  apply (progress_never_divides_by_zero Scenarios.capped_delivery 25 10 100
           5 st 20 25 Hrun).
  rewrite Hlog. right. left. reflexivity.
Defined.

End MainLoopSpec.
